(** * Conversation topology classifier and session exporter

    A shallow embedding of [server/services/topology.ts]: the signal
    scan over the message list, the order / threads / nesting metrics,
    the bracket-notation renderer, the prime-factor tags, the structure
    object, and the JSON export of a session.

    Conventions of the embedding.
    - JavaScript numbers that occur here are integer valued; they are
      modelled as [Z].  The one division, [branchingPoints / 2], is taken
      in [Q] (it is exact in binary floating point for every integer
      below 2^53) and rounded with [Qceiling] / [Qfloor].
    - Strings are sequences of 8-bit code units (the Latin-1 range of
      JavaScript's UTF-16 code units).
    - Exceptions are modelled with [option]: [None] stands for a thrown
      [RangeError] / [SyntaxError].
    - Reading the wall clock ([new Date()]) is an effect; it is modelled
      by a reader monad over the [World]. *)

From Stdlib Require Import ZArith QArith Qround List String Ascii Bool Lia.
From Stdlib Require Import DecimalString DecimalZ DecimalN DecimalFacts.
Import ListNotations.

#[local] Set Warnings "-register-all".

Local Open Scope string_scope.
Local Open Scope Z_scope.

(* ================================================================= *)
(** ** JavaScript primitives used by the module *)

Module JS.

(** [String.prototype.includes]: does [needle] occur in [s]? *)
Fixpoint includes (s needle : string) : bool :=
  String.prefix needle s
  || match s with
     | EmptyString => false
     | String _ rest => includes rest needle
     end.

(** Lower-casing of one code unit: A-Z, and the Latin-1 capitals
    U+00C0..U+00DE except the multiplication sign U+00D7. *)
Definition lowerChar (c : ascii) : ascii :=
  let n := nat_of_ascii c in
  if ((65 <=? n) && (n <=? 90))%nat
     || ((192 <=? n) && (n <=? 222) && negb (n =? 215))%nat
  then ascii_of_nat (n + 32)
  else c.

(** [String.prototype.toLowerCase]. *)
Fixpoint toLowerCase (s : string) : string :=
  match s with
  | EmptyString => EmptyString
  | String c rest => String (lowerChar c) (toLowerCase rest)
  end.

(** [ToString] applied to an integer-valued number (of magnitude below
    10^21, where JavaScript still prints every digit). *)
Definition Number_toString (z : Z) : string :=
  NilZero.string_of_int (Z.to_int z).

(** [Array(n).fill(x)]: a [RangeError] unless [n] is a valid array
    length. *)
Definition Array_fill {A : Type} (n : Z) (x : A) : option (list A) :=
  if (0 <=? n) && (n <? 2 ^ 32) then Some (repeat x (Z.to_nat n)) else None.

(** [Array.prototype.join]. *)
Definition join (sep : string) (l : list string) : string :=
  String.concat sep l.

(** [x === "lit"] where [x] may be [null]. *)
Definition nullable_str_eq (x : option string) (lit : string) : bool :=
  match x with
  | Some s => String.eqb s lit
  | None => false
  end.

Definition Math_max : Z -> Z -> Z := Z.max.
Definition Math_min : Z -> Z -> Z := Z.min.
Definition Math_ceil : Q -> Z := Qceiling.
Definition Math_floor : Q -> Z := Qfloor.

End JS.

(* ================================================================= *)
(** ** JSON values *)

(** The values [JSON.stringify] / [JSON.parse] work on.  Objects keep
    their properties in insertion order. *)
Inductive json : Type :=
| JNull : json
| JBool : bool -> json
| JNum : Z -> json
| JStr : string -> json
| JArr : list json -> json
| JObj : list (string * json) -> json.

(* ================================================================= *)
(** ** Dates and the clock *)

(** A (valid) [Date] object, given by its time value: milliseconds
    since the epoch, UTC. *)
Record Date : Type := mkDate { getTime : Z }.

(** The state of the world the module can observe: the wall clock that
    [new Date()] reads. *)
Record World : Type := mkWorld { clock : Date }.

(** Computations that may read the world. *)
Definition Eff (A : Type) : Type := World -> A.

Definition ret {A : Type} (a : A) : Eff A := fun _ => a.

Definition bind {A B : Type} (m : Eff A) (k : A -> Eff B) : Eff B :=
  fun w => k (m w) w.

Notation "x <- m ;; k" := (bind m (fun x => k))
  (at level 61, m at next level, right associativity).

(** [new Date()]. *)
Definition new_Date : Eff Date := fun w => clock w.

(** A computation is pure when its result does not depend on the world
    it runs in. *)
Definition pure_eff {A : Type} (m : Eff A) : Prop :=
  forall w1 w2 : World, m w1 = m w2.

(* ----------------------------------------------------------------- *)
(** *** [Date.prototype.toISOString] *)

Fixpoint zeros (n : nat) : string :=
  match n with
  | O => EmptyString
  | S n' => String "0" (zeros n')
  end.

(** Decimal rendering of [n] on at least [width] digits. *)
Definition pad (width : nat) (n : Z) : string :=
  let digits := JS.Number_toString n in
  zeros (width - String.length digits) ++ digits.

(** Year, month and day of the proleptic Gregorian calendar from the
    number of days since 1970-01-01. *)
Definition civilFromDays (days : Z) : Z * Z * Z :=
  let z := days + 719468 in
  let era := z / 146097 in
  let doe := z - era * 146097 in
  let yoe := (doe - doe / 1460 + doe / 36524 - doe / 146096) / 365 in
  let y := yoe + era * 400 in
  let doy := doe - (365 * yoe + yoe / 4 - yoe / 100) in
  let mp := (5 * doy + 2) / 153 in
  let d := doy - (153 * mp + 2) / 5 + 1 in
  let m := if mp <? 10 then mp + 3 else mp - 9 in
  (if m <=? 2 then y + 1 else y, m, d).

(** [YYYY-MM-DDTHH:mm:ss.sssZ], with the six-digit signed year outside
    0..9999. *)
Definition toISOString (d : Date) : string :=
  let t := getTime d in
  let day := t / 86400000 in
  let ms := t mod 86400000 in
  let '(year, month, dom) := civilFromDays day in
  let yearStr :=
    if (0 <=? year) && (year <=? 9999) then pad 4 year
    else if year <? 0 then "-" ++ pad 6 (- year)
    else "+" ++ pad 6 year in
  yearStr ++ "-" ++ pad 2 month ++ "-" ++ pad 2 dom
    ++ "T" ++ pad 2 (ms / 3600000)
    ++ ":" ++ pad 2 ((ms / 60000) mod 60)
    ++ ":" ++ pad 2 ((ms / 1000) mod 60)
    ++ "." ++ pad 3 (ms mod 1000) ++ "Z".

(* ================================================================= *)
(** ** [JSON.stringify] and [JSON.parse] *)

Module JSON.

Definition dquote : ascii := ascii_of_nat 34.
Definition backslash : ascii := ascii_of_nat 92.
Definition newline : string := String (ascii_of_nat 10) EmptyString.

(** *** Serialisation *)

(** Lower-case hexadecimal digit of a value below 16. *)
Definition hexDigit (n : nat) : ascii :=
  if (n <? 10)%nat then ascii_of_nat (48 + n) else ascii_of_nat (87 + n).

(** [QuoteJSONString], one code unit: the two-character escapes, the
    [\u00xx] form for the other control characters, the unit itself
    otherwise. *)
Definition quoteChar (c : ascii) : string :=
  let n := nat_of_ascii c in
  if (n =? 8)%nat then "\b"
  else if (n =? 9)%nat then "\t"
  else if (n =? 10)%nat then "\n"
  else if (n =? 12)%nat then "\f"
  else if (n =? 13)%nat then "\r"
  else if (n =? 34)%nat then String backslash (String dquote EmptyString)
  else if (n =? 92)%nat then "\\"
  else if (n <? 32)%nat
       then "\u00" ++ String (hexDigit (n / 16))
                        (String (hexDigit (n mod 16)) EmptyString)
  else String c EmptyString.

Fixpoint quoteBody (s : string) : string :=
  match s with
  | EmptyString => EmptyString
  | String c rest => quoteChar c ++ quoteBody rest
  end.

Definition quote (s : string) : string :=
  String dquote (quoteBody s ++ String dquote EmptyString).

(** The line break and indentation put inside brackets; nothing when
    the gap is empty. *)
Definition lineBreak (gap indent : string) : string :=
  match gap with
  | EmptyString => EmptyString
  | _ => newline ++ indent
  end.

Definition colon (gap : string) : string :=
  match gap with
  | EmptyString => ":"
  | _ => ": "
  end.

(** [SerializeJSONProperty] with [SerializeJSONObject] and
    [SerializeJSONArray]; [indent] is the current indentation. *)
Fixpoint serialize (gap indent : string) (v : json) : string :=
  match v with
  | JNull => "null"
  | JBool true => "true"
  | JBool false => "false"
  | JNum z => JS.Number_toString z
  | JStr s => quote s
  | JArr elements =>
      let stepback := indent in
      let indent := indent ++ gap in
      match elements with
      | [] => "[]"
      | _ :: _ =>
          let partial := map (serialize gap indent) elements in
          "[" ++ lineBreak gap indent
              ++ JS.join ("," ++ lineBreak gap indent) partial
              ++ lineBreak gap stepback ++ "]"
      end
  | JObj props =>
      let stepback := indent in
      let indent := indent ++ gap in
      match props with
      | [] => "{}"
      | _ :: _ =>
          let partial :=
            map (fun kv => quote (fst kv) ++ colon gap
                             ++ serialize gap indent (snd kv)) props in
          "{" ++ lineBreak gap indent
              ++ JS.join ("," ++ lineBreak gap indent) partial
              ++ lineBreak gap stepback ++ "}"
      end
  end.

(** The gap of a numeric [space] argument: that many spaces, at most
    ten. *)
Definition gapOf (space : Z) : string :=
  string_of_list_ascii (repeat " "%char (Z.to_nat (Z.min 10 space))).

(** [JSON.stringify(value, null, space)]. *)
Definition stringify (value : json) (space : Z) : string :=
  serialize (gapOf space) EmptyString value.

(** *** Parsing *)

Definition isWs (c : ascii) : bool :=
  let n := nat_of_ascii c in
  ((n =? 32) || (n =? 9) || (n =? 10) || (n =? 13))%nat.

Fixpoint skipWs (s : string) : string :=
  match s with
  | EmptyString => EmptyString
  | String c rest => if isWs c then skipWs rest else s
  end.

Definition digitOf (c : ascii) : option (Decimal.uint -> Decimal.uint) :=
  match c with
  | "0"%char => Some Decimal.D0
  | "1"%char => Some Decimal.D1
  | "2"%char => Some Decimal.D2
  | "3"%char => Some Decimal.D3
  | "4"%char => Some Decimal.D4
  | "5"%char => Some Decimal.D5
  | "6"%char => Some Decimal.D6
  | "7"%char => Some Decimal.D7
  | "8"%char => Some Decimal.D8
  | "9"%char => Some Decimal.D9
  | _ => None
  end.

(** The longest run of decimal digits at the head of [s]. *)
Fixpoint readDigits (s : string) : Decimal.uint * string :=
  match s with
  | EmptyString => (Decimal.Nil, s)
  | String c rest =>
      match digitOf c with
      | Some d => let '(ds, rest') := readDigits rest in (d ds, rest')
      | None => (Decimal.Nil, s)
      end
  end.

(** Does [s] go on with a digit, a fraction or an exponent? *)
Definition numberGoesOn (s : string) : bool :=
  match s with
  | EmptyString => false
  | String c _ =>
      match digitOf c with
      | Some _ => true
      | None => ((c =? ".") || (c =? "e") || (c =? "E"))%char
      end
  end.

(** Digits without a superfluous leading zero.  Literals that go on
    with a fraction or an exponent denote numbers outside this model
    and are refused. *)
Definition parseUnsigned (s : string) : option (Z * string) :=
  let '(ds, rest) := readDigits s in
  match ds with
  | Decimal.Nil => None
  | Decimal.D0 (Decimal.D0 _ | Decimal.D1 _ | Decimal.D2 _ | Decimal.D3 _
               | Decimal.D4 _ | Decimal.D5 _ | Decimal.D6 _ | Decimal.D7 _
               | Decimal.D8 _ | Decimal.D9 _) => None
  | _ => if numberGoesOn rest then None else Some (Z.of_uint ds, rest)
  end.

(** An integer literal: an optional minus sign, then the digits. *)
Definition parseNumber (s : string) : option (Z * string) :=
  match s with
  | EmptyString => None
  | String c rest =>
      if (c =? "-")%char then
        match parseUnsigned rest with
        | Some (n, rest') => Some (- n, rest')
        | None => None
        end
      else parseUnsigned s
  end.

Definition hexValue (c : ascii) : option nat :=
  let n := nat_of_ascii c in
  if ((48 <=? n) && (n <=? 57))%nat then Some (n - 48)%nat
  else if ((97 <=? n) && (n <=? 102))%nat then Some (n - 87)%nat
  else if ((65 <=? n) && (n <=? 70))%nat then Some (n - 55)%nat
  else None.

(** The code unit written [\uh1h2h3h4]; units above 255 are outside
    this model and are refused. *)
Definition unicodeEscape (h1 h2 h3 h4 : ascii) : option ascii :=
  match hexValue h1, hexValue h2, hexValue h3, hexValue h4 with
  | Some a, Some b, Some c, Some d =>
      let n := (((a * 16 + b) * 16 + c) * 16 + d)%nat in
      if (n <? 256)%nat then Some (ascii_of_nat n) else None
  | _, _, _, _ => None
  end.

(** The character a two-character escape stands for. *)
Definition simpleEscape (e : ascii) : option ascii :=
  if (e =? dquote)%char then Some dquote
  else if (e =? backslash)%char then Some backslash
  else if (e =? "/")%char then Some "/"%char
  else if (e =? "b")%char then Some (ascii_of_nat 8)
  else if (e =? "f")%char then Some (ascii_of_nat 12)
  else if (e =? "n")%char then Some (ascii_of_nat 10)
  else if (e =? "r")%char then Some (ascii_of_nat 13)
  else if (e =? "t")%char then Some (ascii_of_nat 9)
  else None.

Definition consChar (c : ascii) (r : option (string * string))
  : option (string * string) :=
  match r with
  | Some (s, rest) => Some (String c s, rest)
  | None => None
  end.

(** The characters of a string literal after its opening quote, up to
    and including the closing quote. *)
Fixpoint parseChars (s : string) : option (string * string) :=
  match s with
  | EmptyString => None
  | String c rest =>
      if (c =? dquote)%char then Some (EmptyString, rest)
      else if (c =? backslash)%char then
        match rest with
        | String e rest1 =>
            match simpleEscape e with
            | Some x => consChar x (parseChars rest1)
            | None =>
                if (e =? "u")%char then
                  match rest1 with
                  | String h1 (String h2 (String h3 (String h4 rest2))) =>
                      match unicodeEscape h1 h2 h3 h4 with
                      | Some x => consChar x (parseChars rest2)
                      | None => None
                      end
                  | _ => None
                  end
                else None
            end
        | EmptyString => None
        end
      else if (nat_of_ascii c <? 32)%nat then None
      else consChar c (parseChars rest)
  end.

(** [s] without its prefix [p], if it has it. *)
Fixpoint stripPrefix (p s : string) : option string :=
  match p with
  | EmptyString => Some s
  | String a p' =>
      match s with
      | String b s' => if (a =? b)%char then stripPrefix p' s' else None
      | EmptyString => None
      end
  end.

Definition startsWith (p s : string) : bool :=
  match stripPrefix p s with
  | Some _ => true
  | None => false
  end.

Definition literal (p : string) (v : json) (s : string)
  : option (json * string) :=
  match stripPrefix p s with
  | Some rest => Some (v, rest)
  | None => None
  end.

(** Recursive descent over the text; [fuel] bounds the nesting of calls.
    [parseElements] reads the elements of a non-empty array up to its
    closing bracket, [parseMembers] the members of a non-empty object. *)
Fixpoint parseValue (fuel : nat) (s : string) : option (json * string) :=
  match fuel with
  | O => None
  | S fuel' =>
      let s := skipWs s in
      match parseNumber s with
      | Some (z, rest) => Some (JNum z, rest)
      | None =>
          match s with
          | EmptyString => None
          | String c rest =>
              if (c =? "n")%char then literal "ull" JNull rest
              else if (c =? "t")%char then literal "rue" (JBool true) rest
              else if (c =? "f")%char then literal "alse" (JBool false) rest
              else if (c =? dquote)%char then
                match parseChars rest with
                | Some (str, rest') => Some (JStr str, rest')
                | None => None
                end
              else if (c =? "[")%char then
                if startsWith "]" (skipWs rest)
                then literal "]" (JArr []) (skipWs rest)
                else
                  match parseElements fuel' rest with
                  | Some (vs, rest') => Some (JArr vs, rest')
                  | None => None
                  end
              else if (c =? "{")%char then
                if startsWith "}" (skipWs rest)
                then literal "}" (JObj []) (skipWs rest)
                else
                  match parseMembers fuel' rest with
                  | Some (kvs, rest') => Some (JObj kvs, rest')
                  | None => None
                  end
              else None
          end
      end
  end
with parseElements (fuel : nat) (s : string) : option (list json * string) :=
  match fuel with
  | O => None
  | S fuel' =>
      match parseValue fuel' s with
      | Some (v, rest) =>
          match skipWs rest with
          | String c rest' =>
              if (c =? ",")%char then
                match parseElements fuel' rest' with
                | Some (vs, rest'') => Some (v :: vs, rest'')
                | None => None
                end
              else if (c =? "]")%char then Some ([v], rest')
              else None
          | EmptyString => None
          end
      | None => None
      end
  end
with parseMembers (fuel : nat) (s : string)
  : option (list (string * json) * string) :=
  match fuel with
  | O => None
  | S fuel' =>
      match skipWs s with
      | String c rest =>
          if (c =? dquote)%char then
            match parseChars rest with
            | Some (key, rest1) =>
                match stripPrefix ":" (skipWs rest1) with
                | Some rest2 =>
                    match parseValue fuel' rest2 with
                    | Some (v, rest3) =>
                        match skipWs rest3 with
                        | String d rest4 =>
                            if (d =? ",")%char then
                              match parseMembers fuel' rest4 with
                              | Some (kvs, rest5) =>
                                  Some ((key, v) :: kvs, rest5)
                              | None => None
                              end
                            else if (d =? "}")%char
                                 then Some ([(key, v)], rest4)
                            else None
                        | EmptyString => None
                        end
                    | None => None
                    end
                | None => None
                end
            | None => None
            end
          else None
      | EmptyString => None
      end
  end.

(** [JSON.parse(text)]: one value, then nothing but white space.  The
    length of the text serves as fuel. *)
Definition parse (text : string) : option json :=
  match parseValue (S (String.length text)) text with
  | Some (v, rest) =>
      match skipWs rest with
      | EmptyString => Some v
      | String _ _ => None
      end
  | None => None
  end.

(** Property access [v.key] on a parsed value. *)
Fixpoint lookup (key : string) (props : list (string * json)) : option json :=
  match props with
  | [] => None
  | (k, v) :: rest => if String.eqb k key then Some v else lookup key rest
  end.

Definition get (key : string) (v : json) : option json :=
  match v with
  | JObj props => lookup key props
  | _ => None
  end.

End JSON.

(* ================================================================= *)
(** ** Reading an ISO text back *)

(** What a consumer of the exported document does with a timestamp:
    the instant is recomputed from the fields of the text.  Field widths
    are not checked. *)

(** Days since 1970-01-01 of a date of the proleptic Gregorian
    calendar. *)
Definition daysFromCivil (year month dom : Z) : Z :=
  let y := if month <=? 2 then year - 1 else year in
  let era := y / 400 in
  let yoe := y - era * 400 in
  let mp := if month >? 2 then month - 3 else month + 9 in
  let doy := (153 * mp + 2) / 5 + dom - 1 in
  let doe := yoe * 365 + yoe / 4 - yoe / 100 + doy in
  era * 146097 + doe - 719468.

(** The number written by the digits at the head of [s]. *)
Definition readField (s : string) : Z * string :=
  let '(ds, rest) := JSON.readDigits s in (Z.of_uint ds, rest).

(** [readField], then the separator [c]. *)
Definition readFieldThen (c : ascii) (s : string) : option (Z * string) :=
  let '(n, rest) := readField s in
  match rest with
  | EmptyString => None
  | String x rest' => if (x =? c)%char then Some (n, rest') else None
  end.

(** The fields of the text after the sign of the year. *)
Definition readFields (sign : Z) (s : string) : option Date :=
  match readFieldThen "-" s with
  | None => None
  | Some (year, s) =>
  match readFieldThen "-" s with
  | None => None
  | Some (month, s) =>
  match readFieldThen "T" s with
  | None => None
  | Some (dom, s) =>
  match readFieldThen ":" s with
  | None => None
  | Some (hours, s) =>
  match readFieldThen ":" s with
  | None => None
  | Some (minutes, s) =>
  match readFieldThen "." s with
  | None => None
  | Some (seconds, s) =>
  match readFieldThen "Z" s with
  | None => None
  | Some (millis, s) =>
      match s with
      | EmptyString =>
          Some (mkDate
                  (daysFromCivil (sign * year) month dom * 86400000
                   + ((hours * 60 + minutes) * 60 + seconds) * 1000
                   + millis))
      | String _ _ => None
      end
  end end end end end end end.

(** The instant an ISO text denotes: the sign of the year, if any, then
    the fields. *)
Definition readISO (s : string) : option Date :=
  match s with
  | EmptyString => None
  | String c rest =>
      if (c =? "-")%char then readFields (-1) rest
      else if (c =? "+")%char then readFields 1 rest
      else readFields 1 s
  end.

(** The instant a parsed JSON value denotes, when it is an ISO text. *)
Definition instantOf (v : option json) : option Date :=
  match v with
  | Some (JStr text) => readISO text
  | _ => None
  end.

(* ================================================================= *)
(** ** Data model ([shared/schema.ts] and [topology.ts]) *)

Inductive Role : Type := user | assistant.

Definition Role_eqb (a b : Role) : bool :=
  match a, b with
  | user, user | assistant, assistant => true
  | _, _ => false
  end.

Definition Role_str (r : Role) : string :=
  match r with
  | user => "user"
  | assistant => "assistant"
  end.

Module Message.
Record t : Type := mk {
  id : string;
  sessionId : string;
  role : Role;
  content : string;
  topologyImpact : option string;
  metadata : json;
  createdAt : Date
}.
End Message.

Module Session.
Record t : Type := mk {
  id : string;
  title : string;
  topologyPattern : string;
  topologyOrder : Z;
  threadCount : Z;
  messageCount : Z;
  isActive : string;
  createdAt : Date;
  updatedAt : Date
}.
End Session.

Module Structure.
Record t : Type := mk {
  procedural : list string;
  perspectival : list string;
  participatory : string
}.
End Structure.

Module TopologyPattern.
Record t : Type := mk {
  pattern : string;
  order : Z;
  threads : Z;
  complexity : string;
  primeFactors : list string;
  structure : Structure.t;
  nestingDepth : Z
}.
End TopologyPattern.

Module ThreadAnalysis.
Record t : Type := mk {
  order : Z;
  threads : Z;
  nestingDepth : Z;
  branchingPoints : Z;
  closureAttempts : Z
}.
End ThreadAnalysis.

(* ================================================================= *)
(** ** The classifier *)

Definition createEmptyTopology : TopologyPattern.t :=
  {| TopologyPattern.pattern := "s0={}";
     TopologyPattern.order := 0;
     TopologyPattern.threads := 0;
     TopologyPattern.complexity := "empty";
     TopologyPattern.primeFactors := [];
     TopologyPattern.structure :=
       {| Structure.procedural := [];
          Structure.perspectival := [];
          Structure.participatory := "s0" |};
     TopologyPattern.nestingDepth := 0 |}.

(** The condition of the first [if] in the scan loop. *)
Definition branchingSignal (message : Message.t) : bool :=
  JS.includes (Message.content message) "?"
  || JS.includes (JS.toLowerCase (Message.content message)) "what"
  || JS.includes (JS.toLowerCase (Message.content message)) "how".

(** The condition of the second [if] in the scan loop. *)
Definition closureSignal (message : Message.t) : bool :=
  JS.includes (JS.toLowerCase (Message.content message)) "conclusion"
  || JS.includes (JS.toLowerCase (Message.content message)) "summary"
  || JS.nullable_str_eq (Message.topologyImpact message) "closure_attempt".

(** One iteration of [for (const message of messages)]; the loop state is
    the pair [(branchingPoints, closureAttempts)]. *)
Definition scanMessage (st : Z * Z) (message : Message.t) : Z * Z :=
  let '(branchingPoints, closureAttempts) := st in
  let branchingPoints :=
    if branchingSignal message then branchingPoints + 1 else branchingPoints in
  let closureAttempts :=
    if closureSignal message then closureAttempts + 1 else closureAttempts in
  (branchingPoints, closureAttempts).

Definition scanMessages (messages : list Message.t) : Z * Z :=
  fold_left scanMessage messages (0, 0).

(** Lines 90-108 of [analyzeThreads]: the metrics as a function of the
    counters. *)
Definition resolveMetrics (messageCount branchingPoints closureAttempts : Z)
  : ThreadAnalysis.t :=
  let order := 1 in
  let order := if messageCount >? 3 then 2 else order in
  let order :=
    if (messageCount >? 8) || (branchingPoints >? 2) then 3 else order in
  let order :=
    if (messageCount >? 15) || (branchingPoints >? 4) then 4 else order in
  let threads :=
    JS.Math_max 1
      (JS.Math_min (order + 1)
         (JS.Math_ceil (inject_Z branchingPoints / 2)%Q + 1)) in
  let nestingDepth :=
    JS.Math_min 4
      (JS.Math_max 1 (JS.Math_floor (inject_Z branchingPoints / 2)%Q + 1)) in
  {| ThreadAnalysis.order := order;
     ThreadAnalysis.threads := threads;
     ThreadAnalysis.nestingDepth := nestingDepth;
     ThreadAnalysis.branchingPoints := branchingPoints;
     ThreadAnalysis.closureAttempts := closureAttempts |}.

Definition analyzeThreads (messages : list Message.t) : ThreadAnalysis.t :=
  let messageCount := Z.of_nat (List.length messages) in
  let '(branchingPoints, closureAttempts) := scanMessages messages in
  resolveMetrics messageCount branchingPoints closureAttempts.

Definition determineComplexity (analysis : ThreadAnalysis.t) : string :=
  if ThreadAnalysis.order analysis =? 1 then "monologue"
  else if ThreadAnalysis.order analysis =? 2 then "dialogue"
  else if ThreadAnalysis.order analysis =? 3 then "complex_dialogue"
  else "multi_threaded_discourse".

(** The loop [for (let i = 1; i < depth; i++) pattern = `(${pattern})`]
    of [generateNestedPattern], with the loop variable explicit.  [fuel]
    bounds the number of iterations. *)
Fixpoint nestLoop (fuel : nat) (i depth : Z) (pattern : string) : string :=
  match fuel with
  | O => pattern
  | S fuel' =>
      if i <? depth
      then nestLoop fuel' (i + 1) depth ("(" ++ pattern ++ ")")
      else pattern
  end.

Definition generateNestedPattern (depth : Z) : string :=
  if depth <=? 1 then "()"
  else
    let pattern := "()" in
    nestLoop (Z.to_nat depth) 1 depth pattern.

Definition generatePattern (analysis : ThreadAnalysis.t) : option string :=
  let order := ThreadAnalysis.order analysis in
  let threads := ThreadAnalysis.threads analysis in
  let nestingDepth := ThreadAnalysis.nestingDepth analysis in
  if order =? 1 then Some "s1={[()]}"
  else
    match JS.Array_fill threads "()" with
    | None => None
    | Some cells =>
        let procedural := JS.join EmptyString cells in
        let perspectival := generateNestedPattern nestingDepth in
        Some ("s" ++ JS.Number_toString order ++ "={[" ++ procedural
                  ++ "],[(" ++ perspectival ++ ")]}")
    end.

Definition calculatePrimeFactors (analysis : ThreadAnalysis.t) : list string :=
  let factors : list string := [] in
  let factors :=
    if ThreadAnalysis.threads analysis >=? 2
    then (factors ++ ["p1p1"])%list else factors in
  let factors :=
    if ThreadAnalysis.order analysis >=? 2
    then (factors ++ ["p2"])%list else factors in
  let factors :=
    if ThreadAnalysis.order analysis >=? 3
    then (factors ++ ["p3"])%list else factors in
  let factors :=
    if ThreadAnalysis.nestingDepth analysis >? 2
    then (factors ++ ["p5"])%list else factors in
  if (0 <? List.length factors)%nat then factors else ["p1"].

(** The loop [for (let i = 0; i < threads; i++) procedural.push("()")]
    of [buildStructure]. *)
Fixpoint pushLoop (fuel : nat) (i threads : Z) (procedural : list string)
  : list string :=
  match fuel with
  | O => procedural
  | S fuel' =>
      if i <? threads
      then pushLoop fuel' (i + 1) threads (procedural ++ ["()"])%list
      else procedural
  end.

Definition buildStructure (analysis : ThreadAnalysis.t) : Structure.t :=
  let procedural : list string := [] in
  let perspectival : list string := [] in
  let procedural :=
    pushLoop (Z.to_nat (ThreadAnalysis.threads analysis)) 0
      (ThreadAnalysis.threads analysis) procedural in
  let perspectival := (perspectival ++ ["()"])%list in
  let perspectival :=
    if ThreadAnalysis.nestingDepth analysis >? 1
    then (perspectival
            ++ [generateNestedPattern
                  (ThreadAnalysis.nestingDepth analysis - 1)])%list
    else perspectival in
  {| Structure.procedural := procedural;
     Structure.perspectival := perspectival;
     Structure.participatory :=
       "s" ++ JS.Number_toString (ThreadAnalysis.order analysis) |}.

Definition calculateTopology (messages : list Message.t)
  : option TopologyPattern.t :=
  let messageCount := List.length messages in
  if (messageCount =? 0)%nat then Some createEmptyTopology
  else
    let userMessages :=
      filter (fun m => Role_eqb (Message.role m) user) messages in
    let assistantMessages :=
      filter (fun m => Role_eqb (Message.role m) assistant) messages in
    let threadAnalysis := analyzeThreads messages in
    let complexity := determineComplexity threadAnalysis in
    match generatePattern threadAnalysis with
    | None => None
    | Some pattern =>
        let primeFactors := calculatePrimeFactors threadAnalysis in
        let structure := buildStructure threadAnalysis in
        Some {| TopologyPattern.pattern := pattern;
                TopologyPattern.order := ThreadAnalysis.order threadAnalysis;
                TopologyPattern.threads := ThreadAnalysis.threads threadAnalysis;
                TopologyPattern.complexity := complexity;
                TopologyPattern.primeFactors := primeFactors;
                TopologyPattern.structure := structure;
                TopologyPattern.nestingDepth :=
                  ThreadAnalysis.nestingDepth threadAnalysis |}
    end.

(* ================================================================= *)
(** ** The exporter *)

(** How [JSON.stringify] sees the values of each type that occurs in the
    export: strings and numbers as themselves, [null] for an absent
    value, a [Date] through its [toJSON] method, arrays element-wise. *)
Class ToJSON (A : Type) : Type := toJSON : A -> json.

#[export] Instance ToJSON_json : ToJSON json := fun v => v.
#[export] Instance ToJSON_string : ToJSON string := JStr.
#[export] Instance ToJSON_number : ToJSON Z := JNum.
#[export] Instance ToJSON_Date : ToJSON Date := fun d => JStr (toISOString d).
#[export] Instance ToJSON_Role : ToJSON Role := fun r => JStr (Role_str r).

#[export] Instance ToJSON_nullable {A : Type} `{ToJSON A} : ToJSON (option A) :=
  fun x => match x with
           | Some a => toJSON a
           | None => JNull
           end.

#[export] Instance ToJSON_array {A : Type} `{ToJSON A} : ToJSON (list A) :=
  fun l => JArr (map toJSON l).

#[export] Instance ToJSON_Structure : ToJSON Structure.t :=
  fun st =>
    JObj [("procedural", toJSON (Structure.procedural st));
          ("perspectival", toJSON (Structure.perspectival st));
          ("participatory", toJSON (Structure.participatory st))].

(** The projection of one message, the body of [messages.map]. *)
Definition messageData (msg : Message.t) : json :=
  JObj [("id", toJSON (Message.id msg));
        ("role", toJSON (Message.role msg));
        ("content", toJSON (Message.content msg));
        ("topology_impact", toJSON (Message.topologyImpact msg));
        ("timestamp", toJSON (Message.createdAt msg));
        ("metadata", toJSON (Message.metadata msg))].

(** The object literal [sessionData], given the value of its
    [timestamp] property. *)
Definition sessionData (sessionId : string) (session : Session.t)
    (messages : list Message.t) (topology : TopologyPattern.t)
    (timestamp : string) : json :=
  JObj [("session_id", toJSON sessionId);
        ("timestamp", toJSON timestamp);
        ("title", toJSON (Session.title session));
        ("topology",
          JObj [("pattern", toJSON (TopologyPattern.pattern topology));
                ("order", toJSON (TopologyPattern.order topology));
                ("threads", toJSON (TopologyPattern.threads topology));
                ("complexity", toJSON (TopologyPattern.complexity topology));
                ("prime_factors",
                  toJSON (TopologyPattern.primeFactors topology));
                ("structure", toJSON (TopologyPattern.structure topology));
                ("nesting_depth",
                  toJSON (TopologyPattern.nestingDepth topology))]);
        ("messages", JArr (map messageData messages));
        ("metadata",
          JObj [("participant_count", toJSON 2);
                ("ai_model", toJSON "gpt-4o");
                ("total_messages", toJSON (Z.of_nat (List.length messages)));
                ("created_at", toJSON (Session.createdAt session));
                ("updated_at", toJSON (Session.updatedAt session))])].

Definition exportSessionToJson (sessionId : string) (session : Session.t)
    (messages : list Message.t) (topology : TopologyPattern.t) : Eff string :=
  now <- new_Date ;;
  ret (JSON.stringify
         (sessionData sessionId session messages topology (toISOString now))
         2).

(** The classifier as a computation: it reads nothing from the world. *)
Definition classify (messages : list Message.t)
  : Eff (option TopologyPattern.t) :=
  ret (calculateTopology messages).

(** A message with the given content and default values elsewhere, for
    the concrete scenarios. *)
Definition say (r : Role) (text : string) : Message.t :=
  {| Message.id := "m";
     Message.sessionId := "s";
     Message.role := r;
     Message.content := text;
     Message.topologyImpact := None;
     Message.metadata := JNull;
     Message.createdAt := mkDate 0 |}.

(** Number of messages of [l] that satisfy [f]. *)
Definition count (f : Message.t -> bool) (l : list Message.t) : Z :=
  Z.of_nat (List.length (filter f l)).

(** The record [calculateTopology] assembles once the list is known to
    be non-empty. *)
Definition assemble (pattern : string) (a : ThreadAnalysis.t)
  : TopologyPattern.t :=
  {| TopologyPattern.pattern := pattern;
     TopologyPattern.order := ThreadAnalysis.order a;
     TopologyPattern.threads := ThreadAnalysis.threads a;
     TopologyPattern.complexity := determineComplexity a;
     TopologyPattern.primeFactors := calculatePrimeFactors a;
     TopologyPattern.structure := buildStructure a;
     TopologyPattern.nestingDepth := ThreadAnalysis.nestingDepth a |}.

(* ================================================================= *)
(** ** Measures on texts and values *)

(** A text of white space only. *)
Fixpoint blank (s : string) : bool :=
  match s with
  | EmptyString => true
  | String c rest => JSON.isWs c && blank rest
  end.

(** The fuel [JSON.parseValue] uses up on the serialisation of a value:
    one unit per call on the longest chain of calls. *)
Fixpoint need (v : json) : nat :=
  match v with
  | JArr elements =>
      S (fold_right (fun e n => S (Nat.max (need e) n)) O elements)
  | JObj props =>
      S (fold_right (fun kv n => S (Nat.max (need (snd kv)) n)) O props)
  | _ => 1%nat
  end.

Definition needElements (elements : list json) : nat :=
  fold_right (fun e n => S (Nat.max (need e) n)) O elements.

Definition needMembers (props : list (string * json)) : nat :=
  fold_right (fun kv n => S (Nat.max (need (snd kv)) n)) O props.

(** A text whose first character can open a value: neither white space
    nor a closing bracket. *)
Definition valueHead (s : string) : bool :=
  match s with
  | EmptyString => false
  | String c _ =>
      negb (JSON.isWs c) && negb (c =? "]")%char && negb (c =? "}")%char
  end.

(** A text that does not go on with a digit. *)
Definition noDigitAhead (s : string) : Prop :=
  match s with
  | EmptyString => True
  | String c _ => JSON.digitOf c = None
  end.

(** The text of a member of an object. *)
Definition member (gap indent : string) (kv : string * json) : string :=
  JSON.quote (fst kv) ++ JSON.colon gap ++ JSON.serialize gap indent (snd kv).

(* ================================================================= *)
(** ** The rendering rules as the specification words them *)

Module Spec.

(** One literal wrapping in parentheses. *)
Definition wrap (s : string) : string := "(" ++ s ++ ")".

(** [nested(depth)]: for depth at most 1 the string [()], else start
    from [()] and wrap [depth - 1] additional times. *)
Definition nested (depth : Z) : string :=
  if depth <=? 1 then "()"
  else Nat.iter (Z.to_nat (depth - 1)) wrap "()".

(** The string [s] repeated [n] times, no separator. *)
Fixpoint times (n : nat) (s : string) : string :=
  match n with
  | O => EmptyString
  | S n' => s ++ times n' s
  end.

(** The two rules for a conversation that is not empty: the fixed
    order-1 string, otherwise the template. *)
Definition render (order threads nestingDepth : Z) : string :=
  if order =? 1 then "s1={[()]}"
  else "s" ++ JS.Number_toString order
           ++ "={[" ++ times (Z.to_nat threads) "()"
           ++ "],[(" ++ nested nestingDepth ++ ")]}".

(** The pattern re-rendered from a reported triple by the three rules of
    section 4.3: the empty case, the only one reported with order 0, has
    the fixed pattern [s0={}]; every other triple falls under the rules
    for a conversation that is not empty. *)
Definition rerender (order threads nestingDepth : Z) : string :=
  if order =? 0 then "s0={}" else render order threads nestingDepth.

End Spec.

(* ================================================================= *)
(** ** Further notions on the classifier *)

From Stdlib Require Import Permutation Sorted.

(** [n] opening parentheses followed by [n] closing ones. *)
Definition parens (n : nat) : string :=
  Spec.times n "(" ++ Spec.times n ")".

(** The record assembled from an order, a thread count and a nesting
    depth alone. *)
Definition topologyOf (order threads nestingDepth : Z) : TopologyPattern.t :=
  assemble (Spec.render order threads nestingDepth)
    {| ThreadAnalysis.order := order;
       ThreadAnalysis.threads := threads;
       ThreadAnalysis.nestingDepth := nestingDepth;
       ThreadAnalysis.branchingPoints := 0;
       ThreadAnalysis.closureAttempts := 0 |}.

(** The triples of metrics the resolver can report. *)
Definition allTriples : list (Z * Z * Z) :=
  flat_map (fun o =>
    flat_map (fun t => map (fun n => (o, t, n)) [1; 2; 3; 4])
      [1; 2; 3; 4; 5]) [1; 2; 3; 4].

Definition triple_eqb (a b : Z * Z * Z) : bool :=
  let '(o, t, n) := a in
  let '(o', t', n') := b in
  (o =? o') && (t =? t') && (n =? n').

(** From order 2 on, a triple of [l] is rendered differently from every
    other triple of [l] and from the empty pattern. *)
Definition rendersApart (l : list (Z * Z * Z)) : bool :=
  forallb (fun a =>
    let '(o, t, n) := a in
    implb (2 <=? o)
      (negb (String.eqb (Spec.render o t n) "s0={}")
       && forallb (fun b =>
            let '(o', t', n') := b in
            implb (String.eqb (Spec.render o t n) (Spec.render o' t' n'))
              (triple_eqb a b)) l)) l.

(* ================================================================= *)
(** ** The reply service ([server/services/openai.ts]) *)

(** The result of a call that may throw an [Error] with a message. *)
Inductive Outcome (A : Type) : Type :=
| Returned : A -> Outcome A
| Thrown : string -> Outcome A.

Arguments Returned {A} _.
Arguments Thrown {A} _.

Module ChatResponse.
Record t : Type := mk {
  content : string;
  topologyImpact : string
}.
End ChatResponse.

Definition determineTopologyImpact (content : string) (messageCount : Z)
  : string :=
  if JS.includes content "?"
     || JS.includes (JS.toLowerCase content) "what"
     || JS.includes (JS.toLowerCase content) "how"
  then "inquiry_branch"
  else if JS.includes (JS.toLowerCase content) "conclusion"
          || JS.includes (JS.toLowerCase content) "summary"
  then "closure_attempt"
  else if messageCount >? 1 then "thread_continuation"
  else "thread_initiation".

(** [x || fallback] on a string that may be [null]: the empty string is
    falsy too. *)
Definition or_string (x : option string) (fallback : string) : string :=
  match x with
  | Some (String c s) => String c s
  | Some EmptyString | None => fallback
  end.

(** [generateChatResponse], given what the completion request to the
    model provider produced: [None] when the request (or reading its
    first choice) threw, otherwise the content of the first choice,
    which may be [null]. *)
Definition generateChatResponse (completion : option (option string))
    (messages : list (Role * string)) (currentTopology : string)
  : Outcome ChatResponse.t :=
  match completion with
  | None =>
      Thrown
        "Failed to generate AI response. Please check your API key and try again."
  | Some choice =>
      let content :=
        or_string choice
          "I apologize, but I couldn't generate a response. Please try again." in
      Returned
        {| ChatResponse.content := content;
           ChatResponse.topologyImpact :=
             determineTopologyImpact content
               (Z.of_nat (List.length messages)) |}
  end.

(* ================================================================= *)
(** ** The in-memory storage ([server/storage.ts]) *)

(** [x || fallback] on a number that may be absent: zero is falsy. *)
Definition or_number (x : option Z) (fallback : Z) : Z :=
  match x with
  | Some 0 | None => fallback
  | Some n => n
  end.

(** Truthiness of a JSON value. *)
Definition truthy (v : json) : bool :=
  match v with
  | JNull => false
  | JBool b => b
  | JNum n => negb (n =? 0)
  | JStr s => negb (String.eqb s EmptyString)
  | JArr _ | JObj _ => true
  end.

(** [Array.prototype.sort] with comparator [cmp]: the sort is stable,
    which, for a comparator that orders by a key, fixes its result; the
    result is computed here by inserting the elements, in their order,
    each behind the elements it does not precede. *)
Fixpoint insertBy {A : Type} (cmp : A -> A -> Z) (x : A) (l : list A)
  : list A :=
  match l with
  | [] => [x]
  | y :: rest =>
      if cmp x y <? 0 then x :: y :: rest else y :: insertBy cmp x rest
  end.

Definition Array_sort {A : Type} (cmp : A -> A -> Z) (l : list A) : list A :=
  fold_left (fun sorted x => insertBy cmp x sorted) l [].

(** Ordered by a key. *)
Definition byKey {A : Type} (key : A -> Z) (a b : A) : Prop :=
  key a <= key b.

(** A JavaScript [Map] with string keys: the entries in insertion
    order. *)
Module JsMap.

Definition t (V : Type) : Type := list (string * V).

Definition empty {V : Type} : t V := [].

Fixpoint get {V : Type} (key : string) (m : t V) : option V :=
  match m with
  | [] => None
  | (k, v) :: rest => if String.eqb k key then Some v else get key rest
  end.

Definition has {V : Type} (key : string) (m : t V) : bool :=
  match get key m with
  | Some _ => true
  | None => false
  end.

(** [set] replaces the value of a present key in place and appends an
    absent one. *)
Fixpoint set {V : Type} (key : string) (value : V) (m : t V) : t V :=
  match m with
  | [] => [(key, value)]
  | (k, v) :: rest =>
      if String.eqb k key then (k, value) :: rest
      else (k, v) :: set key value rest
  end.

Fixpoint delete {V : Type} (key : string) (m : t V) : t V :=
  match m with
  | [] => []
  | (k, v) :: rest =>
      if String.eqb k key then rest else (k, v) :: delete key rest
  end.

Definition values {V : Type} (m : t V) : list V := map snd m.

Definition keys {V : Type} (m : t V) : list string := map fst m.

End JsMap.

Module TopologyAnalysis.
Record t : Type := mk {
  id : string;
  sessionId : string;
  pattern : string;
  primeFactors : json;
  structure : json;
  complexity : string;
  nestingDepth : Z;
  createdAt : Date
}.
End TopologyAnalysis.

Module InsertSession.
Record t : Type := mk {
  title : string;
  topologyPattern : option string;
  topologyOrder : option Z;
  threadCount : option Z;
  messageCount : option Z;
  isActive : option string
}.
End InsertSession.

(** [Partial<InsertSession>]. *)
Module SessionUpdates.
Record t : Type := mk {
  title : option string;
  topologyPattern : option string;
  topologyOrder : option Z;
  threadCount : option Z;
  messageCount : option Z;
  isActive : option string
}.
End SessionUpdates.

Module InsertMessage.
Record t : Type := mk {
  sessionId : string;
  role : Role;
  content : string;
  topologyImpact : option string;
  metadata : option json
}.
End InsertMessage.

Module InsertTopologyAnalysis.
Record t : Type := mk {
  sessionId : string;
  pattern : string;
  primeFactors : json;
  structure : json;
  complexity : string;
  nestingDepth : Z
}.
End InsertTopologyAnalysis.

(** A property of the spread [{...existing, ...updates}]: the update
    when it has the property, the existing value otherwise. *)
Definition spread {A : Type} (existing : A) (update : option A) : A :=
  match update with
  | Some a => a
  | None => existing
  end.

(** The class [MemStorage].  Its methods take the state of the three
    maps and return the new state; the identifier [randomUUID()]
    returned and the date [new Date()] returned are arguments. *)
Module MemStorage.

Record t : Type := mk {
  sessions : JsMap.t Session.t;
  messages : JsMap.t Message.t;
  topologyAnalyses : JsMap.t TopologyAnalysis.t
}.

Definition create : t :=
  {| sessions := JsMap.empty;
     messages := JsMap.empty;
     topologyAnalyses := JsMap.empty |}.

Definition createSession (st : t) (insertSession : InsertSession.t)
    (id : string) (now : Date) : Session.t * t :=
  let session :=
    {| Session.id := id;
       Session.title := InsertSession.title insertSession;
       Session.topologyPattern :=
         or_string (InsertSession.topologyPattern insertSession) "s1={[()]}";
       Session.topologyOrder :=
         or_number (InsertSession.topologyOrder insertSession) 1;
       Session.threadCount :=
         or_number (InsertSession.threadCount insertSession) 1;
       Session.messageCount :=
         or_number (InsertSession.messageCount insertSession) 0;
       Session.isActive :=
         or_string (InsertSession.isActive insertSession) "false";
       Session.createdAt := now;
       Session.updatedAt := now |} in
  (session,
   {| sessions := JsMap.set id session (sessions st);
      messages := messages st;
      topologyAnalyses := topologyAnalyses st |}).

Definition getSession (st : t) (id : string) : option Session.t :=
  JsMap.get id (sessions st).

Definition getAllSessions (st : t) : list Session.t :=
  Array_sort
    (fun a b => getTime (Session.updatedAt b) - getTime (Session.updatedAt a))
    (JsMap.values (sessions st)).

Definition updateSession (st : t) (id : string) (updates : SessionUpdates.t)
    (now : Date) : option Session.t * t :=
  match JsMap.get id (sessions st) with
  | None => (None, st)
  | Some existingSession =>
      let updatedSession :=
        {| Session.id := Session.id existingSession;
           Session.title :=
             spread (Session.title existingSession)
               (SessionUpdates.title updates);
           Session.topologyPattern :=
             spread (Session.topologyPattern existingSession)
               (SessionUpdates.topologyPattern updates);
           Session.topologyOrder :=
             spread (Session.topologyOrder existingSession)
               (SessionUpdates.topologyOrder updates);
           Session.threadCount :=
             spread (Session.threadCount existingSession)
               (SessionUpdates.threadCount updates);
           Session.messageCount :=
             spread (Session.messageCount existingSession)
               (SessionUpdates.messageCount updates);
           Session.isActive :=
             spread (Session.isActive existingSession)
               (SessionUpdates.isActive updates);
           Session.createdAt := Session.createdAt existingSession;
           Session.updatedAt := now |} in
      (Some updatedSession,
       {| sessions := JsMap.set id updatedSession (sessions st);
          messages := messages st;
          topologyAnalyses := topologyAnalyses st |})
  end.

Definition deleteSession (st : t) (id : string) : bool * t :=
  let found :=
    filter (fun m => String.eqb (Message.sessionId m) id)
      (JsMap.values (messages st)) in
  let messages' :=
    fold_left (fun acc message => JsMap.delete (Message.id message) acc)
      found (messages st) in
  let analysis :=
    find (fun a => String.eqb (TopologyAnalysis.sessionId a) id)
      (JsMap.values (topologyAnalyses st)) in
  let topologyAnalyses' :=
    match analysis with
    | Some a => JsMap.delete (TopologyAnalysis.id a) (topologyAnalyses st)
    | None => topologyAnalyses st
    end in
  (JsMap.has id (sessions st),
   {| sessions := JsMap.delete id (sessions st);
      messages := messages';
      topologyAnalyses := topologyAnalyses' |}).

Definition createMessage (st : t) (insertMessage : InsertMessage.t)
    (id : string) (now : Date) : Message.t * t :=
  let message :=
    {| Message.id := id;
       Message.sessionId := InsertMessage.sessionId insertMessage;
       Message.role := InsertMessage.role insertMessage;
       Message.content := InsertMessage.content insertMessage;
       Message.topologyImpact :=
         match InsertMessage.topologyImpact insertMessage with
         | Some (String c s) => Some (String c s)
         | Some EmptyString | None => None
         end;
       Message.metadata :=
         match InsertMessage.metadata insertMessage with
         | Some v => if truthy v then v else JNull
         | None => JNull
         end;
       Message.createdAt := now |} in
  (message,
   {| sessions := sessions st;
      messages := JsMap.set id message (messages st);
      topologyAnalyses := topologyAnalyses st |}).

Definition getMessagesBySession (st : t) (sessionId : string)
  : list Message.t :=
  Array_sort
    (fun a b => getTime (Message.createdAt a) - getTime (Message.createdAt b))
    (filter (fun m => String.eqb (Message.sessionId m) sessionId)
       (JsMap.values (messages st))).

Definition deleteMessagesBySession (st : t) (sessionId : string) : bool * t :=
  let found :=
    filter (fun m => String.eqb (Message.sessionId m) sessionId)
      (JsMap.values (messages st)) in
  (true,
   {| sessions := sessions st;
      messages :=
        fold_left (fun acc message => JsMap.delete (Message.id message) acc)
          found (messages st);
      topologyAnalyses := topologyAnalyses st |}).

Definition saveTopologyAnalysis (st : t)
    (insertAnalysis : InsertTopologyAnalysis.t) (id : string) (now : Date)
  : TopologyAnalysis.t * t :=
  let analysis :=
    {| TopologyAnalysis.id := id;
       TopologyAnalysis.sessionId :=
         InsertTopologyAnalysis.sessionId insertAnalysis;
       TopologyAnalysis.pattern :=
         InsertTopologyAnalysis.pattern insertAnalysis;
       TopologyAnalysis.primeFactors :=
         InsertTopologyAnalysis.primeFactors insertAnalysis;
       TopologyAnalysis.structure :=
         InsertTopologyAnalysis.structure insertAnalysis;
       TopologyAnalysis.complexity :=
         InsertTopologyAnalysis.complexity insertAnalysis;
       TopologyAnalysis.nestingDepth :=
         InsertTopologyAnalysis.nestingDepth insertAnalysis;
       TopologyAnalysis.createdAt := now |} in
  let existing :=
    find (fun a =>
            String.eqb (TopologyAnalysis.sessionId a)
              (InsertTopologyAnalysis.sessionId insertAnalysis))
      (JsMap.values (topologyAnalyses st)) in
  let topologyAnalyses' :=
    match existing with
    | Some a => JsMap.delete (TopologyAnalysis.id a) (topologyAnalyses st)
    | None => topologyAnalyses st
    end in
  (analysis,
   {| sessions := sessions st;
      messages := messages st;
      topologyAnalyses := JsMap.set id analysis topologyAnalyses' |}).

Definition getTopologyAnalysis (st : t) (sessionId : string)
  : option TopologyAnalysis.t :=
  find (fun a => String.eqb (TopologyAnalysis.sessionId a) sessionId)
    (JsMap.values (topologyAnalyses st)).

(** The state the methods keep: an entry is stored under its own
    identifier, no identifier is stored twice, and no session has two
    analyses. *)
Definition keyed {V : Type} (idOf : V -> string) (m : JsMap.t V) : Prop :=
  NoDup (JsMap.keys m) /\ Forall (fun kv => fst kv = idOf (snd kv)) m.

Definition consistent (st : t) : Prop :=
  keyed Session.id (sessions st)
  /\ keyed Message.id (messages st)
  /\ keyed TopologyAnalysis.id (topologyAnalyses st)
  /\ NoDup (map TopologyAnalysis.sessionId
              (JsMap.values (topologyAnalyses st))).

End MemStorage.

(** A store with one session holding one message and its analysis, as
    an example state. *)
Definition demoStore : MemStorage.t :=
  let st := MemStorage.create in
  let st :=
    snd (MemStorage.createSession st
           (InsertSession.mk "Chat" None None None None None)
           "s1" (mkDate 10)) in
  let st :=
    snd (MemStorage.createMessage st
           (InsertMessage.mk "s1" user "Why?" (Some "user_input") None)
           "m1" (mkDate 20)) in
  snd (MemStorage.saveTopologyAnalysis st
         (InsertTopologyAnalysis.mk "s1" "s1={[()]}" (JArr [JStr "p1p1"])
            JNull "monologue" 1)
         "a1" (mkDate 30)).

(* ================================================================= *)
(** ** The HTTP handlers ([server/routes.ts]) *)

#[export] Instance ToJSON_Session : ToJSON Session.t :=
  fun s =>
    JObj [("id", toJSON (Session.id s));
          ("title", toJSON (Session.title s));
          ("topologyPattern", toJSON (Session.topologyPattern s));
          ("topologyOrder", toJSON (Session.topologyOrder s));
          ("threadCount", toJSON (Session.threadCount s));
          ("messageCount", toJSON (Session.messageCount s));
          ("isActive", toJSON (Session.isActive s));
          ("createdAt", toJSON (Session.createdAt s));
          ("updatedAt", toJSON (Session.updatedAt s))].

#[export] Instance ToJSON_Message : ToJSON Message.t :=
  fun m =>
    JObj [("id", toJSON (Message.id m));
          ("sessionId", toJSON (Message.sessionId m));
          ("role", toJSON (Message.role m));
          ("content", toJSON (Message.content m));
          ("topologyImpact", toJSON (Message.topologyImpact m));
          ("metadata", toJSON (Message.metadata m));
          ("createdAt", toJSON (Message.createdAt m))].

#[export] Instance ToJSON_TopologyPattern : ToJSON TopologyPattern.t :=
  fun t =>
    JObj [("pattern", toJSON (TopologyPattern.pattern t));
          ("order", toJSON (TopologyPattern.order t));
          ("threads", toJSON (TopologyPattern.threads t));
          ("complexity", toJSON (TopologyPattern.complexity t));
          ("primeFactors", toJSON (TopologyPattern.primeFactors t));
          ("structure", toJSON (TopologyPattern.structure t));
          ("nestingDepth", toJSON (TopologyPattern.nestingDepth t))].

#[export] Instance ToJSON_TopologyAnalysis : ToJSON TopologyAnalysis.t :=
  fun a =>
    JObj [("sessionId", toJSON (TopologyAnalysis.sessionId a));
          ("pattern", toJSON (TopologyAnalysis.pattern a));
          ("primeFactors", toJSON (TopologyAnalysis.primeFactors a));
          ("structure", toJSON (TopologyAnalysis.structure a));
          ("complexity", toJSON (TopologyAnalysis.complexity a));
          ("nestingDepth", toJSON (TopologyAnalysis.nestingDepth a));
          ("id", toJSON (TopologyAnalysis.id a));
          ("createdAt", toJSON (TopologyAnalysis.createdAt a))].

(** What the handler of [POST /api/sessions/:id/messages] holds while
    it waits for the completion request. *)
Module Pending.
Record t : Type := mk {
  sessionId : string;
  session : Session.t;
  userMessage : Message.t;
  conversationHistory : list (Role * string)
}.
End Pending.

Module Routes.

(** What a handler sends: [res.json(value)] or [res.send(text)]. *)
Inductive Body : Type :=
| Json : json -> Body
| Text : string -> Body.

Record Response : Type := mkResponse {
  statusCode : Z;
  headers : list (string * string);
  body : Body
}.

(** [res.json(value)], with status 200 unless set. *)
Definition ok (value : json) : Response :=
  {| statusCode := 200; headers := []; body := Json value |}.

(** [res.status(code).json({ message })]. *)
Definition fail (code : Z) (message : string) : Response :=
  {| statusCode := code;
     headers := [];
     body := Json (JObj [("message", JStr message)]) |}.

(** [POST /api/sessions]; [title] is [req.body.title], [zodMessage] the
    message of the error the insert schema throws on a title that is
    not a string. *)
Definition postSession (st : MemStorage.t) (title : option json)
    (zodMessage : string) (id : string) (now : Date)
  : Response * MemStorage.t :=
  let title :=
    match title with
    | Some v => if truthy v then v else JStr "New Chat Session"
    | None => JStr "New Chat Session"
    end in
  match title with
  | JStr text =>
      let validatedData :=
        {| InsertSession.title := text;
           InsertSession.topologyPattern := Some "s1={[()]}";
           InsertSession.topologyOrder := Some 1;
           InsertSession.threadCount := Some 1;
           InsertSession.messageCount := Some 0;
           InsertSession.isActive := Some "true" |} in
      let '(session, st') := MemStorage.createSession st validatedData id now in
      (ok (toJSON session), st')
  | _ => (fail 400 zodMessage, st)
  end.

(** [GET /api/sessions]. *)
Definition getSessions (st : MemStorage.t) : Response :=
  ok (toJSON (MemStorage.getAllSessions st)).

(** [GET /api/sessions/:id]. *)
Definition getSession (st : MemStorage.t) (id : string) : Response :=
  match MemStorage.getSession st id with
  | None => fail 404 "Session not found"
  | Some session => ok (toJSON session)
  end.

(** [DELETE /api/sessions/:id]. *)
Definition deleteSession (st : MemStorage.t) (id : string)
  : Response * MemStorage.t :=
  let '(deleted, st') := MemStorage.deleteSession st id in
  if deleted then (ok (JObj [("success", JBool true)]), st')
  else (fail 404 "Session not found", st').

(** [GET /api/sessions/:id/messages]. *)
Definition getMessages (st : MemStorage.t) (id : string) : Response :=
  ok (toJSON (MemStorage.getMessagesBySession st id)).

(** What [POST /api/sessions/:id/messages] takes from its environment:
    the identifiers and dates the storage draws, and the outcome of the
    completion request. *)
Record PostEnv : Type := mkPostEnv {
  userMessageId : string;
  userMessageTime : Date;
  completion : option (option string);
  aiMessageId : string;
  aiMessageTime : Date;
  updateTime : Date;
  analysisId : string;
  analysisTime : Date
}.

(** [POST /api/sessions/:id/messages] up to the completion request:
    [content] is [req.body.content].  The handler either answers at
    once or is left waiting in [await generateChatResponse(...)] with
    the values it holds. *)
Definition postMessageBegin (st : MemStorage.t) (sessionId : string)
    (content : option json) (env : PostEnv)
  : (Response + Pending.t) * MemStorage.t :=
  match content with
  | Some (JStr (String c0 s0)) =>
      let content := String c0 s0 in
      match MemStorage.getSession st sessionId with
      | None => (inl (fail 404 "Session not found"), st)
      | Some session =>
          let '(userMessage, st) :=
            MemStorage.createMessage st
              {| InsertMessage.sessionId := sessionId;
                 InsertMessage.role := user;
                 InsertMessage.content := content;
                 InsertMessage.topologyImpact := Some "user_input";
                 InsertMessage.metadata := None |}
              (userMessageId env) (userMessageTime env) in
          let messages := MemStorage.getMessagesBySession st sessionId in
          let conversationHistory :=
            map (fun m => (Message.role m, Message.content m)) messages in
          (inr {| Pending.sessionId := sessionId;
                  Pending.session := session;
                  Pending.userMessage := userMessage;
                  Pending.conversationHistory := conversationHistory |},
           st)
      end
  | _ => (inl (fail 400 "Message content is required"), st)
  end.

(** The same handler from the moment the completion request is
    settled.  The storage is shared by all requests, and while the
    handler waited others were served: [st] is the store as they have
    left it, which need not be the one the handler left. *)
Definition postMessageResume (pending : Pending.t) (st : MemStorage.t)
    (env : PostEnv) : Response * MemStorage.t :=
  let sessionId := Pending.sessionId pending in
  let session := Pending.session pending in
  let userMessage := Pending.userMessage pending in
  match generateChatResponse (completion env)
          (Pending.conversationHistory pending)
          (Session.topologyPattern session) with
  | Thrown message => (fail 500 message, st)
  | Returned aiResponse =>
      let '(aiMessage, st) :=
        MemStorage.createMessage st
          {| InsertMessage.sessionId := sessionId;
             InsertMessage.role := assistant;
             InsertMessage.content := ChatResponse.content aiResponse;
             InsertMessage.topologyImpact :=
               Some (ChatResponse.topologyImpact aiResponse);
             InsertMessage.metadata := None |}
          (aiMessageId env) (aiMessageTime env) in
      let updatedMessages := MemStorage.getMessagesBySession st sessionId in
      match calculateTopology updatedMessages with
      | None => (fail 500 "Invalid array length", st)
      | Some topology =>
          let '(_, st) :=
            MemStorage.updateSession st sessionId
              {| SessionUpdates.title := None;
                 SessionUpdates.topologyPattern :=
                   Some (TopologyPattern.pattern topology);
                 SessionUpdates.topologyOrder :=
                   Some (TopologyPattern.order topology);
                 SessionUpdates.threadCount :=
                   Some (TopologyPattern.threads topology);
                 SessionUpdates.messageCount :=
                   Some (Z.of_nat (List.length updatedMessages));
                 SessionUpdates.isActive := None |}
              (updateTime env) in
          let '(_, st) :=
            MemStorage.saveTopologyAnalysis st
              {| InsertTopologyAnalysis.sessionId := sessionId;
                 InsertTopologyAnalysis.pattern :=
                   TopologyPattern.pattern topology;
                 InsertTopologyAnalysis.primeFactors :=
                   toJSON (TopologyPattern.primeFactors topology);
                 InsertTopologyAnalysis.structure :=
                   toJSON (TopologyPattern.structure topology);
                 InsertTopologyAnalysis.complexity :=
                   TopologyPattern.complexity topology;
                 InsertTopologyAnalysis.nestingDepth :=
                   TopologyPattern.nestingDepth topology |}
              (analysisId env) (analysisTime env) in
          (ok (JObj [("userMessage", toJSON userMessage);
                     ("aiMessage", toJSON aiMessage);
                     ("topology", toJSON topology)]),
           st)
      end
  end.

(** [POST /api/sessions/:id/messages] when no other request is served
    while the handler waits: it resumes on the store it left. *)
Definition postMessage (st : MemStorage.t) (sessionId : string)
    (content : option json) (env : PostEnv) : Response * MemStorage.t :=
  match postMessageBegin st sessionId content env with
  | (inl response, st) => (response, st)
  | (inr pending, st) => postMessageResume pending st env
  end.

(** [GET /api/sessions/:id/topology]. *)
Definition getTopology (st : MemStorage.t) (id : string) : Response :=
  match MemStorage.getTopologyAnalysis st id with
  | None => fail 404 "Topology analysis not found"
  | Some analysis => ok (toJSON analysis)
  end.

(** [GET /api/sessions/:id/export]. *)
Definition getExport (st : MemStorage.t) (id : string) : Eff Response :=
  fun w =>
    match MemStorage.getSession st id with
    | None => fail 404 "Session not found"
    | Some session =>
        let messages := MemStorage.getMessagesBySession st id in
        match calculateTopology messages with
        | None => fail 500 "Failed to export session"
        | Some topology =>
            {| statusCode := 200;
               headers :=
                 [("Content-Type", "application/json");
                  ("Content-Disposition",
                   "attachment; filename=" ++ String JSON.dquote
                     ("session_" ++ id ++ ".json"
                        ++ String JSON.dquote EmptyString))];
               body :=
                 Text (exportSessionToJson id session messages topology w) |}
        end
    end.

End Routes.

(** A posted message, as an example: the environment, in which the
    completion request answers with a text, what the handler holds
    while it waits after [How so?] was posted to the session of
    [demoStore], and the store it has left. *)
Definition demoPending : Pending.t :=
  {| Pending.sessionId := "s1";
     Pending.session :=
       Session.mk "s1" "Chat" "s1={[()]}" 1 1 0 "false" (mkDate 10)
         (mkDate 10);
     Pending.userMessage :=
       Message.mk "m2" "s1" user "How so?" (Some "user_input") JNull
         (mkDate 40);
     Pending.conversationHistory := [(user, "Why?"); (user, "How so?")] |}.

Definition demoSuspended : MemStorage.t :=
  snd (MemStorage.createMessage demoStore
         (InsertMessage.mk "s1" user "How so?" (Some "user_input") None)
         "m2" (mkDate 40)).

Definition demoEnv : Routes.PostEnv :=
  {| Routes.userMessageId := "m2";
     Routes.userMessageTime := mkDate 40;
     Routes.completion := Some (Some "Because it is.");
     Routes.aiMessageId := "m3";
     Routes.aiMessageTime := mkDate 50;
     Routes.updateTime := mkDate 60;
     Routes.analysisId := "a2";
     Routes.analysisTime := mkDate 70 |}.

(* ================================================================= *)
(** ** The request logger ([server/middleware/apiLogger.ts]) *)

(** The longest prefix of [s] without a slash: what [[^\/]+] takes, when
    it is not empty. *)
Fixpoint untilSlash (s : string) : string :=
  match s with
  | EmptyString => EmptyString
  | String c rest =>
      if Ascii.eqb c "/" then EmptyString else String c (untilSlash rest)
  end.

(** What follows [p] in [s], when [s] starts with [p]. *)
Fixpoint stripPrefix (p s : string) : option string :=
  match p, s with
  | EmptyString, _ => Some s
  | String a p', String b s' =>
      if Ascii.eqb a b then stripPrefix p' s' else None
  | String _ _, EmptyString => None
  end.

(** The pattern [/\/sessions\/([^\/]+)/] tried at the start of [s]: the
    text its group captures there. *)
Definition sessionsPatternAt (s : string) : option string :=
  match stripPrefix "/sessions/" s with
  | Some rest =>
      match untilSlash rest with
      | EmptyString => None
      | String c id => Some (String c id)
      end
  | None => None
  end.

(** [extractSessionId]: [url.match] tries the pattern at each position
    from the left and returns the group of the first match. *)
Fixpoint extractSessionId (url : string) : option string :=
  match sessionsPatternAt url with
  | Some id => Some id
  | None =>
      match url with
      | EmptyString => None
      | String _ rest => extractSessionId rest
      end
  end.

(** What [logToChatStructure] writes under [chat/], by the branch it
    takes; the files hold the response body or parts of it. *)
Inductive ChatFiles : Type :=
| SessionsList                      (* chat/sessions.json *)
| SessionFile (sessionId : string)  (* chat/sessions/<id>/session.json *)
| MessagesFiles (sessionId : string)
    (* chat/sessions/<id>/messages.json and messages/<message id>.json *)
| NewMessageFiles (sessionId : string)
    (* chat/sessions/<id>/messages/<message id>.json, topology.json *)
| TopologyFile (sessionId : string) (* chat/sessions/<id>/topology.json *)
| CreatedSessionFile                (* chat/sessions/<body.id>/session.json *)
| DirectoryOnly (sessionId : string) (* chat/sessions/<id>/ is created *)
| NoFiles.

(** The branches of [logToChatStructure] for a request [method url]
    answered with [statusCode]: [None] when it returns at once, otherwise
    the branch taken, after which [chat/chat.json] is rewritten. *)
Definition logToChatStructure (url method : string) (statusCode : Z)
  : option ChatFiles :=
  if statusCode >=? 400 then None
  else
    Some
      (if JS.includes url "/sessions" && String.eqb method "GET"
          && negb (JS.includes url "/messages")
          && negb (JS.includes url "/topology")
       then
         if String.eqb url "/api/sessions" then SessionsList
         else
           match extractSessionId url with
           | Some sessionId => SessionFile sessionId
           | None => NoFiles
           end
       else if JS.includes url "/messages" then
         match extractSessionId url with
         | Some sessionId =>
             if String.eqb method "GET" then MessagesFiles sessionId
             else if String.eqb method "POST" then NewMessageFiles sessionId
             else DirectoryOnly sessionId
         | None => NoFiles
         end
       else if JS.includes url "/topology" then
         match extractSessionId url with
         | Some sessionId =>
             if String.eqb method "GET" then TopologyFile sessionId
             else NoFiles
         | None => NoFiles
         end
       else if String.eqb method "POST" && String.eqb url "/api/sessions"
       then CreatedSessionFile
       else NoFiles).

(** Identifiers as [randomUUID] draws them: hexadecimal digits and
    dashes. *)
Definition uuidChar (c : ascii) : bool :=
  JS.includes "0123456789abcdef-" (String c EmptyString).

Fixpoint uuidLike (s : string) : bool :=
  match s with
  | EmptyString => true
  | String c rest => uuidChar c && uuidLike rest
  end.

(* ================================================================= *)
(** ** Display helpers ([view-logs.js], [Sidebar.tsx]) *)

(** [Math.round]: the nearest integer, a half rounded up. *)
Definition Math_round (q : Q) : Z := Qfloor (q + (1 # 2)).

(** [formatSize] of [view-logs.js], on the size of a file. *)
Definition formatSize (bytes : Z) : string :=
  if bytes <? 1024 then JS.Number_toString bytes ++ " B"
  else if bytes <? 1024 * 1024 then
    JS.Number_toString (Math_round (inject_Z bytes / 1024)) ++ " KB"
  else
    JS.Number_toString (Math_round (inject_Z bytes / (1024 * 1024))) ++ " MB".

(** [formatTimeAgo] of the sidebar, on the date [new Date(date)]
    denotes. *)
Definition formatTimeAgo (date : Date) : Eff string :=
  now <- new_Date ;;
  let sessionDate := date in
  let diffInMinutes :=
    JS.Math_floor (inject_Z (getTime now - getTime sessionDate) / 60000) in
  ret (if diffInMinutes <? 1 then "Now"
       else if diffInMinutes <? 60 then
         JS.Number_toString diffInMinutes ++ "m ago"
       else if diffInMinutes <? 1440 then
         JS.Number_toString (JS.Math_floor (inject_Z diffInMinutes / 60))
           ++ "h ago"
       else
         JS.Number_toString (JS.Math_floor (inject_Z diffInMinutes / 1440))
           ++ "d ago").

(* ================================================================= *)
(** * Properties *)

(** ** Arithmetic of the resolver *)

Lemma floor_half (b : Z) : JS.Math_floor (inject_Z b / 2)%Q = b / 2.
Proof.
  unfold JS.Math_floor. symmetry. exact (Zdiv_Qdiv b 2).
Qed.

Lemma ceil_half (b : Z) : JS.Math_ceil (inject_Z b / 2)%Q = (b + 1) / 2.
Proof.
  unfold JS.Math_ceil, Qceiling.
  assert (E : (- (inject_Z b / 2) == inject_Z (- b) / inject_Z 2)%Q).
  { rewrite inject_Z_opp. field. }
  rewrite (Qfloor_comp _ _ E), <- Zdiv_Qdiv.
  clear E. Z.to_euclidean_division_equations. lia.
Qed.

(** The resolver with the rounding spelled out in integer arithmetic. *)
Lemma resolveMetrics_threads (mc bp ca : Z) :
  ThreadAnalysis.threads (resolveMetrics mc bp ca)
  = Z.max 1 (Z.min (ThreadAnalysis.order (resolveMetrics mc bp ca) + 1)
                   ((bp + 1) / 2 + 1)).
Proof.
  unfold resolveMetrics; cbn [ThreadAnalysis.threads ThreadAnalysis.order].
  now rewrite ceil_half.
Qed.

Lemma resolveMetrics_nestingDepth (mc bp ca : Z) :
  ThreadAnalysis.nestingDepth (resolveMetrics mc bp ca)
  = Z.min 4 (Z.max 1 (bp / 2 + 1)).
Proof.
  unfold resolveMetrics; cbn [ThreadAnalysis.nestingDepth].
  now rewrite floor_half.
Qed.

Lemma resolveMetrics_order (mc bp ca : Z) :
  ThreadAnalysis.order (resolveMetrics mc bp ca)
  = if (mc >? 15) || (bp >? 4) then 4
    else if (mc >? 8) || (bp >? 2) then 3
    else if mc >? 3 then 2 else 1.
Proof. reflexivity. Qed.

Ltac split_tests :=
  repeat match goal with
    | |- context [Z.gtb ?a ?b] => destruct (Z.gtb_spec a b)
    | |- context [Z.geb ?a ?b] => destruct (Z.geb_spec a b)
    | |- context [Z.eqb ?a ?b] => destruct (Z.eqb_spec a b)
    | |- context [Z.ltb ?a ?b] => destruct (Z.ltb_spec a b)
    | |- context [Z.leb ?a ?b] => destruct (Z.leb_spec a b)
    end; cbn [orb andb negb].

Lemma resolveMetrics_order_range (mc bp ca : Z) :
  1 <= ThreadAnalysis.order (resolveMetrics mc bp ca) <= 4.
Proof. rewrite resolveMetrics_order. split_tests; lia. Qed.

Lemma resolveMetrics_order_mono (mc mc' bp bp' ca ca' : Z) :
  mc <= mc' -> bp <= bp' ->
  ThreadAnalysis.order (resolveMetrics mc bp ca)
  <= ThreadAnalysis.order (resolveMetrics mc' bp' ca').
Proof. intros Hm Hb. rewrite !resolveMetrics_order. split_tests; lia. Qed.

Lemma resolveMetrics_threads_range (mc bp ca : Z) :
  1 <= ThreadAnalysis.threads (resolveMetrics mc bp ca)
    <= ThreadAnalysis.order (resolveMetrics mc bp ca) + 1.
Proof.
  rewrite resolveMetrics_threads.
  pose proof (resolveMetrics_order_range mc bp ca). lia.
Qed.

Lemma resolveMetrics_nestingDepth_range (mc bp ca : Z) :
  1 <= ThreadAnalysis.nestingDepth (resolveMetrics mc bp ca) <= 4.
Proof. rewrite resolveMetrics_nestingDepth. lia. Qed.

(** ** The signal scan *)

Lemma scan_from (l : list Message.t) (b c : Z) :
  fold_left scanMessage l (b, c)
  = (b + count branchingSignal l, c + count closureSignal l).
Proof.
  revert b c. induction l as [|m l IH]; intros b c.
  - unfold count; cbn. f_equal; lia.
  - cbn [fold_left]. unfold scanMessage at 2. rewrite IH.
    unfold count; cbn [filter].
    destruct (branchingSignal m), (closureSignal m); cbn [List.length];
      f_equal; lia.
Qed.

Lemma scanMessages_count (l : list Message.t) :
  scanMessages l = (count branchingSignal l, count closureSignal l).
Proof. unfold scanMessages. now rewrite scan_from. Qed.

Lemma analyzeThreads_eq (l : list Message.t) :
  analyzeThreads l
  = resolveMetrics (Z.of_nat (List.length l))
      (count branchingSignal l) (count closureSignal l).
Proof. unfold analyzeThreads. now rewrite scanMessages_count. Qed.

(** ** The renderer *)

Lemma append_nil_r (s : string) : s ++ EmptyString = s.
Proof. induction s as [|c s IH]; cbn; now rewrite ?IH. Qed.

Lemma append_assoc (a b c : string) : (a ++ b) ++ c = a ++ (b ++ c).
Proof. induction a as [|x a IH]; cbn; now rewrite ?IH. Qed.

(** With fuel for every remaining iteration the loop leaves through its
    condition, having wrapped [depth - i] times. *)
Lemma nestLoop_exit (fuel : nat) :
  forall (i depth : Z) (p : string),
    (Z.to_nat (depth - i) <= fuel)%nat ->
    nestLoop fuel i depth p = Nat.iter (Z.to_nat (depth - i)) Spec.wrap p.
Proof.
  induction fuel as [|fuel IH]; intros i depth p Hf; cbn [nestLoop].
  - replace (Z.to_nat (depth - i)) with O by lia. reflexivity.
  - destruct (Z.ltb_spec i depth) as [Hlt|Hge].
    + rewrite IH by lia.
      replace (Z.to_nat (depth - i)) with (S (Z.to_nat (depth - (i + 1))))
        by lia.
      now rewrite Nat.iter_succ_r.
    + replace (Z.to_nat (depth - i)) with O by lia. reflexivity.
Qed.

Lemma generateNestedPattern_spec (depth : Z) :
  generateNestedPattern depth = Spec.nested depth.
Proof.
  unfold generateNestedPattern, Spec.nested.
  destruct (Z.leb_spec depth 1); [reflexivity|].
  apply nestLoop_exit. lia.
Qed.

Lemma join_repeat (n : nat) (s : string) :
  JS.join EmptyString (repeat s n) = Spec.times n s.
Proof.
  induction n as [|n IH]; [reflexivity|].
  cbn [repeat Spec.times]. rewrite <- IH. unfold JS.join.
  destruct n as [|n]; cbn; [now rewrite append_nil_r | reflexivity].
Qed.

Lemma generatePattern_spec (a : ThreadAnalysis.t) :
  0 <= ThreadAnalysis.threads a < 2 ^ 32 ->
  generatePattern a
  = Some (Spec.render (ThreadAnalysis.order a) (ThreadAnalysis.threads a)
            (ThreadAnalysis.nestingDepth a)).
Proof.
  intros Ht. unfold generatePattern, Spec.render.
  destruct (ThreadAnalysis.order a =? 1); [reflexivity|].
  unfold JS.Array_fill.
  replace ((0 <=? ThreadAnalysis.threads a)
           && (ThreadAnalysis.threads a <? 2 ^ 32)) with true
    by (symmetry; apply andb_true_iff; split;
        [apply Z.leb_le | apply Z.ltb_lt]; lia).
  now rewrite join_repeat, generateNestedPattern_spec.
Qed.

(** With fuel for every remaining iteration the push loop leaves
    through its condition as well. *)
Lemma pushLoop_exit (fuel : nat) :
  forall (i threads : Z) (acc : list string),
    (Z.to_nat (threads - i) <= fuel)%nat ->
    pushLoop fuel i threads acc
    = (acc ++ repeat "()" (Z.to_nat (threads - i)))%list.
Proof.
  induction fuel as [|fuel IH]; intros i threads acc Hf; cbn [pushLoop].
  - replace (Z.to_nat (threads - i)) with O by lia.
    now rewrite List.app_nil_r.
  - destruct (Z.ltb_spec i threads) as [Hlt|Hge].
    + rewrite IH by lia.
      replace (Z.to_nat (threads - i))
        with (S (Z.to_nat (threads - (i + 1)))) by lia.
      cbn [repeat]. now rewrite <- List.app_assoc.
    + replace (Z.to_nat (threads - i)) with O by lia.
      now rewrite List.app_nil_r.
Qed.

Lemma buildStructure_procedural (a : ThreadAnalysis.t) :
  Structure.procedural (buildStructure a)
  = repeat "()" (Z.to_nat (ThreadAnalysis.threads a)).
Proof.
  unfold buildStructure. cbn [Structure.procedural].
  rewrite pushLoop_exit by lia. cbn [app]. f_equal. lia.
Qed.

(** [calculateTopology] never throws, and on a non-empty list it returns
    the assembled record with the rendered pattern. *)
Lemma calculateTopology_nonempty (messages : list Message.t) :
  messages <> [] ->
  calculateTopology messages
  = Some (assemble
            (Spec.render (ThreadAnalysis.order (analyzeThreads messages))
               (ThreadAnalysis.threads (analyzeThreads messages))
               (ThreadAnalysis.nestingDepth (analyzeThreads messages)))
            (analyzeThreads messages)).
Proof.
  intros Hne. unfold calculateTopology.
  destruct messages as [|m l]; [contradiction|].
  cbn [List.length Nat.eqb].
  rewrite generatePattern_spec; [reflexivity|].
  rewrite analyzeThreads_eq.
  pose proof (resolveMetrics_threads_range
                (Z.of_nat (List.length (m :: l)))
                (count branchingSignal (m :: l))
                (count closureSignal (m :: l))).
  pose proof (resolveMetrics_order_range
                (Z.of_nat (List.length (m :: l)))
                (count branchingSignal (m :: l))
                (count closureSignal (m :: l))).
  lia.
Qed.

Lemma calculateTopology_total (messages : list Message.t) :
  exists t, calculateTopology messages = Some t.
Proof.
  destruct messages as [|m l].
  - now exists createEmptyTopology.
  - eexists. now apply calculateTopology_nonempty.
Qed.

(** ** Prime factors *)

Lemma calculatePrimeFactors_cases (a : ThreadAnalysis.t) :
  calculatePrimeFactors a
  = let f := ((if ThreadAnalysis.threads a >=? 2 then ["p1p1"] else [])
              ++ (if ThreadAnalysis.order a >=? 2 then ["p2"] else [])
              ++ (if ThreadAnalysis.order a >=? 3 then ["p3"] else [])
              ++ (if ThreadAnalysis.nestingDepth a >? 2 then ["p5"] else []))%list
    in match f with [] => ["p1"] | _ => f end.
Proof.
  unfold calculatePrimeFactors.
  destruct (ThreadAnalysis.threads a >=? 2),
    (ThreadAnalysis.order a >=? 2), (ThreadAnalysis.order a >=? 3),
    (ThreadAnalysis.nestingDepth a >? 2); reflexivity.
Qed.

Lemma calculatePrimeFactors_nonempty (a : ThreadAnalysis.t) :
  calculatePrimeFactors a <> [].
Proof.
  rewrite calculatePrimeFactors_cases.
  destruct (ThreadAnalysis.threads a >=? 2),
    (ThreadAnalysis.order a >=? 2), (ThreadAnalysis.order a >=? 3),
    (ThreadAnalysis.nestingDepth a >? 2); discriminate.
Qed.

Lemma calculatePrimeFactors_p1 (a : ThreadAnalysis.t) :
  calculatePrimeFactors a = ["p1"]
  <-> ThreadAnalysis.threads a < 2 /\ ThreadAnalysis.order a < 2
      /\ ThreadAnalysis.nestingDepth a <= 2.
Proof.
  rewrite calculatePrimeFactors_cases.
  destruct (Z.geb_spec (ThreadAnalysis.threads a) 2),
    (Z.geb_spec (ThreadAnalysis.order a) 2),
    (Z.geb_spec (ThreadAnalysis.order a) 3),
    (Z.gtb_spec (ThreadAnalysis.nestingDepth a) 2);
    cbn; split; intros E; try discriminate E; try lia; try reflexivity.
Qed.

Lemma calculatePrimeFactors_p1_alone (a : ThreadAnalysis.t) :
  In "p1" (calculatePrimeFactors a) -> calculatePrimeFactors a = ["p1"].
Proof.
  rewrite calculatePrimeFactors_cases.
  destruct (ThreadAnalysis.threads a >=? 2),
    (ThreadAnalysis.order a >=? 2), (ThreadAnalysis.order a >=? 3),
    (ThreadAnalysis.nestingDepth a >? 2); cbn;
    intros H; try reflexivity;
    repeat (destruct H as [H|H]; [discriminate H|]); contradiction.
Qed.

(* ================================================================= *)
(** * The classifier's stated properties *)

(** C1.  For every message list, the empty one included, the
    classifier returns a record whose [pattern] field is exactly what
    the rendering rules of section 4.3 give on the reported order,
    threads and nesting depth: the fixed [s0={}] of the empty case, the
    fixed order-1 string, and from order 2 on the template filled with
    [()] repeated [threads] times and [nested(nestingDepth)]. *)
Theorem pattern_rerender (messages : list Message.t) :
  exists t,
    calculateTopology messages = Some t
    /\ Spec.rerender (TopologyPattern.order t) (TopologyPattern.threads t)
         (TopologyPattern.nestingDepth t)
       = TopologyPattern.pattern t.
Proof.
  destruct messages as [|m l].
  - exists createEmptyTopology. split; reflexivity.
  - eexists. split; [apply calculateTopology_nonempty; discriminate|].
    cbn [assemble TopologyPattern.pattern TopologyPattern.threads
           TopologyPattern.order TopologyPattern.nestingDepth].
    unfold Spec.rerender.
    pose proof (resolveMetrics_order_range
                  (Z.of_nat (List.length (m :: l)))
                  (count branchingSignal (m :: l))
                  (count closureSignal (m :: l))) as Hrange.
    rewrite <- analyzeThreads_eq in Hrange.
    destruct (Z.eqb_spec (ThreadAnalysis.order (analyzeThreads (m :: l))) 0)
      as [E|_]; [lia | reflexivity].
Qed.

(** The rule at work on the template: five messages, three of them
    questions, are reported with order 3, three threads and nesting
    depth 2, and the re-rendered string is the pattern returned. *)
Lemma pattern_rerender_witness :
  exists t,
    calculateTopology
      [say user "Why?"; say assistant "Because."; say user "Really?";
       say assistant "Yes."; say user "Since when?"]
    = Some t
    /\ Spec.rerender (TopologyPattern.order t) (TopologyPattern.threads t)
         (TopologyPattern.nestingDepth t)
       = TopologyPattern.pattern t
    /\ TopologyPattern.order t = 3
    /\ TopologyPattern.pattern t = "s3={[()()()],[((()))]}".
Proof.
  destruct (pattern_rerender
              [say user "Why?"; say assistant "Because."; say user "Really?";
               say assistant "Yes."; say user "Since when?"])
    as (t & Ht & Hrender).
  exists t. split; [exact Ht|]. split; [exact Hrender|].
  vm_compute in Ht. injection Ht as <-. split; reflexivity.
Defined.

(** C2.  Nine messages, exactly three of which contain a question mark
    and none of which contains [what] or [how] in any letter case, are
    classified as order 3, threads 3, nesting depth 2, with the pattern
    and the prime factors of scenario B. *)
Theorem scenario_B (messages : list Message.t) :
  List.length messages = 9%nat ->
  List.length
    (filter (fun m => JS.includes (Message.content m) "?") messages) = 3%nat ->
  Forall (fun m =>
            JS.includes (JS.toLowerCase (Message.content m)) "what" = false
            /\ JS.includes (JS.toLowerCase (Message.content m)) "how" = false)
    messages ->
  exists t,
    calculateTopology messages = Some t
    /\ TopologyPattern.order t = 3
    /\ TopologyPattern.threads t = 3
    /\ TopologyPattern.nestingDepth t = 2
    /\ TopologyPattern.pattern t = "s3={[()()()],[((()))]}"
    /\ TopologyPattern.primeFactors t = ["p1p1"; "p2"; "p3"].
Proof.
  intros Hlen Hq Hw.
  assert (Hb : count branchingSignal messages = 3).
  { unfold count.
    rewrite (filter_ext_in branchingSignal
               (fun m => JS.includes (Message.content m) "?")).
    - now rewrite Hq.
    - intros m Hm. rewrite Forall_forall in Hw.
      destruct (Hw m Hm) as [E1 E2].
      unfold branchingSignal. now rewrite E1, E2, !orb_false_r. }
  assert (Hne : messages <> []) by (intros ->; discriminate Hlen).
  eexists. split; [now apply calculateTopology_nonempty|].
  rewrite analyzeThreads_eq, Hlen, Hb.
  repeat split; reflexivity.
Qed.

Lemma scenario_B_witness :
  exists t,
    calculateTopology
      [say user "a?"; say assistant "b"; say user "c?"; say assistant "d";
       say user "e?"; say assistant "f"; say user "g"; say assistant "h";
       say user "i"] = Some t
    /\ TopologyPattern.order t = 3
    /\ TopologyPattern.threads t = 3
    /\ TopologyPattern.nestingDepth t = 2
    /\ TopologyPattern.pattern t = "s3={[()()()],[((()))]}"
    /\ TopologyPattern.primeFactors t = ["p1p1"; "p2"; "p3"].
Proof.
  apply (scenario_B
           [say user "a?"; say assistant "b"; say user "c?"; say assistant "d";
            say user "e?"; say assistant "f"; say user "g"; say assistant "h";
            say user "i"]).
  - reflexivity.
  - reflexivity.
  - repeat (constructor; [split; reflexivity|]). constructor.
Defined.

(** C4, amended.  For every non-empty message list the returned record
    satisfies [1 <= threads <= order + 1] and [1 <= nestingDepth <= 4]. *)
Theorem thread_nesting_bounds (messages : list Message.t) :
  messages <> [] ->
  exists t,
    calculateTopology messages = Some t
    /\ 1 <= TopologyPattern.threads t <= TopologyPattern.order t + 1
    /\ 1 <= TopologyPattern.nestingDepth t <= 4.
Proof.
  intros Hne. eexists. split; [now apply calculateTopology_nonempty|].
  cbn [assemble TopologyPattern.threads TopologyPattern.order
         TopologyPattern.nestingDepth].
  rewrite analyzeThreads_eq.
  split; [apply resolveMetrics_threads_range
         | apply resolveMetrics_nestingDepth_range].
Qed.

Lemma thread_nesting_bounds_witness :
  exists t,
    calculateTopology [say user "Hello"] = Some t
    /\ 1 <= TopologyPattern.threads t <= TopologyPattern.order t + 1
    /\ 1 <= TopologyPattern.nestingDepth t <= 4.
Proof.
  apply (thread_nesting_bounds [say user "Hello"]). discriminate.
Defined.

(** C4 as stated fails on the empty list, a valid input: the fixed empty
    topology reports 0 threads and nesting depth 0. *)
Lemma thread_nesting_bounds_fail_on_empty :
  ~ (forall messages t,
        calculateTopology messages = Some t ->
        1 <= TopologyPattern.threads t <= TopologyPattern.order t + 1
        /\ 1 <= TopologyPattern.nestingDepth t <= 4).
Proof.
  intros H. specialize (H [] createEmptyTopology eq_refl).
  cbn in H. lia.
Qed.

(** C5.  The order computed by the resolver is non-decreasing in the
    message count and in the number of branching points, and for every
    non-empty message list the returned order is one of 1, 2, 3, 4. *)
Theorem order_monotone_and_ranged :
  (forall mc mc' bp ca ca',
      mc <= mc' ->
      ThreadAnalysis.order (resolveMetrics mc bp ca)
      <= ThreadAnalysis.order (resolveMetrics mc' bp ca'))
  /\ (forall mc bp bp' ca ca',
         bp <= bp' ->
         ThreadAnalysis.order (resolveMetrics mc bp ca)
         <= ThreadAnalysis.order (resolveMetrics mc bp' ca'))
  /\ (forall messages,
         messages <> [] ->
         exists t,
           calculateTopology messages = Some t
           /\ TopologyPattern.order t
              = ThreadAnalysis.order
                  (resolveMetrics (Z.of_nat (List.length messages))
                     (count branchingSignal messages)
                     (count closureSignal messages))
           /\ In (TopologyPattern.order t) [1; 2; 3; 4]).
Proof.
  split; [|split].
  - intros. apply resolveMetrics_order_mono; lia.
  - intros. apply resolveMetrics_order_mono; lia.
  - intros messages Hne. eexists.
    split; [now apply calculateTopology_nonempty|].
    cbn [assemble TopologyPattern.order]. rewrite analyzeThreads_eq.
    split; [reflexivity|].
    pose proof (resolveMetrics_order_range
                  (Z.of_nat (List.length messages))
                  (count branchingSignal messages)
                  (count closureSignal messages)) as Hr.
    cbn [In]. lia.
Qed.

Lemma order_monotone_and_ranged_witness :
  ThreadAnalysis.order (resolveMetrics 3 0 0)
  <= ThreadAnalysis.order (resolveMetrics 9 0 0)
  /\ ThreadAnalysis.order (resolveMetrics 3 0 0)
     <= ThreadAnalysis.order (resolveMetrics 3 5 0)
  /\ exists t,
      calculateTopology [say user "Hello"] = Some t
      /\ TopologyPattern.order t
         = ThreadAnalysis.order
             (resolveMetrics (Z.of_nat (List.length [say user "Hello"]))
                (count branchingSignal [say user "Hello"])
                (count closureSignal [say user "Hello"]))
      /\ In (TopologyPattern.order t) [1; 2; 3; 4].
Proof.
  destruct order_monotone_and_ranged as [Hm [Hb Hr]].
  split; [apply Hm; lia | split; [apply Hb; lia | apply Hr; discriminate]].
Defined.

(** C6.  For every non-empty message list the returned prime-factor
    list is non-empty, and it is exactly [["p1"]] if and only if
    threads < 2, order < 2 and nestingDepth <= 2 all hold. *)
Theorem primeFactors_nonempty_and_p1 (messages : list Message.t) :
  messages <> [] ->
  exists t,
    calculateTopology messages = Some t
    /\ TopologyPattern.primeFactors t <> []
    /\ (TopologyPattern.primeFactors t = ["p1"]
        <-> TopologyPattern.threads t < 2
            /\ TopologyPattern.order t < 2
            /\ TopologyPattern.nestingDepth t <= 2).
Proof.
  intros Hne. eexists. split; [now apply calculateTopology_nonempty|].
  cbn [assemble TopologyPattern.primeFactors TopologyPattern.threads
         TopologyPattern.order TopologyPattern.nestingDepth].
  split; [apply calculatePrimeFactors_nonempty | apply calculatePrimeFactors_p1].
Qed.

Lemma primeFactors_nonempty_and_p1_witness :
  exists t,
    calculateTopology [say user "Hello"] = Some t
    /\ TopologyPattern.primeFactors t <> []
    /\ (TopologyPattern.primeFactors t = ["p1"]
        <-> TopologyPattern.threads t < 2
            /\ TopologyPattern.order t < 2
            /\ TopologyPattern.nestingDepth t <= 2).
Proof.
  apply (primeFactors_nonempty_and_p1 [say user "Hello"]). discriminate.
Defined.

(** C7, amended.  For every non-empty message list with at most 3
    messages and at most 2 branching points the returned pattern is
    exactly [s1={[()]}], whatever the messages otherwise contain. *)
Theorem order1_stability (messages : list Message.t) :
  messages <> [] ->
  (List.length messages <= 3)%nat ->
  ThreadAnalysis.branchingPoints (analyzeThreads messages) <= 2 ->
  exists t,
    calculateTopology messages = Some t
    /\ TopologyPattern.pattern t = "s1={[()]}".
Proof.
  intros Hne Hlen Hbp. eexists.
  split; [now apply calculateTopology_nonempty|].
  cbn [assemble TopologyPattern.pattern].
  rewrite analyzeThreads_eq in *.
  cbn [resolveMetrics ThreadAnalysis.branchingPoints] in Hbp.
  set (mc := Z.of_nat (List.length messages)) in *.
  assert (Hmc : mc <= 3) by lia.
  assert (Ho : ThreadAnalysis.order
                 (resolveMetrics mc (count branchingSignal messages)
                    (count closureSignal messages)) = 1).
  { rewrite resolveMetrics_order. split_tests; lia. }
  unfold Spec.render. now rewrite Ho.
Qed.

Lemma order1_stability_witness :
  exists t,
    calculateTopology [say user "Why?"; say assistant "Because"; say user "How"]
    = Some t
    /\ TopologyPattern.pattern t = "s1={[()]}".
Proof.
  apply (order1_stability
           [say user "Why?"; say assistant "Because"; say user "How"]).
  - discriminate.
  - cbn; lia.
  - vm_compute. discriminate.
Defined.

(** C7 as stated fails on the empty list, which has at most 3 messages
    and no branching point: its pattern is [s0={}]. *)
Lemma order1_stability_fails_on_empty :
  ~ (forall messages t,
        (List.length messages <= 3)%nat ->
        ThreadAnalysis.branchingPoints (analyzeThreads messages) <= 2 ->
        calculateTopology messages = Some t ->
        TopologyPattern.pattern t = "s1={[()]}").
Proof.
  intros H.
  assert (Hl : (List.length (@nil Message.t) <= 3)%nat) by (cbn; lia).
  assert (Hb : ThreadAnalysis.branchingPoints (analyzeThreads []) <= 2)
    by (vm_compute; discriminate).
  specialize (H [] createEmptyTopology Hl Hb eq_refl).
  discriminate H.
Qed.

(** C8.  On the empty list the classifier returns the fixed empty
    topology.  The resolver is not consulted: on the empty list it would
    report order 1, threads 1 and nesting depth 1. *)
Theorem empty_input :
  calculateTopology []
  = Some {| TopologyPattern.pattern := "s0={}";
            TopologyPattern.order := 0;
            TopologyPattern.threads := 0;
            TopologyPattern.complexity := "empty";
            TopologyPattern.primeFactors := [];
            TopologyPattern.structure :=
              {| Structure.procedural := [];
                 Structure.perspectival := [];
                 Structure.participatory := "s0" |};
            TopologyPattern.nestingDepth := 0 |}
  /\ calculateTopology [] = Some createEmptyTopology
  /\ ThreadAnalysis.order (analyzeThreads []) = 1
  /\ ThreadAnalysis.threads (analyzeThreads []) = 1
  /\ ThreadAnalysis.nestingDepth (analyzeThreads []) = 1.
Proof. repeat split; reflexivity. Qed.

(** C10.  For every non-empty message list, if the tag [p1] occurs in
    the returned prime-factor list then the list is exactly [["p1"]]:
    [p1] never stands next to [p1p1], [p2], [p3] or [p5]. *)
Theorem p1_only_alone (messages : list Message.t) :
  messages <> [] ->
  exists t,
    calculateTopology messages = Some t
    /\ (In "p1" (TopologyPattern.primeFactors t) ->
        TopologyPattern.primeFactors t = ["p1"]).
Proof.
  intros Hne. eexists. split; [now apply calculateTopology_nonempty|].
  cbn [assemble TopologyPattern.primeFactors].
  apply calculatePrimeFactors_p1_alone.
Qed.

Lemma p1_only_alone_witness :
  exists t,
    calculateTopology [say user "Hello"] = Some t
    /\ (In "p1" (TopologyPattern.primeFactors t) ->
        TopologyPattern.primeFactors t = ["p1"]).
Proof.
  apply (p1_only_alone [say user "Hello"]). discriminate.
Defined.





(* ================================================================= *)
(** * The JSON text of a value parses back to the value *)

(** ** Texts *)

Lemma length_append (a b : string) :
  String.length (a ++ b) = (String.length a + String.length b)%nat.
Proof. induction a as [|c a IH]; cbn; [reflexivity | now rewrite IH]. Qed.

Lemma skipWs_blank (w s : string) :
  blank w = true -> JSON.skipWs (w ++ s) = JSON.skipWs s.
Proof.
  induction w as [|c w IH]; cbn; [reflexivity|].
  intros H. apply andb_true_iff in H as [Hc Hw].
  rewrite Hc. auto.
Qed.

Lemma skipWs_stop (c : ascii) (s : string) :
  JSON.isWs c = false -> JSON.skipWs (String c s) = String c s.
Proof. intros H. cbn. now rewrite H. Qed.

Lemma blank_append (a b : string) :
  blank a = true -> blank b = true -> blank (a ++ b) = true.
Proof.
  induction a as [|c a IH]; cbn; [auto|].
  intros Ha Hb. apply andb_true_iff in Ha as [Hc Ha].
  rewrite Hc. cbn. auto.
Qed.

Lemma blank_gapOf (space : Z) : blank (JSON.gapOf space) = true.
Proof.
  unfold JSON.gapOf. induction (Z.to_nat (Z.min 10 space)) as [|n IH];
    [reflexivity | exact IH].
Qed.

Lemma blank_lineBreak (gap indent : string) :
  blank indent = true -> blank (JSON.lineBreak gap indent) = true.
Proof. intros H. destruct gap; [reflexivity | exact H]. Qed.

(** ** String literals *)

Lemma parseChars_quoteChar (c : ascii) (s : string) :
  JSON.parseChars (JSON.quoteChar c ++ s)
  = JSON.consChar c (JSON.parseChars s).
Proof.
  destruct c as [[] [] [] [] [] [] [] []]; reflexivity.
Qed.

Lemma parseChars_quoteBody (s rest : string) :
  JSON.parseChars (JSON.quoteBody s ++ String JSON.dquote rest)
  = Some (s, rest).
Proof.
  induction s as [|c s IH]; [reflexivity|].
  cbn [JSON.quoteBody]. rewrite append_assoc, parseChars_quoteChar, IH.
  reflexivity.
Qed.

Lemma quote_append (s rest : string) :
  JSON.quote s ++ rest
  = String JSON.dquote (JSON.quoteBody s ++ String JSON.dquote rest).
Proof. unfold JSON.quote. cbn. now rewrite append_assoc. Qed.

(** ** Numbers *)

Lemma readDigits_digits_stop (d : Decimal.uint) (rest : string) :
  noDigitAhead rest ->
  JSON.readDigits (NilEmpty.string_of_uint d ++ rest) = (d, rest).
Proof.
  intros Hrest.
  induction d as [|d IH|d IH|d IH|d IH|d IH|d IH|d IH|d IH|d IH|d IH];
    cbn; try (now rewrite IH).
  destruct rest as [|c rest]; [reflexivity|].
  cbn in Hrest |- *. now rewrite Hrest.
Qed.

Lemma numberGoesOn_noDigitAhead (rest : string) :
  JSON.numberGoesOn rest = false -> noDigitAhead rest.
Proof.
  destruct rest as [|c rest]; cbn; [trivial|].
  destruct (JSON.digitOf c); [discriminate | reflexivity].
Qed.

Lemma readDigits_digits (d : Decimal.uint) (rest : string) :
  JSON.numberGoesOn rest = false ->
  JSON.readDigits (NilEmpty.string_of_uint d ++ rest) = (d, rest).
Proof.
  intros H. now apply readDigits_digits_stop, numberGoesOn_noDigitAhead.
Qed.

(** The digits of a positive number: at least one, and the first is not
    a zero. *)
Lemma to_uint_shape (p : positive) :
  match Pos.to_uint p with
  | Decimal.Nil | Decimal.D0 _ => False
  | _ => True
  end.
Proof.
  pose proof (DecimalPos.Unsigned.to_uint_nonnil p) as Hnil.
  pose proof (DecimalPos.Unsigned.to_uint_nonzero p) as Hz.
  pose proof (DecimalPos.Unsigned.to_of (Pos.to_uint p)) as Hfix.
  rewrite DecimalPos.Unsigned.of_to in Hfix. cbn [N.to_uint] in Hfix.
  destruct (Pos.to_uint p) as [|d| | | | | | | | |]; auto.
  rewrite unorm_D0 in Hfix.
  destruct d as [|d| | | | | | | | |]; try (now apply Hz);
    match type of Hfix with
    | Decimal.D0 ?u = _ =>
        assert (Hu : u <> Decimal.Nil) by discriminate;
        pose proof (nb_digits_unorm u Hu) as Hlen;
        rewrite <- Hfix in Hlen; cbn in Hlen; lia
    end.
Qed.

Lemma of_uint_to_uint (p : positive) : Z.of_uint (Pos.to_uint p) = Z.pos p.
Proof.
  unfold Z.of_uint. now rewrite DecimalPos.Unsigned.of_to.
Qed.

Lemma parseUnsigned_pos (p : positive) (rest : string) :
  JSON.numberGoesOn rest = false ->
  JSON.parseUnsigned (NilEmpty.string_of_uint (Pos.to_uint p) ++ rest)
  = Some (Z.pos p, rest).
Proof.
  intros Hrest. unfold JSON.parseUnsigned.
  rewrite readDigits_digits by exact Hrest.
  rewrite <- of_uint_to_uint.
  pose proof (to_uint_shape p) as Hs.
  destruct (Pos.to_uint p); try contradiction; cbv beta iota;
    rewrite Hrest; reflexivity.
Qed.

Lemma string_of_uint_pos (p : positive) :
  NilZero.string_of_uint (Pos.to_uint p)
  = NilEmpty.string_of_uint (Pos.to_uint p).
Proof.
  pose proof (DecimalPos.Unsigned.to_uint_nonnil p).
  now destruct (Pos.to_uint p).
Qed.

(** The text of a positive number starts with a digit from 1 to 9. *)
Lemma digits_head (p : positive) (rest : string) :
  exists c tail,
    NilEmpty.string_of_uint (Pos.to_uint p) ++ rest = String c tail
    /\ (c =? "-")%char = false
    /\ (c =? "+")%char = false
    /\ valueHead (String c tail) = true.
Proof.
  pose proof (to_uint_shape p) as Hs.
  destruct (Pos.to_uint p); try contradiction; cbn;
    eexists _, _; repeat split.
Qed.

Lemma parseNumber_toString (z : Z) (rest : string) :
  JSON.numberGoesOn rest = false ->
  JSON.parseNumber (JS.Number_toString z ++ rest) = Some (z, rest).
Proof.
  intros Hrest. unfold JS.Number_toString.
  destruct z as [|p|p]; cbn [Z.to_int NilZero.string_of_int].
  - change (JSON.parseUnsigned
              (NilEmpty.string_of_uint (Decimal.D0 Decimal.Nil) ++ rest)
            = Some (0, rest)).
    unfold JSON.parseUnsigned. rewrite readDigits_digits by exact Hrest.
    cbv beta iota. now rewrite Hrest.
  - rewrite string_of_uint_pos.
    destruct (digits_head p rest) as (c & tail & E & Hm & _ & _).
    unfold JSON.parseNumber. rewrite E, Hm, <- E.
    now apply parseUnsigned_pos.
  - rewrite string_of_uint_pos. cbn.
    now rewrite parseUnsigned_pos.
Qed.

Lemma valueHead_toString (z : Z) (rest : string) :
  valueHead (JS.Number_toString z ++ rest) = true.
Proof.
  unfold JS.Number_toString.
  destruct z as [|p|p]; cbn [Z.to_int NilZero.string_of_int];
    try reflexivity.
  rewrite string_of_uint_pos.
  destruct (digits_head p rest) as (c & tail & E & _ & _ & H).
  now rewrite E.
Qed.

Lemma length_toString (z : Z) : (1 <= String.length (JS.Number_toString z))%nat.
Proof.
  pose proof (valueHead_toString z EmptyString) as H.
  rewrite append_nil_r in H.
  destruct (JS.Number_toString z); [discriminate H | cbn; lia].
Qed.

(** ** Heads of texts *)

Lemma valueHead_skipWs (s : string) :
  valueHead s = true -> JSON.skipWs s = s.
Proof.
  destruct s as [|c s]; [discriminate|]. cbn.
  destruct (JSON.isWs c); [discriminate | reflexivity].
Qed.

Lemma valueHead_open (s : string) :
  valueHead s = true ->
  JSON.startsWith "]" s = false /\ JSON.startsWith "}" s = false.
Proof.
  destruct s as [|c s]; [discriminate|].
  unfold JSON.startsWith. cbn [valueHead JSON.stripPrefix].
  rewrite (Ascii.eqb_sym "]"%char c), (Ascii.eqb_sym "}"%char c).
  destruct (JSON.isWs c), (c =? "]")%char, (c =? "}")%char;
    try discriminate; auto.
Qed.

Lemma valueHead_serialize (gap indent : string) (v : json) (rest : string) :
  valueHead (JSON.serialize gap indent v ++ rest) = true.
Proof.
  destruct v as [|[]|z|s|[|e es]|[|kv kvs]]; try reflexivity.
  apply valueHead_toString.
Qed.

Lemma join_cons (sep x : string) (xs : list string) :
  JS.join sep (x :: xs)
  = x ++ match xs with
         | [] => EmptyString
         | _ :: _ => sep ++ JS.join sep xs
         end.
Proof. destruct xs; cbn; [now rewrite append_nil_r | reflexivity]. Qed.

Lemma numberGoesOn_close (gap indent : string) (c : ascii) (rest : string) :
  JSON.numberGoesOn (String c rest) = false ->
  JSON.numberGoesOn (JSON.lineBreak gap indent ++ String c rest) = false.
Proof. intros H. destruct gap; [exact H | reflexivity]. Qed.

(** ** One step of the parser on each kind of text *)

Lemma parseValue_skip (fuel : nat) (w s : string) :
  blank w = true ->
  JSON.parseValue fuel (w ++ s) = JSON.parseValue fuel s.
Proof.
  intros Hw. destruct fuel; [reflexivity|].
  cbn [JSON.parseValue]. now rewrite skipWs_blank.
Qed.

Lemma parseElements_skip (fuel : nat) (w s : string) :
  blank w = true ->
  JSON.parseElements fuel (w ++ s) = JSON.parseElements fuel s.
Proof.
  intros Hw. destruct fuel; [reflexivity|].
  cbn [JSON.parseElements]. now rewrite parseValue_skip.
Qed.

Lemma parseMembers_skip (fuel : nat) (w s : string) :
  blank w = true ->
  JSON.parseMembers fuel (w ++ s) = JSON.parseMembers fuel s.
Proof.
  intros Hw. destruct fuel; [reflexivity|].
  cbn [JSON.parseMembers]. now rewrite skipWs_blank.
Qed.

Lemma parseValue_string (fuel : nat) (s : string) :
  JSON.parseValue (S fuel) (String JSON.dquote s)
  = match JSON.parseChars s with
    | Some (str, rest) => Some (JStr str, rest)
    | None => None
    end.
Proof. reflexivity. Qed.

Lemma parseValue_array (fuel : nat) (s : string) :
  JSON.parseValue (S fuel) (String "[" s)
  = if JSON.startsWith "]" (JSON.skipWs s)
    then JSON.literal "]" (JArr []) (JSON.skipWs s)
    else match JSON.parseElements fuel s with
         | Some (vs, rest) => Some (JArr vs, rest)
         | None => None
         end.
Proof. reflexivity. Qed.

Lemma parseValue_object (fuel : nat) (s : string) :
  JSON.parseValue (S fuel) (String "{" s)
  = if JSON.startsWith "}" (JSON.skipWs s)
    then JSON.literal "}" (JObj []) (JSON.skipWs s)
    else match JSON.parseMembers fuel s with
         | Some (kvs, rest) => Some (JObj kvs, rest)
         | None => None
         end.
Proof. reflexivity. Qed.

Lemma parseValue_number (fuel : nat) (z : Z) (rest : string) :
  JSON.numberGoesOn rest = false ->
  JSON.parseValue (S fuel) (JS.Number_toString z ++ rest)
  = Some (JNum z, rest).
Proof.
  intros Hrest. cbn [JSON.parseValue].
  rewrite valueHead_skipWs by apply valueHead_toString.
  now rewrite parseNumber_toString.
Qed.

(** ** Shapes of the serialised texts *)

Lemma serialize_array (gap indent : string) (e : json) (es : list json)
    (rest : string) :
  JSON.serialize gap indent (JArr (e :: es)) ++ rest
  = String "["
      (JSON.lineBreak gap (indent ++ gap)
         ++ (JS.join (String "," (JSON.lineBreak gap (indent ++ gap)))
               (map (JSON.serialize gap (indent ++ gap)) (e :: es))
               ++ JSON.lineBreak gap indent ++ String "]" rest)).
Proof.
  cbn [JSON.serialize]. cbn [append]. now rewrite !append_assoc.
Qed.

Lemma serialize_object (gap indent : string) (kv : string * json)
    (kvs : list (string * json)) (rest : string) :
  JSON.serialize gap indent (JObj (kv :: kvs)) ++ rest
  = String "{"
      (JSON.lineBreak gap (indent ++ gap)
         ++ (JS.join (String "," (JSON.lineBreak gap (indent ++ gap)))
               (map (member gap (indent ++ gap)) (kv :: kvs))
               ++ JSON.lineBreak gap indent ++ String "}" rest)).
Proof.
  cbn [JSON.serialize]. cbn [append]. now rewrite !append_assoc.
Qed.

Lemma member_append (gap indent : string) (kv : string * json) (rest : string) :
  member gap indent kv ++ rest
  = String JSON.dquote
      (JSON.quoteBody (fst kv)
         ++ String JSON.dquote
              (JSON.colon gap ++ JSON.serialize gap indent (snd kv) ++ rest)).
Proof.
  unfold member. now rewrite !append_assoc, quote_append.
Qed.

Lemma stripPrefix_colon (gap s : string) :
  exists w,
    JSON.stripPrefix ":" (JSON.skipWs (JSON.colon gap ++ s)) = Some (w ++ s)
    /\ blank w = true.
Proof.
  destruct gap; [exists EmptyString | exists " "]; split; reflexivity.
Qed.

(** A run of elements, or of members, continued by its separator. *)
Lemma join_cons_append (sep x : string) (y : string) (ys : list string)
    (rest : string) :
  JS.join sep (x :: y :: ys) ++ rest = x ++ sep ++ JS.join sep (y :: ys) ++ rest.
Proof. rewrite join_cons. now rewrite !append_assoc. Qed.

Lemma join_single_append (sep x rest : string) :
  JS.join sep [x] ++ rest = x ++ rest.
Proof. reflexivity. Qed.

(** ** The parser inverts the serialiser *)

Lemma parse_serialize_fuel (fuel : nat) :
  (forall v gap indent rest,
      blank gap = true -> blank indent = true ->
      JSON.numberGoesOn rest = false ->
      (need v <= fuel)%nat ->
      JSON.parseValue fuel (JSON.serialize gap indent v ++ rest)
      = Some (v, rest))
  /\ (forall es gap indent stepback rest,
         es <> [] ->
         blank gap = true -> blank indent = true -> blank stepback = true ->
         (needElements es <= fuel)%nat ->
         JSON.parseElements fuel
           (JS.join (String "," (JSON.lineBreak gap indent))
              (map (JSON.serialize gap indent) es)
              ++ JSON.lineBreak gap stepback ++ String "]" rest)
         = Some (es, rest))
  /\ (forall kvs gap indent stepback rest,
         kvs <> [] ->
         blank gap = true -> blank indent = true -> blank stepback = true ->
         (needMembers kvs <= fuel)%nat ->
         JSON.parseMembers fuel
           (JS.join (String "," (JSON.lineBreak gap indent))
              (map (member gap indent) kvs)
              ++ JSON.lineBreak gap stepback ++ String "}" rest)
         = Some (kvs, rest)).
Proof.
  induction fuel as [|fuel (IHv & IHe & IHm)].
  { repeat split.
    - intros v ? ? ? _ _ _ H. destruct v; cbn in H; lia.
    - intros [|e es] ? ? ? ? Hne _ _ _ H; [contradiction | cbn in H; lia].
    - intros [|kv kvs] ? ? ? ? Hne _ _ _ H; [contradiction | cbn in H; lia]. }
  repeat split.
  - (* a value *)
    intros v gap indent rest Hgap Hind Hrest Hfuel.
    assert (Hind' : blank (indent ++ gap) = true)
      by now apply blank_append.
    destruct v as [|[]|z|s|[|e es]|[|kv kvs]]; try reflexivity.
    + now apply parseValue_number.
    + cbn [JSON.serialize]. rewrite quote_append, parseValue_string.
      now rewrite parseChars_quoteBody.
    + rewrite serialize_array, parseValue_array.
      rewrite skipWs_blank by now apply blank_lineBreak.
      set (body := (JS.join _ _ ++ _)%string).
      assert (Hhead : valueHead body = true).
      { subst body. cbn [map]. rewrite join_cons, append_assoc.
        apply valueHead_serialize. }
      rewrite (valueHead_skipWs _ Hhead).
      destruct (valueHead_open _ Hhead) as [-> _].
      rewrite parseElements_skip by now apply blank_lineBreak.
      subst body. rewrite IHe; auto; try discriminate.
      change (need (JArr (e :: es))) with (S (needElements (e :: es)))
        in Hfuel.
      lia.
    + rewrite serialize_object, parseValue_object.
      rewrite skipWs_blank by now apply blank_lineBreak.
      set (body := (JS.join _ _ ++ _)%string).
      assert (Hhead : valueHead body = true).
      { subst body. cbn [map]. rewrite join_cons, append_assoc.
        rewrite member_append. reflexivity. }
      rewrite (valueHead_skipWs _ Hhead).
      destruct (valueHead_open _ Hhead) as [_ ->].
      rewrite parseMembers_skip by now apply blank_lineBreak.
      subst body. rewrite IHm; auto; try discriminate.
      change (need (JObj (kv :: kvs))) with (S (needMembers (kv :: kvs)))
        in Hfuel.
      lia.
  - (* the elements of an array *)
    intros [|e es] gap indent stepback rest Hne Hgap Hind Hstep Hfuel;
      [contradiction|].
    change (needElements (e :: es))
      with (S (Nat.max (need e) (needElements es))) in Hfuel.
    cbn [JSON.parseElements map].
    destruct es as [|e' es].
    + rewrite join_single_append.
      rewrite IHv; auto; [| now apply numberGoesOn_close | lia].
      rewrite skipWs_blank by now apply blank_lineBreak.
      reflexivity.
    + cbn [map]. rewrite join_cons_append. cbn [append].
      rewrite IHv; auto; [| lia].
      rewrite skipWs_stop by reflexivity.
      change (("," =? ",")%char) with true. cbv iota.
      rewrite parseElements_skip by now apply blank_lineBreak.
      change (JSON.serialize gap indent e' :: map (JSON.serialize gap indent) es)
        with (map (JSON.serialize gap indent) (e' :: es)).
      rewrite IHe; auto; [discriminate | lia].
  - (* the members of an object *)
    intros [|kv kvs] gap indent stepback rest Hne Hgap Hind Hstep Hfuel;
      [contradiction|].
    change (needMembers (kv :: kvs))
      with (S (Nat.max (need (snd kv)) (needMembers kvs))) in Hfuel.
    cbn [JSON.parseMembers map].
    destruct kvs as [|kv' kvs].
    + rewrite join_single_append, member_append.
      rewrite skipWs_stop by reflexivity.
      change ((JSON.dquote =? JSON.dquote)%char) with true. cbv iota.
      rewrite parseChars_quoteBody.
      destruct (stripPrefix_colon gap
                  (JSON.serialize gap indent (snd kv)
                     ++ JSON.lineBreak gap stepback ++ String "}" rest))
        as (w & -> & Hw).
      rewrite parseValue_skip by exact Hw.
      rewrite IHv; auto; [| now apply numberGoesOn_close | lia].
      rewrite skipWs_blank by now apply blank_lineBreak.
      destruct kv; reflexivity.
    + cbn [map]. rewrite join_cons_append, member_append.
      rewrite skipWs_stop by reflexivity.
      change ((JSON.dquote =? JSON.dquote)%char) with true. cbv iota.
      rewrite parseChars_quoteBody. cbn [append].
      destruct (stripPrefix_colon gap
                  (JSON.serialize gap indent (snd kv)
                     ++ String ","
                          (JSON.lineBreak gap indent
                             ++ JS.join (String "," (JSON.lineBreak gap indent))
                                  (member gap indent kv'
                                     :: map (member gap indent) kvs)
                             ++ JSON.lineBreak gap stepback
                             ++ String "}" rest)))
        as (w & -> & Hw).
      rewrite parseValue_skip by exact Hw.
      rewrite IHv; auto; [| lia].
      rewrite skipWs_stop by reflexivity.
      change (("," =? ",")%char) with true. cbv iota.
      rewrite parseMembers_skip by now apply blank_lineBreak.
      change (member gap indent kv' :: map (member gap indent) kvs)
        with (map (member gap indent) (kv' :: kvs)).
      rewrite IHm; auto; [destruct kv; reflexivity | discriminate | lia].
Qed.

(** ** The text is long enough to serve as fuel *)

Lemma need_In (e : json) (es : list json) :
  In e es -> (need e < needElements es)%nat.
Proof.
  induction es as [|x es IH]; [contradiction|].
  change (needElements (x :: es))
    with (S (Nat.max (need x) (needElements es))).
  intros [->|Hin]; [lia | specialize (IH Hin); lia].
Qed.

Lemma need_In_member (kv : string * json) (kvs : list (string * json)) :
  In kv kvs -> (need (snd kv) < needMembers kvs)%nat.
Proof.
  induction kvs as [|x kvs IH]; [contradiction|].
  change (needMembers (x :: kvs))
    with (S (Nat.max (need (snd x)) (needMembers kvs))).
  intros [->|Hin]; [lia | specialize (IH Hin); lia].
Qed.

Section JoinLength.

Context {A : Type}.
Variable cost : A -> nat.
Variable text : A -> string.
Variable sep : string.
Hypothesis sep_nonempty : (1 <= String.length sep)%nat.

Lemma join_length (l : list A) :
  l <> [] ->
  Forall (fun a => (cost a <= String.length (text a))%nat) l ->
  (fold_right (fun a n => S (Nat.max (cost a) n)) O l
   <= String.length (JS.join sep (map text l)) + 1)%nat.
Proof.
  intros Hne Hall. induction Hall as [|a l Ha Hall IH]; [contradiction|].
  destruct l as [|b l].
  - cbn. lia.
  - cbn [map]. rewrite join_cons, !length_append.
    cbn [fold_right] in IH |- *.
    assert (Hb : b :: l <> []) by discriminate.
    specialize (IH Hb). cbn [map] in IH. lia.
Qed.

End JoinLength.

Lemma need_le_length (n : nat) :
  forall (v : json) (gap indent : string),
    (need v <= n)%nat ->
    (need v <= String.length (JSON.serialize gap indent v))%nat.
Proof.
  induction n as [|n IH]; intros v gap indent Hn.
  { destruct v; cbn in Hn; lia. }
  destruct v as [|[]|z|s|[|e es]|[|kv kvs]]; try (cbn; lia).
  - cbn [need JSON.serialize]. apply length_toString.
  - change (need (JArr (e :: es))) with (S (needElements (e :: es))) in *.
    rewrite <- (append_nil_r (JSON.serialize _ _ _)), serialize_array.
    cbn [String.length]. rewrite !length_append. cbn [String.length].
    assert (Hsep : (1 <= String.length
                          (String "," (JSON.lineBreak gap (indent ++ gap))))%nat)
      by (cbn; lia).
    pose proof (join_length need (JSON.serialize gap (indent ++ gap)) _ Hsep
                  (e :: es)) as Hj.
    change (fold_right _ _ (e :: es)) with (needElements (e :: es)) in Hj.
    assert (needElements (e :: es)
            <= String.length
                 (JS.join (String "," (JSON.lineBreak gap (indent ++ gap)))
                    (map (JSON.serialize gap (indent ++ gap)) (e :: es))) + 1)%nat.
    { apply Hj; [discriminate|]. apply Forall_forall. intros x Hx.
      apply IH. pose proof (need_In x _ Hx). lia. }
    lia.
  - change (need (JObj (kv :: kvs))) with (S (needMembers (kv :: kvs))) in *.
    rewrite <- (append_nil_r (JSON.serialize _ _ _)), serialize_object.
    cbn [String.length]. rewrite !length_append. cbn [String.length].
    assert (Hsep : (1 <= String.length
                          (String "," (JSON.lineBreak gap (indent ++ gap))))%nat)
      by (cbn; lia).
    pose proof (join_length (fun x => need (snd x)) (member gap (indent ++ gap))
                  _ Hsep (kv :: kvs)) as Hj.
    change (fold_right _ _ (kv :: kvs)) with (needMembers (kv :: kvs)) in Hj.
    assert (needMembers (kv :: kvs)
            <= String.length
                 (JS.join (String "," (JSON.lineBreak gap (indent ++ gap)))
                    (map (member gap (indent ++ gap)) (kv :: kvs))) + 1)%nat.
    { apply Hj; [discriminate|]. apply Forall_forall. intros x Hx.
      unfold member. rewrite !length_append.
      assert (need (snd x)
              <= String.length (JSON.serialize gap (indent ++ gap) (snd x)))%nat
        by (apply IH; pose proof (need_In_member x _ Hx); lia).
      lia. }
    lia.
Qed.

(** [JSON.parse] undoes [JSON.stringify], whatever the [space]. *)
Lemma parse_stringify (v : json) (space : Z) :
  JSON.parse (JSON.stringify v space) = Some v.
Proof.
  unfold JSON.parse, JSON.stringify.
  set (text := JSON.serialize (JSON.gapOf space) EmptyString v).
  destruct (parse_serialize_fuel (S (String.length text))) as [Hv _].
  rewrite <- (append_nil_r text) at 2. subst text.
  rewrite Hv; auto using blank_gapOf.
  pose proof (need_le_length (need v) v (JSON.gapOf space) EmptyString).
  lia.
Qed.

(* ================================================================= *)
(** * The ISO text of an instant reads back to the instant *)

Lemma civil_inverse (days : Z) :
  let '(year, month, dom) := civilFromDays days in
  daysFromCivil year month dom = days /\ 0 <= month /\ 0 <= dom.
Proof.
  unfold daysFromCivil, civilFromDays. cbv zeta.
  set (z := days + 719468).
  set (era := z / 146097).
  set (doe := z - era * 146097).
  assert (Hdoe : 0 <= doe < 146097)
    by (subst doe era; Z.to_euclidean_division_equations; lia).
  assert (Hz : days = era * 146097 + doe - 719468) by (subst doe z; lia).
  clearbody doe era. clear z.
  set (yoe := (doe - doe / 1460 + doe / 36524 - doe / 146096) / 365).
  assert (Hy : 0 <= yoe <= 399)
    by (subst yoe; Z.to_euclidean_division_equations; lia).
  set (doy := doe - (365 * yoe + yoe / 4 - yoe / 100)).
  assert (Hdoy : 0 <= doy <= 365)
    by (subst doy yoe; Z.to_euclidean_division_equations; lia).
  set (mp := (5 * doy + 2) / 153).
  assert (Hmp : 0 <= mp <= 11)
    by (subst mp; Z.to_euclidean_division_equations; lia).
  assert (Hdom : 0 <= doy - (153 * mp + 2) / 5 + 1)
    by (subst mp; Z.to_euclidean_division_equations; lia).
  split_tests; try lia.
  all: try (replace ((yoe + era * 400 + 1 - 1) / 400) with era
              by (Z.to_euclidean_division_equations; lia)).
  all: try (replace ((yoe + era * 400) / 400) with era
              by (Z.to_euclidean_division_equations; lia)).
  all: try (replace (yoe + era * 400 + 1 - 1 - era * 400) with yoe by lia).
  all: try (replace (yoe + era * 400 - era * 400) with yoe by lia).
  all: try (replace (mp + 3 - 3) with mp by lia).
  all: try (replace (mp - 9 + 9) with mp by lia).
  all: repeat split; try lia; subst doy; lia.
Qed.

Lemma readField_zero (s : string) : readField (String "0" s) = readField s.
Proof.
  unfold readField. cbn [JSON.readDigits JSON.digitOf].
  now destruct (JSON.readDigits s).
Qed.

Lemma readField_zeros (k : nat) (s : string) :
  readField (zeros k ++ s) = readField s.
Proof.
  induction k as [|k IH]; [reflexivity|].
  cbn [zeros append]. now rewrite readField_zero.
Qed.

Lemma readField_toString (n : Z) (rest : string) :
  0 <= n -> noDigitAhead rest ->
  readField (JS.Number_toString n ++ rest) = (n, rest).
Proof.
  intros Hn Hrest. unfold JS.Number_toString.
  destruct n as [|p|p]; [| |lia]; cbn [Z.to_int NilZero.string_of_int].
  - change (NilZero.string_of_uint (Decimal.D0 Decimal.Nil) ++ rest)
      with (NilEmpty.string_of_uint (Decimal.D0 Decimal.Nil) ++ rest).
    unfold readField. now rewrite readDigits_digits_stop.
  - rewrite string_of_uint_pos. unfold readField.
    rewrite readDigits_digits_stop by exact Hrest.
    now rewrite of_uint_to_uint.
Qed.

Lemma readFieldThen_pad (c : ascii) (width : nat) (n : Z) (rest : string) :
  0 <= n -> JSON.digitOf c = None ->
  readFieldThen c (pad width n ++ String c rest) = Some (n, rest).
Proof.
  intros Hn Hc. unfold readFieldThen, pad.
  rewrite append_assoc, readField_zeros, readField_toString; auto.
  now rewrite Ascii.eqb_refl.
Qed.

(** A padded number starts with a digit, not with a sign. *)
Lemma pad_head (width : nat) (n : Z) (rest : string) :
  0 <= n ->
  exists c tail,
    pad width n ++ rest = String c tail
    /\ (c =? "-")%char = false /\ (c =? "+")%char = false.
Proof.
  intros Hn. unfold pad.
  destruct (width - String.length (JS.Number_toString n))%nat as [|k].
  - cbn [zeros append]. unfold JS.Number_toString.
    destruct n as [|p|p]; [| |lia]; cbn [Z.to_int NilZero.string_of_int].
    + now exists "0"%char, rest.
    + rewrite string_of_uint_pos.
      destruct (digits_head p rest) as (c & tail & E & Hm & Hp & _).
      now exists c, tail.
  - cbn [zeros append]. now eexists _, _.
Qed.

(** The fields after the sign of the year. *)
Lemma readFields_text (sign : Z) (width : nat)
    (year month dom hours minutes seconds millis : Z) :
  0 <= year -> 0 <= month -> 0 <= dom -> 0 <= hours -> 0 <= minutes ->
  0 <= seconds -> 0 <= millis ->
  readFields sign
    (pad width year ++ "-" ++ pad 2 month ++ "-" ++ pad 2 dom
       ++ "T" ++ pad 2 hours ++ ":" ++ pad 2 minutes
       ++ ":" ++ pad 2 seconds ++ "." ++ pad 3 millis ++ "Z")
  = Some (mkDate
            (daysFromCivil (sign * year) month dom * 86400000
             + ((hours * 60 + minutes) * 60 + seconds) * 1000 + millis)).
Proof.
  intros. unfold readFields. cbn [append].
  repeat (rewrite readFieldThen_pad by (auto; reflexivity)).
  reflexivity.
Qed.

Lemma readISO_toISOString (d : Date) : readISO (toISOString d) = Some d.
Proof.
  destruct d as [t]. unfold toISOString. cbn [getTime]. cbv zeta.
  set (day := t / 86400000). set (ms := t mod 86400000).
  assert (Hms : 0 <= ms < 86400000) by (subst ms; apply Z.mod_pos_bound; lia).
  assert (Ht : t = day * 86400000 + ms)
    by (subst day ms; Z.to_euclidean_division_equations; lia).
  pose proof (civil_inverse day) as Hc.
  destruct (civilFromDays day) as [[year month] dom].
  destruct Hc as (Hday & Hmonth & Hdom).
  assert (Hh : 0 <= ms / 3600000) by (Z.to_euclidean_division_equations; lia).
  assert (Hm : 0 <= (ms / 60000) mod 60)
    by (Z.to_euclidean_division_equations; lia).
  assert (Hs : 0 <= (ms / 1000) mod 60)
    by (Z.to_euclidean_division_equations; lia).
  assert (Hl : 0 <= ms mod 1000) by (Z.to_euclidean_division_equations; lia).
  assert (Hsum : ((ms / 3600000 * 60 + (ms / 60000) mod 60) * 60
                  + (ms / 1000) mod 60) * 1000 + ms mod 1000 = ms)
    by (Z.to_euclidean_division_equations; lia).
  destruct ((0 <=? year) && (year <=? 9999)) eqn:Hrange.
  - apply andb_true_iff in Hrange as [Hlo _]. apply Z.leb_le in Hlo.
    match goal with
    | |- readISO (pad 4 year ++ ?rest) = _ =>
        destruct (pad_head 4 year rest Hlo) as (c & tail & E & Hc1 & Hc2)
    end.
    unfold readISO. rewrite E, Hc1, Hc2, <- E.
    rewrite readFields_text by assumption.
    rewrite Z.mul_1_l, Hday. do 2 f_equal. lia.
  - destruct (Z.ltb_spec year 0) as [Hneg|Hpos].
    + rewrite append_assoc.
      match goal with
      | |- readISO ("-" ++ ?body) = ?r =>
          change (readFields (-1) body = r)
      end.
      rewrite readFields_text by (try assumption; lia).
      replace (-1 * - year) with year by lia.
      rewrite Hday. do 2 f_equal. lia.
    + rewrite append_assoc.
      match goal with
      | |- readISO ("+" ++ ?body) = ?r =>
          change (readFields 1 body = r)
      end.
      rewrite readFields_text by (try assumption; lia).
      rewrite Z.mul_1_l, Hday. do 2 f_equal. lia.
Qed.

Lemma toISOString_inj (d1 d2 : Date) :
  toISOString d1 = toISOString d2 -> d1 = d2.
Proof.
  intros H. apply (f_equal readISO) in H.
  rewrite !readISO_toISOString in H. now injection H.
Qed.

(* ================================================================= *)
(** * The exporter's stated properties *)

Lemma exportSessionToJson_eq (sessionId : string) (session : Session.t)
    (messages : list Message.t) (topology : TopologyPattern.t) (w : World) :
  exportSessionToJson sessionId session messages topology w
  = JSON.stringify
      (sessionData sessionId session messages topology
         (toISOString (clock w))) 2.
Proof. reflexivity. Qed.

Lemma parse_export (sessionId : string) (session : Session.t)
    (messages : list Message.t) (topology : TopologyPattern.t) (w : World) :
  JSON.parse (exportSessionToJson sessionId session messages topology w)
  = Some (sessionData sessionId session messages topology
            (toISOString (clock w))).
Proof. rewrite exportSessionToJson_eq. apply parse_stringify. Qed.

Lemma sessionData_other_fields (sessionId : string) (session : Session.t)
    (messages : list Message.t) (topology : TopologyPattern.t)
    (t1 t2 key : string) :
  key <> "timestamp" ->
  JSON.get key (sessionData sessionId session messages topology t1)
  = JSON.get key (sessionData sessionId session messages topology t2).
Proof.
  intros Hkey. unfold sessionData. cbn [JSON.get JSON.lookup].
  destruct (String.eqb_spec "timestamp" key) as [E|_];
    [now elim Hkey | reflexivity].
Qed.

(** C3, amended.  The classifier (signal extractor, metric resolver and
    pattern renderer) does not depend on the world it runs in.  The
    exporter reads the clock: two invocations on the same session
    identifier, session, messages and topology return the same document
    exactly when the clock reads the same instant in both, and the two
    documents always parse, and differ at most in the top-level
    [timestamp] property. *)
Theorem purity_up_to_the_clock (sessionId : string) (session : Session.t)
    (messages : list Message.t) (topology : TopologyPattern.t) :
  pure_eff (classify messages)
  /\ (forall w1 w2,
         exportSessionToJson sessionId session messages topology w1
         = exportSessionToJson sessionId session messages topology w2
         <-> clock w1 = clock w2)
  /\ (forall w1 w2,
         exists d1 d2,
           JSON.parse
             (exportSessionToJson sessionId session messages topology w1)
           = Some d1
           /\ JSON.parse
                (exportSessionToJson sessionId session messages topology w2)
              = Some d2
           /\ forall key, key <> "timestamp" ->
                          JSON.get key d1 = JSON.get key d2).
Proof.
  split; [|split].
  - intros w1 w2. reflexivity.
  - intros w1 w2. split; intros H.
    + apply (f_equal JSON.parse) in H. rewrite !parse_export in H.
      injection H as H. now apply toISOString_inj.
    + rewrite !exportSessionToJson_eq. now rewrite H.
  - intros w1 w2. eexists _, _.
    split; [apply parse_export | split; [apply parse_export|]].
    intros key Hkey. now apply sessionData_other_fields.
Qed.

(** C3 as stated fails for the exporter: the same arguments exported at
    two clock readings one millisecond apart give two documents. *)
Lemma export_not_pure :
  ~ (forall sessionId session messages topology,
        pure_eff (exportSessionToJson sessionId session messages topology)).
Proof.
  intros H.
  specialize
    (H "s1"
       (Session.mk "s1" "Chat" "s1={[()]}" 1 1 0 "true" (mkDate 0) (mkDate 0))
       [] createEmptyTopology
       (mkWorld (mkDate 0)) (mkWorld (mkDate 1))).
  apply (f_equal JSON.parse) in H. rewrite !parse_export in H.
  apply (f_equal (fun d => match d with
                           | Some v => JSON.get "timestamp" v
                           | None => None
                           end)) in H.
  vm_compute in H. discriminate H.
Qed.

(** C9.  The exported document parses back, and the parsed document
    holds, for each message in order, the message's id, role, content
    and creation time under [id], [role], [content] and [timestamp]: the
    creation time as the ISO text JSON gives a date, which reads back to
    the same instant.  Its [topology.pattern] is the pattern of the
    given topology; its metadata has participant count 2 and the number
    of messages as [total_messages]. *)
Theorem export_roundtrip (sessionId : string) (session : Session.t)
    (messages : list Message.t) (topology : TopologyPattern.t) (w : World) :
  exists doc items topo meta,
    JSON.parse (exportSessionToJson sessionId session messages topology w)
    = Some doc
    /\ JSON.get "messages" doc = Some (JArr items)
    /\ map (fun item =>
              (JSON.get "id" item, JSON.get "role" item,
               JSON.get "content" item, JSON.get "timestamp" item)) items
       = map (fun msg =>
                (Some (JStr (Message.id msg)),
                 Some (JStr (Role_str (Message.role msg))),
                 Some (JStr (Message.content msg)),
                 Some (JStr (toISOString (Message.createdAt msg)))))
           messages
    /\ map (fun item => instantOf (JSON.get "timestamp" item)) items
       = map (fun msg => Some (Message.createdAt msg)) messages
    /\ JSON.get "topology" doc = Some topo
    /\ JSON.get "pattern" topo = Some (JStr (TopologyPattern.pattern topology))
    /\ JSON.get "metadata" doc = Some meta
    /\ JSON.get "participant_count" meta = Some (JNum 2)
    /\ JSON.get "total_messages" meta
       = Some (JNum (Z.of_nat (List.length messages))).
Proof.
  eexists _, _, _, _.
  split; [apply parse_export|].
  split; [reflexivity|].
  split; [rewrite map_map; apply map_ext; intros msg; reflexivity|].
  split; [| repeat split; reflexivity].
  rewrite map_map. apply map_ext. intros msg.
  cbn [messageData JSON.get JSON.lookup String.eqb Ascii.eqb Bool.eqb instantOf].
  apply readISO_toISOString.
Qed.

(* ================================================================= *)
(** * Further properties of the classifier *)

Lemma assemble_metrics (a : ThreadAnalysis.t) :
  assemble
    (Spec.render (ThreadAnalysis.order a) (ThreadAnalysis.threads a)
       (ThreadAnalysis.nestingDepth a)) a
  = topologyOf (ThreadAnalysis.order a) (ThreadAnalysis.threads a)
      (ThreadAnalysis.nestingDepth a).
Proof. destruct a. reflexivity. Qed.

(** The metrics of the classification as functions of the two counters
    that matter. *)
Lemma calculateTopology_counts (messages : list Message.t) :
  messages <> [] ->
  calculateTopology messages
  = Some (let a := resolveMetrics (Z.of_nat (List.length messages))
                     (count branchingSignal messages) 0 in
          topologyOf (ThreadAnalysis.order a) (ThreadAnalysis.threads a)
            (ThreadAnalysis.nestingDepth a)).
Proof.
  intros Hne. rewrite calculateTopology_nonempty by exact Hne.
  rewrite assemble_metrics, analyzeThreads_eq. reflexivity.
Qed.

Lemma calculateTopology_same_counts (l l' : list Message.t) :
  List.length l = List.length l' ->
  count branchingSignal l = count branchingSignal l' ->
  calculateTopology l = calculateTopology l'.
Proof.
  intros Hlen Hcount.
  destruct l as [|m l], l' as [|m' l']; try discriminate Hlen;
    [reflexivity|].
  rewrite !calculateTopology_counts by discriminate.
  now rewrite Hlen, Hcount.
Qed.

Lemma count_app (f : Message.t -> bool) (l l' : list Message.t) :
  count f (l ++ l') = count f l + count f l'.
Proof. unfold count. rewrite filter_app, length_app. lia. Qed.

Lemma count_nonneg (f : Message.t -> bool) (l : list Message.t) :
  0 <= count f l <= Z.of_nat (List.length l).
Proof. unfold count. pose proof (filter_length_le f l). lia. Qed.

Lemma count_perm (f : Message.t -> bool) (l l' : list Message.t) :
  Permutation l l' -> count f l = count f l'.
Proof.
  unfold count. intros H. f_equal.
  induction H as [|x l l' _ IH|x y l|l l' l'' _ IH1 _ IH2]; cbn.
  - reflexivity.
  - destruct (f x); cbn; now rewrite IH.
  - destruct (f x), (f y); reflexivity.
  - now rewrite IH1.
Qed.

Lemma resolveMetrics_mono (mc mc' bp bp' ca ca' : Z) :
  mc <= mc' -> bp <= bp' ->
  ThreadAnalysis.order (resolveMetrics mc bp ca)
  <= ThreadAnalysis.order (resolveMetrics mc' bp' ca')
  /\ ThreadAnalysis.threads (resolveMetrics mc bp ca)
     <= ThreadAnalysis.threads (resolveMetrics mc' bp' ca')
  /\ ThreadAnalysis.nestingDepth (resolveMetrics mc bp ca)
     <= ThreadAnalysis.nestingDepth (resolveMetrics mc' bp' ca').
Proof.
  intros Hm Hb.
  pose proof (resolveMetrics_order_mono mc mc' bp bp' ca ca' Hm Hb) as Ho.
  rewrite !resolveMetrics_threads, !resolveMetrics_nestingDepth.
  split; [exact Ho|].
  assert ((bp + 1) / 2 <= (bp' + 1) / 2)
    by (apply Z.div_le_mono; lia).
  assert (bp / 2 <= bp' / 2) by (apply Z.div_le_mono; lia).
  lia.
Qed.

(** Nesting depth and thread count stay within one of each other. *)
Lemma resolveMetrics_threads_vs_depth (mc bp ca : Z) :
  ThreadAnalysis.nestingDepth (resolveMetrics mc bp ca)
  <= ThreadAnalysis.threads (resolveMetrics mc bp ca)
  <= ThreadAnalysis.nestingDepth (resolveMetrics mc bp ca) + 1.
Proof.
  rewrite resolveMetrics_threads, resolveMetrics_nestingDepth,
    resolveMetrics_order.
  split_tests; Z.to_euclidean_division_equations; lia.
Qed.

(** X1.  Whatever the messages are, two lists of the same length with
    the same number of branching messages are classified alike: roles,
    identifiers, dates, the closure wording and the impact tags have no
    influence on the result. *)
Theorem classification_depends_on_two_counts (l l' : list Message.t) :
  List.length l = List.length l' ->
  count branchingSignal l = count branchingSignal l' ->
  calculateTopology l = calculateTopology l'.
Proof. apply calculateTopology_same_counts. Qed.

Lemma classification_depends_on_two_counts_witness :
  calculateTopology [say user "Why?"; say assistant "In conclusion, so."]
  = calculateTopology
      [say assistant "Fine."; say user "How come"].
Proof.
  apply (classification_depends_on_two_counts
           [say user "Why?"; say assistant "In conclusion, so."]
           [say assistant "Fine."; say user "How come"]);
    reflexivity.
Defined.

(** X2.  The classification does not depend on the order in which the
    messages are stored. *)
Theorem classification_of_permutation (l l' : list Message.t) :
  Permutation l l' -> calculateTopology l = calculateTopology l'.
Proof.
  intros H. apply calculateTopology_same_counts.
  - now apply Permutation_length.
  - now apply count_perm.
Qed.

Lemma classification_of_permutation_witness :
  calculateTopology [say user "Why?"; say assistant "Because."]
  = calculateTopology [say assistant "Because."; say user "Why?"].
Proof.
  apply (classification_of_permutation
           [say user "Why?"; say assistant "Because."]
           [say assistant "Because."; say user "Why?"]).
  apply perm_swap.
Defined.

(** X3.  As a conversation grows, its order, thread count and nesting
    depth never decrease. *)
Theorem metrics_grow_with_conversation (l more : list Message.t) :
  exists t t',
    calculateTopology l = Some t
    /\ calculateTopology (l ++ more) = Some t'
    /\ TopologyPattern.order t <= TopologyPattern.order t'
    /\ TopologyPattern.threads t <= TopologyPattern.threads t'
    /\ TopologyPattern.nestingDepth t <= TopologyPattern.nestingDepth t'.
Proof.
  destruct l as [|m l].
  - destruct more as [|m more].
    + exists createEmptyTopology, createEmptyTopology. cbn. repeat split; lia.
    + eexists _, _. split; [reflexivity|].
      split; [apply calculateTopology_nonempty; discriminate|].
      cbn [app assemble createEmptyTopology TopologyPattern.order
             TopologyPattern.threads TopologyPattern.nestingDepth].
      rewrite analyzeThreads_eq.
      pose proof (resolveMetrics_order_range
                    (Z.of_nat (List.length (m :: more)))
                    (count branchingSignal (m :: more))
                    (count closureSignal (m :: more))).
      pose proof (resolveMetrics_threads_range
                    (Z.of_nat (List.length (m :: more)))
                    (count branchingSignal (m :: more))
                    (count closureSignal (m :: more))).
      pose proof (resolveMetrics_nestingDepth_range
                    (Z.of_nat (List.length (m :: more)))
                    (count branchingSignal (m :: more))
                    (count closureSignal (m :: more))).
      lia.
  - eexists _, _.
    split; [apply calculateTopology_nonempty; discriminate|].
    split; [apply calculateTopology_nonempty; discriminate|].
    cbn [assemble TopologyPattern.order TopologyPattern.threads
           TopologyPattern.nestingDepth].
    rewrite !analyzeThreads_eq.
    apply resolveMetrics_mono.
    + rewrite length_app. lia.
    + rewrite count_app. pose proof (count_nonneg branchingSignal more). lia.
Qed.

(** X4.  In every classification the thread count is the nesting depth
    or one more. *)
Theorem threads_within_one_of_depth (messages : list Message.t) :
  exists t,
    calculateTopology messages = Some t
    /\ TopologyPattern.nestingDepth t <= TopologyPattern.threads t
       <= TopologyPattern.nestingDepth t + 1.
Proof.
  destruct messages as [|m l].
  - exists createEmptyTopology. split; [reflexivity | cbn; lia].
  - eexists. split; [apply calculateTopology_nonempty; discriminate|].
    cbn [assemble TopologyPattern.threads TopologyPattern.nestingDepth].
    rewrite analyzeThreads_eq. apply resolveMetrics_threads_vs_depth.
Qed.

Lemma resolveMetrics_deep (mc bp ca : Z) :
  2 < ThreadAnalysis.nestingDepth (resolveMetrics mc bp ca) ->
  3 <= ThreadAnalysis.order (resolveMetrics mc bp ca)
  /\ 2 <= ThreadAnalysis.threads (resolveMetrics mc bp ca).
Proof.
  rewrite resolveMetrics_threads, resolveMetrics_nestingDepth,
    resolveMetrics_order.
  intros H. split_tests; Z.to_euclidean_division_equations; lia.
Qed.

(** X5.  The prime factors of a classification are consistent: [p3]
    never comes without [p2], [p5] only comes in the full list, and no
    tag is listed twice. *)
Theorem primeFactors_consistent (messages : list Message.t) :
  exists t,
    calculateTopology messages = Some t
    /\ (In "p3" (TopologyPattern.primeFactors t) ->
        In "p2" (TopologyPattern.primeFactors t))
    /\ (In "p5" (TopologyPattern.primeFactors t) ->
        TopologyPattern.primeFactors t = ["p1p1"; "p2"; "p3"; "p5"])
    /\ NoDup (TopologyPattern.primeFactors t).
Proof.
  destruct messages as [|m l].
  - exists createEmptyTopology. cbn. repeat split; try contradiction.
    constructor.
  - eexists. split; [apply calculateTopology_nonempty; discriminate|].
    cbn [assemble TopologyPattern.primeFactors].
    rewrite analyzeThreads_eq.
    pose proof (resolveMetrics_deep
                  (Z.of_nat (List.length (m :: l)))
                  (count branchingSignal (m :: l))
                  (count closureSignal (m :: l))) as Hdeep.
    set (a := resolveMetrics _ _ _) in *.
    rewrite calculatePrimeFactors_cases.
    destruct (Z.geb_spec (ThreadAnalysis.threads a) 2),
      (Z.geb_spec (ThreadAnalysis.order a) 2),
      (Z.geb_spec (ThreadAnalysis.order a) 3),
      (Z.gtb_spec (ThreadAnalysis.nestingDepth a) 2);
      cbn [app In];
      (split; [| split]);
      try (intros Hin; repeat (destruct Hin as [Hin|Hin];
                                [try discriminate Hin|]);
           try contradiction;
           try reflexivity; auto; lia);
      try (repeat constructor; cbn [In]; intros Hin;
           repeat (destruct Hin as [Hin|Hin]; [discriminate Hin|]);
           contradiction).
Qed.

(** X6.  Once eight messages carry a branching signal the classification
    is saturated: whatever else the conversation holds, the result is
    the order-4 topology with five threads and nesting depth 4. *)
Theorem saturation (messages : list Message.t) :
  8 <= count branchingSignal messages ->
  calculateTopology messages
  = Some {| TopologyPattern.pattern := "s4={[()()()()()],[((((()))))]}";
            TopologyPattern.order := 4;
            TopologyPattern.threads := 5;
            TopologyPattern.complexity := "multi_threaded_discourse";
            TopologyPattern.primeFactors := ["p1p1"; "p2"; "p3"; "p5"];
            TopologyPattern.structure :=
              {| Structure.procedural := ["()"; "()"; "()"; "()"; "()"];
                 Structure.perspectival := ["()"; "((()))"];
                 Structure.participatory := "s4" |};
            TopologyPattern.nestingDepth := 4 |}.
Proof.
  intros H.
  assert (Hne : messages <> []) by (intros ->; cbn in H; lia).
  rewrite calculateTopology_counts by exact Hne. cbv zeta.
  set (mc := Z.of_nat (List.length messages)).
  set (bp := count branchingSignal messages) in *.
  assert (Ho : ThreadAnalysis.order (resolveMetrics mc bp 0) = 4)
    by (rewrite resolveMetrics_order; split_tests; lia).
  assert (Ht : ThreadAnalysis.threads (resolveMetrics mc bp 0) = 5)
    by (rewrite resolveMetrics_threads, Ho;
        Z.to_euclidean_division_equations; lia).
  assert (Hn : ThreadAnalysis.nestingDepth (resolveMetrics mc bp 0) = 4)
    by (rewrite resolveMetrics_nestingDepth;
        Z.to_euclidean_division_equations; lia).
  rewrite Ho, Ht, Hn. reflexivity.
Qed.

Lemma saturation_witness :
  calculateTopology
    [say user "a?"; say user "b?"; say user "what"; say user "how";
     say user "e?"; say user "f?"; say user "g?"; say user "h?"]
  = Some {| TopologyPattern.pattern := "s4={[()()()()()],[((((()))))]}";
            TopologyPattern.order := 4;
            TopologyPattern.threads := 5;
            TopologyPattern.complexity := "multi_threaded_discourse";
            TopologyPattern.primeFactors := ["p1p1"; "p2"; "p3"; "p5"];
            TopologyPattern.structure :=
              {| Structure.procedural := ["()"; "()"; "()"; "()"; "()"];
                 Structure.perspectival := ["()"; "((()))"];
                 Structure.participatory := "s4" |};
            TopologyPattern.nestingDepth := 4 |}.
Proof.
  apply (saturation
           [say user "a?"; say user "b?"; say user "what"; say user "how";
            say user "e?"; say user "f?"; say user "g?"; say user "h?"]).
  vm_compute. discriminate.
Defined.

(** ** Shapes of the rendered strings *)

Lemma times_snoc (n : nat) (s : string) :
  Spec.times n s ++ s = s ++ Spec.times n s.
Proof.
  induction n as [|n IH]; cbn [Spec.times].
  - now rewrite append_nil_r.
  - now rewrite append_assoc, IH.
Qed.

Lemma wrap_parens (n : nat) : Spec.wrap (parens n) = parens (S n).
Proof.
  unfold Spec.wrap, parens. cbn [Spec.times].
  rewrite !append_assoc. do 2 f_equal.
  apply (times_snoc n ")").
Qed.

Lemma iter_wrap (k : nat) : Nat.iter k Spec.wrap "()" = parens (S k).
Proof.
  induction k as [|k IH]; [reflexivity|].
  now rewrite Nat.iter_succ, IH, wrap_parens.
Qed.

(** X7.  [generateNestedPattern] returns balanced parentheses nested to
    the requested depth: as many opening as closing ones, all the
    opening ones first; a depth below 1 is treated as 1. *)
Theorem generateNestedPattern_shape (depth : Z) :
  generateNestedPattern depth = parens (Z.to_nat (Z.max 1 depth)).
Proof.
  rewrite generateNestedPattern_spec. unfold Spec.nested.
  destruct (Z.leb_spec depth 1) as [Hle|Hgt].
  - replace (Z.max 1 depth) with 1 by lia. reflexivity.
  - rewrite iter_wrap. f_equal. lia.
Qed.

Lemma prefix_append (a b c : string) :
  String.prefix (a ++ b) (a ++ c) = String.prefix b c.
Proof.
  induction a as [|x a IH]; [reflexivity|].
  cbn. destruct (ascii_dec x x) as [_|Hx]; [exact IH | now elim Hx].
Qed.

Lemma render_prefix (order threads nestingDepth : Z) :
  String.prefix ("s" ++ JS.Number_toString order ++ "={")
    (Spec.render order threads nestingDepth) = true.
Proof.
  unfold Spec.render. destruct (Z.eqb_spec order 1) as [->|_];
    [reflexivity|].
  rewrite !prefix_append. reflexivity.
Qed.

Lemma generateNestedPattern_parens (depth : Z) :
  1 <= depth -> generateNestedPattern depth = parens (Z.to_nat depth).
Proof.
  intros Hdepth. rewrite generateNestedPattern_spec. unfold Spec.nested.
  destruct (Z.leb_spec depth 1) as [Hle|Hgt].
  - replace depth with 1 by lia. reflexivity.
  - rewrite iter_wrap. f_equal. lia.
Qed.

Lemma buildStructure_perspectival (a : ThreadAnalysis.t) :
  1 <= ThreadAnalysis.nestingDepth a ->
  Structure.perspectival (buildStructure a)
  = firstn (Z.to_nat (ThreadAnalysis.nestingDepth a))
      ["()"; parens (Z.to_nat (ThreadAnalysis.nestingDepth a - 1))].
Proof.
  intros Hn. unfold buildStructure. cbn [Structure.perspectival app].
  destruct (Z.gtb_spec (ThreadAnalysis.nestingDepth a) 1) as [Hgt|Hle].
  - rewrite generateNestedPattern_parens by lia.
    destruct (Z.to_nat (ThreadAnalysis.nestingDepth a)) as [|[|k]] eqn:E;
      try lia.
    cbn [firstn]. now rewrite firstn_nil.
  - replace (ThreadAnalysis.nestingDepth a) with 1 by lia. reflexivity.
Qed.

(** X8.  The structure object of every classification can be rebuilt
    from the reported metrics: one [()] per thread, the base [()] and,
    from nesting depth 2 on, the parentheses nested one level less, and
    [s<order>] as the participatory level, which, followed by [={], is
    also how the pattern begins. *)
Theorem structure_agrees_with_metrics (messages : list Message.t) :
  exists t,
    calculateTopology messages = Some t
    /\ Structure.procedural (TopologyPattern.structure t)
       = repeat "()" (Z.to_nat (TopologyPattern.threads t))
    /\ Structure.perspectival (TopologyPattern.structure t)
       = firstn (Z.to_nat (TopologyPattern.nestingDepth t))
           ["()"; parens (Z.to_nat (TopologyPattern.nestingDepth t - 1))]
    /\ Structure.participatory (TopologyPattern.structure t)
       = "s" ++ JS.Number_toString (TopologyPattern.order t)
    /\ String.prefix
         (Structure.participatory (TopologyPattern.structure t) ++ "={")
         (TopologyPattern.pattern t) = true.
Proof.
  destruct messages as [|m l].
  - exists createEmptyTopology. repeat split.
  - eexists. split; [apply calculateTopology_nonempty; discriminate|].
    cbn [assemble TopologyPattern.structure TopologyPattern.threads
           TopologyPattern.nestingDepth TopologyPattern.order
           TopologyPattern.pattern].
    split; [apply buildStructure_procedural|].
    split.
    { apply buildStructure_perspectival. rewrite analyzeThreads_eq.
      apply resolveMetrics_nestingDepth_range. }
    split; [reflexivity|].
    cbn [buildStructure Structure.participatory].
    rewrite append_assoc. apply render_prefix.
Qed.

Lemma complexity_cases (messages : list Message.t) :
  exists t,
    calculateTopology messages = Some t
    /\ (messages = [] <-> TopologyPattern.order t = 0)
    /\ ((TopologyPattern.order t = 0
         /\ TopologyPattern.complexity t = "empty")
        \/ (TopologyPattern.order t = 1
            /\ TopologyPattern.complexity t = "monologue")
        \/ (TopologyPattern.order t = 2
            /\ TopologyPattern.complexity t = "dialogue")
        \/ (TopologyPattern.order t = 3
            /\ TopologyPattern.complexity t = "complex_dialogue")
        \/ (TopologyPattern.order t = 4
            /\ TopologyPattern.complexity t = "multi_threaded_discourse")).
Proof.
  destruct messages as [|m l].
  - exists createEmptyTopology. repeat split; auto.
  - eexists. split; [apply calculateTopology_nonempty; discriminate|].
    cbn [assemble TopologyPattern.order TopologyPattern.complexity].
    rewrite analyzeThreads_eq.
    pose proof (resolveMetrics_order_range
                  (Z.of_nat (List.length (m :: l)))
                  (count branchingSignal (m :: l))
                  (count closureSignal (m :: l))) as Hr.
    set (a := resolveMetrics _ _ _) in *.
    split; [split; [discriminate | lia]|].
    unfold determineComplexity.
    assert (Ho : ThreadAnalysis.order a = 1 \/ ThreadAnalysis.order a = 2
                 \/ ThreadAnalysis.order a = 3 \/ ThreadAnalysis.order a = 4)
      by lia.
    destruct Ho as [Ho|[Ho|[Ho|Ho]]]; rewrite Ho; cbn; auto 10.
Qed.

(** X9.  The complexity label and the order of a classification
    determine each other, across any two conversations, and the label
    is [empty] exactly for the conversation without messages. *)
Theorem complexity_matches_order (l l' : list Message.t) :
  exists t t',
    calculateTopology l = Some t
    /\ calculateTopology l' = Some t'
    /\ (TopologyPattern.complexity t = TopologyPattern.complexity t'
        <-> TopologyPattern.order t = TopologyPattern.order t')
    /\ (TopologyPattern.complexity t = "empty" <-> l = []).
Proof.
  destruct (complexity_cases l) as (t & Ht & He & Hc).
  destruct (complexity_cases l') as (t' & Ht' & _ & Hc').
  exists t, t'. split; [exact Ht|]. split; [exact Ht'|].
  split.
  - destruct Hc as [[-> ->]|[[-> ->]|[[-> ->]|[[-> ->]|[-> ->]]]]],
      Hc' as [[-> ->]|[[-> ->]|[[-> ->]|[[-> ->]|[-> ->]]]]];
      split; intros H; try reflexivity; discriminate H.
  - rewrite He.
    destruct Hc as [[-> ->]|[[-> ->]|[[-> ->]|[[-> ->]|[-> ->]]]]];
      split; intros H; try reflexivity; discriminate H.
Qed.

(** ** Reading the metrics off the pattern *)

Lemma in_allTriples (o t n : Z) :
  1 <= o <= 4 -> 1 <= t <= 5 -> 1 <= n <= 4 -> In (o, t, n) allTriples.
Proof.
  intros Ho Ht Hn. unfold allTriples.
  apply in_flat_map. exists o. split; [cbn; lia|].
  apply in_flat_map. exists t. split; [cbn; lia|].
  apply in_map_iff. exists n. split; [reflexivity | cbn; lia].
Qed.

Lemma rendersApart_allTriples : rendersApart allTriples = true.
Proof. vm_compute. reflexivity. Qed.

Lemma render_apart (o t n o' t' n' : Z) :
  In (o, t, n) allTriples -> In (o', t', n') allTriples -> 2 <= o ->
  Spec.render o t n = Spec.render o' t' n' ->
  o = o' /\ t = t' /\ n = n'.
Proof.
  intros Ha Hb Ho Heq.
  pose proof rendersApart_allTriples as H. unfold rendersApart in H.
  rewrite forallb_forall in H. specialize (H _ Ha). cbv beta iota in H.
  apply Z.leb_le in Ho. rewrite Ho in H. cbn [implb] in H.
  apply andb_true_iff in H as [_ H].
  rewrite forallb_forall in H. specialize (H _ Hb). cbv beta iota in H.
  rewrite Heq, String.eqb_refl in H. cbn [implb triple_eqb] in H.
  apply andb_true_iff in H as [H Hn]. apply andb_true_iff in H as [H1 Ht].
  apply Z.eqb_eq in H1, Ht, Hn. auto.
Qed.

Lemma render_not_empty (o t n : Z) :
  In (o, t, n) allTriples -> 2 <= o -> Spec.render o t n <> "s0={}".
Proof.
  intros Ha Ho Heq.
  pose proof rendersApart_allTriples as H. unfold rendersApart in H.
  rewrite forallb_forall in H. specialize (H _ Ha). cbv beta iota in H.
  apply Z.leb_le in Ho. rewrite Ho in H. cbn [implb] in H.
  apply andb_true_iff in H as [H _].
  rewrite Heq in H. discriminate H.
Qed.

Lemma metrics_in_allTriples (m : Message.t) (l : list Message.t) :
  In (ThreadAnalysis.order (analyzeThreads (m :: l)),
      ThreadAnalysis.threads (analyzeThreads (m :: l)),
      ThreadAnalysis.nestingDepth (analyzeThreads (m :: l))) allTriples.
Proof.
  rewrite analyzeThreads_eq.
  pose proof (resolveMetrics_order_range
                (Z.of_nat (List.length (m :: l)))
                (count branchingSignal (m :: l))
                (count closureSignal (m :: l))).
  pose proof (resolveMetrics_threads_range
                (Z.of_nat (List.length (m :: l)))
                (count branchingSignal (m :: l))
                (count closureSignal (m :: l))).
  pose proof (resolveMetrics_nestingDepth_range
                (Z.of_nat (List.length (m :: l)))
                (count branchingSignal (m :: l))
                (count closureSignal (m :: l))).
  apply in_allTriples; lia.
Qed.

(** X10.  From order 2 on the pattern string determines the metrics:
    a conversation classified with the same pattern has the same order,
    thread count and nesting depth.  At order 1 it does not: a greeting
    and a single question share the pattern but not the thread count. *)
Theorem pattern_determines_metrics (l l' : list Message.t) :
  (exists t t',
      calculateTopology l = Some t
      /\ calculateTopology l' = Some t'
      /\ (2 <= TopologyPattern.order t ->
          TopologyPattern.pattern t = TopologyPattern.pattern t' ->
          TopologyPattern.order t = TopologyPattern.order t'
          /\ TopologyPattern.threads t = TopologyPattern.threads t'
          /\ TopologyPattern.nestingDepth t
             = TopologyPattern.nestingDepth t'))
  /\ (exists t1 t2,
         calculateTopology [say user "Hello"] = Some t1
         /\ calculateTopology [say user "Why?"] = Some t2
         /\ TopologyPattern.pattern t1 = TopologyPattern.pattern t2
         /\ TopologyPattern.threads t1 <> TopologyPattern.threads t2).
Proof.
  split.
  - destruct l as [|m l].
    { exists createEmptyTopology.
      destruct (calculateTopology_total l') as [t' Ht'].
      exists t'. repeat split; auto; cbn in *; lia. }
    eexists. destruct l' as [|m' l'].
    + exists createEmptyTopology.
      split; [apply calculateTopology_nonempty; discriminate|].
      split; [reflexivity|].
      cbn [assemble TopologyPattern.order TopologyPattern.pattern
             createEmptyTopology].
      intros Ho Heq. exfalso.
      now apply (render_not_empty _ _ _ (metrics_in_allTriples m l) Ho).
    + eexists.
      split; [apply calculateTopology_nonempty; discriminate|].
      split; [apply calculateTopology_nonempty; discriminate|].
      cbn [assemble TopologyPattern.order TopologyPattern.pattern
             TopologyPattern.threads TopologyPattern.nestingDepth].
      intros Ho Heq.
      exact (render_apart _ _ _ _ _ _ (metrics_in_allTriples m l)
               (metrics_in_allTriples m' l') Ho Heq).
  - eexists _, _. split; [reflexivity|]. split; [reflexivity|].
    split; [reflexivity | cbn; discriminate].
Qed.

(* ================================================================= *)
(** * The reply service and the classifier *)

(** X11.  The impact tag the reply service computes for a text agrees
    with the classifier's reading of the same text: the message counts
    as a branching point exactly when the tag is [inquiry_branch], and
    the tag never makes a message count as a closure attempt whose
    wording does not already do so. *)
Theorem impact_tag_agrees_with_classifier (m : Message.t) (n : Z) :
  Message.topologyImpact m
  = Some (determineTopologyImpact (Message.content m) n) ->
  (branchingSignal m = true
   <-> determineTopologyImpact (Message.content m) n = "inquiry_branch")
  /\ closureSignal m
     = (JS.includes (JS.toLowerCase (Message.content m)) "conclusion"
        || JS.includes (JS.toLowerCase (Message.content m)) "summary").
Proof.
  intros Htag. unfold closureSignal, branchingSignal. rewrite Htag.
  unfold determineTopologyImpact.
  destruct (JS.includes (Message.content m) "?"
            || JS.includes (JS.toLowerCase (Message.content m)) "what"
            || JS.includes (JS.toLowerCase (Message.content m)) "how").
  - split; [tauto|]. cbn. now rewrite orb_false_r.
  - destruct (JS.includes (JS.toLowerCase (Message.content m)) "conclusion"
              || JS.includes (JS.toLowerCase (Message.content m)) "summary").
    + split; [split; discriminate | reflexivity].
    + destruct (n >? 1); cbn; (split; [split; discriminate | reflexivity]).
Qed.

Lemma impact_tag_agrees_with_classifier_witness :
  (branchingSignal
     (Message.mk "m" "s" assistant "To sum up: a summary." 
        (Some "closure_attempt") JNull (mkDate 0)) = true
   <-> determineTopologyImpact "To sum up: a summary." 2 = "inquiry_branch")
  /\ closureSignal
       (Message.mk "m" "s" assistant "To sum up: a summary."
          (Some "closure_attempt") JNull (mkDate 0))
     = (JS.includes (JS.toLowerCase "To sum up: a summary.") "conclusion"
        || JS.includes (JS.toLowerCase "To sum up: a summary.") "summary").
Proof.
  apply (impact_tag_agrees_with_classifier
           (Message.mk "m" "s" assistant "To sum up: a summary."
              (Some "closure_attempt") JNull (mkDate 0)) 2).
  reflexivity.
Defined.

(* ================================================================= *)
(** * The in-memory storage *)

(** ** Maps *)

Section MapFacts.

Context {V : Type}.
Implicit Types (m : JsMap.t V) (k : string) (v : V).

Lemma get_set_same k v m : JsMap.get k (JsMap.set k v m) = Some v.
Proof.
  induction m as [|[k' v'] m IH]; cbn.
  - now rewrite String.eqb_refl.
  - destruct (String.eqb_spec k' k) as [->|Hne]; cbn.
    + now rewrite String.eqb_refl.
    + destruct (String.eqb_spec k' k); [contradiction | exact IH].
Qed.

Lemma get_set_other k k' v m :
  k' <> k -> JsMap.get k' (JsMap.set k v m) = JsMap.get k' m.
Proof.
  intros Hne. induction m as [|[k0 v0] m IH]; cbn.
  - destruct (String.eqb_spec k k'); [congruence | reflexivity].
  - destruct (String.eqb_spec k0 k) as [->|Hk]; cbn.
    + destruct (String.eqb_spec k k'); [congruence | reflexivity].
    + now rewrite IH.
Qed.

Lemma get_none_keys k m : JsMap.get k m = None <-> ~ In k (JsMap.keys m).
Proof.
  induction m as [|[k' v'] m IH]; cbn; [tauto|].
  destruct (String.eqb_spec k' k) as [->|Hne].
  - split; [discriminate | intros H; elim H; now left].
  - rewrite IH. tauto.
Qed.

Lemma keys_set k v m :
  JsMap.keys (JsMap.set k v m)
  = if JsMap.has k m then JsMap.keys m else (JsMap.keys m ++ [k])%list.
Proof.
  unfold JsMap.has, JsMap.keys.
  induction m as [|[k' v'] m IH]; cbn; [reflexivity|].
  destruct (String.eqb_spec k' k) as [->|Hne]; cbn; [reflexivity|].
  rewrite IH. now destruct (JsMap.get k m).
Qed.

Lemma values_set_fresh k v m :
  JsMap.has k m = false ->
  JsMap.values (JsMap.set k v m) = (JsMap.values m ++ [v])%list.
Proof.
  unfold JsMap.has, JsMap.values.
  induction m as [|[k' v'] m IH]; cbn; [reflexivity|].
  destruct (String.eqb_spec k' k) as [->|Hne]; [discriminate|].
  intros H. cbn. now rewrite IH.
Qed.

Lemma in_values_set k v m x :
  In x (JsMap.values (JsMap.set k v m)) -> x = v \/ In x (JsMap.values m).
Proof.
  induction m as [|[k' v'] m IH]; cbn.
  - intros [<-|[]]. now left.
  - destruct (String.eqb_spec k' k) as [->|Hne]; cbn.
    + intros [<-|H]; auto.
    + intros [<-|H]; auto. destruct (IH H); auto.
Qed.

Lemma in_delete k m (kv : string * V) :
  In kv (JsMap.delete k m) -> In kv m.
Proof.
  induction m as [|[k' v'] m IH]; cbn; [tauto|].
  destruct (String.eqb k' k); cbn; [auto|].
  intros [<-|H]; auto.
Qed.

Lemma nodup_keys_delete k m :
  NoDup (JsMap.keys m) -> NoDup (JsMap.keys (JsMap.delete k m)).
Proof.
  induction m as [|[k' v'] m IH]; cbn; [auto|].
  intros H. inversion H as [|? ? Hnot Hrest]; subst.
  destruct (String.eqb k' k); cbn; [exact Hrest|].
  constructor; [|auto].
  intros Hin. apply Hnot. unfold JsMap.keys in *.
  apply in_map_iff in Hin as ([k0 v0] & E & Hin). cbn in E. subst k0.
  apply in_delete in Hin. apply in_map_iff. now exists (k', v0).
Qed.

Lemma get_delete_same k m :
  NoDup (JsMap.keys m) -> JsMap.get k (JsMap.delete k m) = None.
Proof.
  induction m as [|[k' v'] m IH]; cbn; [reflexivity|].
  intros H. inversion H as [|? ? Hnot Hrest]; subst.
  destruct (String.eqb_spec k' k) as [->|Hne].
  - now apply get_none_keys.
  - cbn. destruct (String.eqb_spec k' k); [contradiction | auto].
Qed.

Lemma get_delete_other k k' m :
  k' <> k -> JsMap.get k' (JsMap.delete k m) = JsMap.get k' m.
Proof.
  intros Hne. induction m as [|[k0 v0] m IH]; cbn; [reflexivity|].
  destruct (String.eqb_spec k0 k) as [->|Hk]; cbn.
  - destruct (String.eqb_spec k k'); [congruence | reflexivity].
  - now rewrite IH.
Qed.

Variable idOf : V -> string.

Lemma keyed_empty : MemStorage.keyed idOf JsMap.empty.
Proof. split; constructor. Qed.

Lemma keyed_set k v m :
  idOf v = k -> MemStorage.keyed idOf m ->
  MemStorage.keyed idOf (JsMap.set k v m).
Proof.
  intros Hk [Hnd Hall]. split.
  - rewrite keys_set. destruct (JsMap.has k m) eqn:Hhas; [exact Hnd|].
    apply NoDup_app; [exact Hnd | repeat constructor; intros [] | ].
    intros x Hx [E|[]]. subst x. unfold JsMap.has in Hhas.
    destruct (JsMap.get k m) eqn:E; [discriminate|].
    now apply get_none_keys in E.
  - clear Hnd. induction m as [|[k' v'] m IH]; cbn.
    + repeat constructor. now cbn.
    + inversion_clear Hall as [|? ? Hhd Htl].
      destruct (String.eqb_spec k' k) as [->|Hne]; constructor; auto.
Qed.

Lemma keyed_delete k m :
  MemStorage.keyed idOf m -> MemStorage.keyed idOf (JsMap.delete k m).
Proof.
  intros [Hnd Hall]. split; [now apply nodup_keys_delete|].
  apply Forall_forall. intros kv Hin. apply in_delete in Hin.
  rewrite Forall_forall in Hall. auto.
Qed.

(** In a keyed map, deleting the identifier of a value removes the
    values with that identifier and nothing else. *)
Lemma values_delete_keyed k m :
  MemStorage.keyed idOf m ->
  JsMap.values (JsMap.delete k m)
  = filter (fun x => negb (String.eqb (idOf x) k)) (JsMap.values m).
Proof.
  intros [Hnd Hall]. unfold JsMap.values.
  induction m as [|[k' v'] m IH]; cbn [JsMap.delete map filter snd];
    [reflexivity|].
  inversion_clear Hnd as [|? ? Hnot Hrest].
  inversion_clear Hall as [|? ? Hhd Htl]. cbn in Hhd. subst k'.
  destruct (String.eqb_spec (idOf v') k) as [Hk|Hne];
    cbn [negb map snd].
  - symmetry. apply forallb_filter_id. apply forallb_forall.
    intros x Hx. apply negb_true_iff. apply String.eqb_neq. intros E.
    apply Hnot.
    apply in_map_iff in Hx as ([k0 v0] & E0 & Hin). cbn in E0. subst v0.
    rewrite Forall_forall in Htl. specialize (Htl _ Hin). cbn in Htl.
    apply in_map_iff. exists (k0, x). split; [cbn; congruence | exact Hin].
  - now rewrite IH.
Qed.

Lemma keyed_ids_nodup m :
  MemStorage.keyed idOf m -> NoDup (map idOf (JsMap.values m)).
Proof.
  intros [Hnd Hall].
  replace (map idOf (JsMap.values m)) with (JsMap.keys m); [exact Hnd|].
  unfold JsMap.keys, JsMap.values. rewrite map_map.
  apply map_ext_in. intros kv Hin. rewrite Forall_forall in Hall. auto.
Qed.

End MapFacts.

(** ** Sorting *)

Section SortFacts.

Context {A : Type}.
Variable key : A -> Z.
Variable cmp : A -> A -> Z.
Hypothesis cmp_key : forall a b, (cmp a b <? 0) = (key a <? key b).

Lemma insertBy_perm (x : A) (l : list A) :
  Permutation (insertBy cmp x l) (x :: l).
Proof.
  induction l as [|y l IH]; cbn; [reflexivity|].
  destruct (cmp x y <? 0); [reflexivity|].
  rewrite IH. apply perm_swap.
Qed.

Lemma Array_sort_from (l acc : list A) :
  Permutation (fold_left (fun sorted x => insertBy cmp x sorted) l acc)
    (acc ++ l).
Proof.
  revert acc. induction l as [|x l IH]; intros acc; cbn.
  - now rewrite List.app_nil_r.
  - rewrite IH, insertBy_perm. apply Permutation_middle.
Qed.

Lemma Array_sort_perm (l : list A) : Permutation (Array_sort cmp l) l.
Proof. unfold Array_sort. now rewrite Array_sort_from. Qed.

Lemma insertBy_sorted (x : A) (l : list A) :
  StronglySorted (byKey key) l -> StronglySorted (byKey key) (insertBy cmp x l).
Proof.
  induction l as [|y l IH]; intros Hs; cbn.
  - repeat constructor.
  - inversion_clear Hs as [|? ? Hl Hy].
    rewrite cmp_key. destruct (Z.ltb_spec (key x) (key y)) as [Hlt|Hge].
    + constructor; [now constructor|].
      constructor; [unfold byKey; lia|].
      eapply Forall_impl; [|exact Hy]. unfold byKey. intros; cbn in *; lia.
    + constructor; [auto|].
      eapply Permutation_Forall;
        [symmetry; apply insertBy_perm|].
      constructor; [exact Hge | exact Hy].
Qed.

Lemma fold_insert_sorted (l acc : list A) :
  StronglySorted (byKey key) acc ->
  StronglySorted (byKey key)
    (fold_left (fun sorted x => insertBy cmp x sorted) l acc).
Proof.
  revert acc. induction l as [|x l IH]; intros acc Hs; cbn; [exact Hs|].
  apply IH. now apply insertBy_sorted.
Qed.

Lemma Array_sort_sorted (l : list A) :
  StronglySorted (byKey key) (Array_sort cmp l).
Proof. apply fold_insert_sorted. constructor. Qed.

Lemma insertBy_last (x : A) (l : list A) :
  Forall (fun y => key y <= key x) l -> insertBy cmp x l = (l ++ [x])%list.
Proof.
  induction 1 as [|y l Hy Hl IH]; cbn; [reflexivity|].
  rewrite cmp_key. destruct (Z.ltb_spec (key x) (key y)); [lia|].
  now rewrite IH.
Qed.

Lemma Array_sort_snoc (l : list A) (x : A) :
  Array_sort cmp (l ++ [x]) = insertBy cmp x (Array_sort cmp l).
Proof. unfold Array_sort. now rewrite fold_left_app. Qed.

Lemma filter_none (f : A -> bool) (l : list A) :
  Forall (fun a => f a = false) l -> filter f l = [].
Proof.
  induction 1 as [|y l Hy Hl IH]; cbn; [reflexivity|]. now rewrite Hy.
Qed.

(** Elements with equal keys keep their order. *)
Lemma insertBy_stable (k : Z) (x : A) (l : list A) :
  StronglySorted (byKey key) l ->
  filter (fun a => key a =? k) (insertBy cmp x l)
  = filter (fun a => key a =? k) (l ++ [x]).
Proof.
  induction l as [|y l IH]; intros Hs; cbn [insertBy app];
    [reflexivity|].
  inversion_clear Hs as [|? ? Hl Hy].
  rewrite cmp_key. destruct (Z.ltb_spec (key x) (key y)) as [Hlt|Hge].
  - change (y :: (l ++ [x])%list) with ((y :: l) ++ [x])%list.
    rewrite filter_app.
    destruct (Z.eqb_spec (key x) k) as [Hx|Hx].
    + assert (Hnone : filter (fun a => key a =? k) (y :: l) = []).
      { apply filter_none. constructor.
        - apply Z.eqb_neq. lia.
        - eapply Forall_impl; [|exact Hy]. unfold byKey.
          intros a Ha. apply Z.eqb_neq. cbn in Ha. lia. }
      cbn [filter] in *. rewrite Hx, Z.eqb_refl.
      replace (key y =? k) with false in *
        by (symmetry; apply Z.eqb_neq; lia).
      rewrite Hnone. reflexivity.
    + cbn [filter]. apply Z.eqb_neq in Hx. rewrite Hx.
      now rewrite List.app_nil_r.
  - cbn [filter]. rewrite IH by exact Hl. reflexivity.
Qed.

Lemma fold_insert_stable (k : Z) (l acc : list A) :
  StronglySorted (byKey key) acc ->
  filter (fun a => key a =? k)
    (fold_left (fun sorted x => insertBy cmp x sorted) l acc)
  = filter (fun a => key a =? k) (acc ++ l).
Proof.
  revert acc. induction l as [|x l IH]; intros acc Hs; cbn [fold_left].
  - now rewrite List.app_nil_r.
  - rewrite IH by now apply insertBy_sorted.
    rewrite !filter_app, insertBy_stable by exact Hs.
    rewrite filter_app. cbn [filter].
    destruct (key x =? k); now rewrite <- ?List.app_assoc.
Qed.

Lemma Array_sort_stable (k : Z) (l : list A) :
  filter (fun a => key a =? k) (Array_sort cmp l)
  = filter (fun a => key a =? k) l.
Proof. apply (fold_insert_stable k l []). constructor. Qed.

End SortFacts.

(** ** More on keyed maps *)

Section KeyedFacts.

Context {V : Type}.
Variable idOf : V -> string.
Implicit Types (m : JsMap.t V) (k : string) (v : V).

Lemma get_keyed k v m :
  MemStorage.keyed idOf m -> JsMap.get k m = Some v -> idOf v = k.
Proof.
  intros [_ Hall]. induction m as [|[k' v'] m IH]; cbn; [discriminate|].
  inversion_clear Hall as [|? ? Hhd Htl]. cbn in Hhd.
  destruct (String.eqb_spec k' k) as [->|Hne]; [|auto].
  intros H. injection H as <-. now symmetry.
Qed.

Lemma get_in_values k v m : JsMap.get k m = Some v -> In v (JsMap.values m).
Proof.
  induction m as [|[k' v'] m IH]; cbn; [discriminate|].
  destruct (String.eqb k' k); [|auto].
  intros H. injection H as <-. now left.
Qed.

Lemma nodup_map_inj {B : Type} (f : V -> B) (l : list V) (x y : V) :
  NoDup (map f l) -> In x l -> In y l -> f x = f y -> x = y.
Proof.
  induction l as [|a l IH]; cbn; [contradiction|].
  intros Hnd. inversion_clear Hnd as [|? ? Hnot Hrest].
  intros [->|Hx] [->|Hy] E; auto.
  - elim Hnot. rewrite E. now apply in_map.
  - elim Hnot. rewrite <- E. now apply in_map.
Qed.

Lemma nodup_map_filter {B : Type} (f : V -> B) (q : V -> bool) (l : list V) :
  NoDup (map f l) -> NoDup (map f (filter q l)).
Proof.
  induction l as [|a l IH]; cbn; [auto|].
  intros Hnd. inversion_clear Hnd as [|? ? Hnot Hrest].
  destruct (q a); cbn; [|auto]. constructor; [|auto].
  intros Hin. apply Hnot. apply in_map_iff in Hin as (x & E & Hx).
  apply filter_In in Hx as [Hx _]. apply in_map_iff. now exists x.
Qed.

Lemma nodup_map_set {B : Type} (f : V -> B) k v m :
  NoDup (map f (JsMap.values m)) ->
  (forall x, In x (JsMap.values m) -> f x <> f v) ->
  NoDup (map f (JsMap.values (JsMap.set k v m))).
Proof.
  unfold JsMap.values.
  induction m as [|[k' v'] m IH]; cbn [JsMap.set map snd]; intros Hnd Hv.
  - repeat constructor. intros [].
  - inversion_clear Hnd as [|? ? Hnot Hrest].
    destruct (String.eqb k' k); cbn [map snd].
    + constructor; [|exact Hrest].
      intros Hin. apply in_map_iff in Hin as (x & E & Hx).
      apply (Hv x); [now right | exact E].
    + constructor.
      * intros Hin. apply in_map_iff in Hin as (x & E & Hx).
        destruct (in_values_set k v m x Hx) as [->|Hx'].
        -- apply (Hv v'); [now left | now symmetry].
        -- apply Hnot. apply in_map_iff. now exists x.
      * apply IH; [exact Hrest|]. intros x Hx. apply Hv. now right.
Qed.

Lemma filter_twice (p q : V -> bool) (l : list V) :
  filter p (filter q l) = filter (fun x => q x && p x) l.
Proof.
  induction l as [|a l IH]; cbn; [reflexivity|].
  destruct (q a); cbn; [destruct (p a)|]; now rewrite IH.
Qed.

(** Deleting, one after the other, the identifiers of the values of [l]
    removes the values with one of these identifiers. *)
Lemma values_fold_delete (l : list V) m :
  MemStorage.keyed idOf m ->
  MemStorage.keyed idOf
    (fold_left (fun acc a => JsMap.delete (idOf a) acc) l m)
  /\ JsMap.values (fold_left (fun acc a => JsMap.delete (idOf a) acc) l m)
     = filter (fun x =>
                 forallb (fun a => negb (String.eqb (idOf x) (idOf a))) l)
         (JsMap.values m).
Proof.
  revert m. induction l as [|a l IH]; intros m Hk; cbn [fold_left forallb].
  - split; [exact Hk|]. symmetry. apply forallb_filter_id.
    now apply forallb_forall.
  - destruct (IH (JsMap.delete (idOf a) m) (keyed_delete idOf _ _ Hk))
      as [Hk' Hv].
    split; [exact Hk'|]. rewrite Hv, (values_delete_keyed idOf) by exact Hk.
    rewrite filter_twice. reflexivity.
Qed.

Lemma find_filter (p q : V -> bool) (l : list V) :
  (forall x, In x l -> p x = true -> q x = true) ->
  find p (filter q l) = find p l.
Proof.
  induction l as [|a l IH]; cbn; [reflexivity|]. intros H.
  destruct (p a) eqn:Hp.
  - rewrite (H a (or_introl eq_refl) Hp). cbn. now rewrite Hp.
  - destruct (q a); cbn; rewrite ?Hp; apply IH; auto.
Qed.

Lemma find_set_unique (p : V -> bool) k v m :
  (forall x, In x (JsMap.values m) -> p x = false) -> p v = true ->
  find p (JsMap.values (JsMap.set k v m)) = Some v.
Proof.
  unfold JsMap.values.
  induction m as [|[k' v'] m IH]; cbn [JsMap.set map snd find];
    intros Hm Hv.
  - now rewrite Hv.
  - destruct (String.eqb k' k); cbn [map snd find].
    + now rewrite Hv.
    + rewrite (Hm v' (or_introl eq_refl)). apply IH; auto.
      intros x Hx. apply Hm. now right.
Qed.

End KeyedFacts.

(** ** The state the storage keeps *)

Lemma consistent_create : MemStorage.consistent MemStorage.create.
Proof. repeat split; constructor. Qed.

Lemma consistent_createSession (st : MemStorage.t) (ins : InsertSession.t)
    (id : string) (now : Date) :
  MemStorage.consistent st ->
  MemStorage.consistent (snd (MemStorage.createSession st ins id now)).
Proof.
  intros (Hs & Hm & Ha & Hn).
  split; [now apply (keyed_set Session.id)|].
  split; [exact Hm | split; [exact Ha | exact Hn]].
Qed.

Lemma consistent_createMessage (st : MemStorage.t) (ins : InsertMessage.t)
    (id : string) (now : Date) :
  MemStorage.consistent st ->
  MemStorage.consistent (snd (MemStorage.createMessage st ins id now)).
Proof.
  intros (Hs & Hm & Ha & Hn).
  split; [exact Hs|].
  split; [now apply (keyed_set Message.id) | split; [exact Ha | exact Hn]].
Qed.

Lemma consistent_updateSession (st : MemStorage.t) (id : string)
    (updates : SessionUpdates.t) (now : Date) :
  MemStorage.consistent st ->
  MemStorage.consistent (snd (MemStorage.updateSession st id updates now)).
Proof.
  intros (Hs & Hm & Ha & Hn). unfold MemStorage.updateSession.
  destruct (JsMap.get id (MemStorage.sessions st)) as [e|] eqn:E;
    [|exact (conj Hs (conj Hm (conj Ha Hn)))].
  pose proof (get_keyed Session.id _ _ _ Hs E) as Hid.
  split; [now apply (keyed_set Session.id)|].
  split; [exact Hm | split; [exact Ha | exact Hn]].
Qed.

Lemma consistent_deleteMessagesBySession (st : MemStorage.t) (id : string) :
  MemStorage.consistent st ->
  MemStorage.consistent (snd (MemStorage.deleteMessagesBySession st id)).
Proof.
  intros (Hs & Hm & Ha & Hn).
  split; [exact Hs|].
  split; [now apply (values_fold_delete Message.id)
         | split; [exact Ha | exact Hn]].
Qed.

Lemma nodup_sessions_delete (k : string) (m : JsMap.t TopologyAnalysis.t) :
  MemStorage.keyed TopologyAnalysis.id m ->
  NoDup (map TopologyAnalysis.sessionId (JsMap.values m)) ->
  NoDup (map TopologyAnalysis.sessionId (JsMap.values (JsMap.delete k m))).
Proof.
  intros Hk Hn. rewrite (values_delete_keyed TopologyAnalysis.id) by exact Hk.
  now apply nodup_map_filter.
Qed.

Lemma consistent_deleteSession (st : MemStorage.t) (id : string) :
  MemStorage.consistent st ->
  MemStorage.consistent (snd (MemStorage.deleteSession st id)).
Proof.
  intros (Hs & Hm & Ha & Hn). unfold MemStorage.deleteSession.
  cbn [snd MemStorage.consistent MemStorage.sessions MemStorage.messages
         MemStorage.topologyAnalyses].
  split; [now apply keyed_delete|].
  split; [now apply (values_fold_delete Message.id)|].
  destruct (find _ _); split;
    solve [exact Ha | exact Hn | now apply keyed_delete
           | now apply nodup_sessions_delete].
Qed.

(** After the analysis found for a session is deleted, no analysis of
    that session is left. *)
Lemma no_analysis_left (s : string) (m : JsMap.t TopologyAnalysis.t) :
  MemStorage.keyed TopologyAnalysis.id m ->
  NoDup (map TopologyAnalysis.sessionId (JsMap.values m)) ->
  forall x,
    In x (JsMap.values
            match find (fun a => String.eqb (TopologyAnalysis.sessionId a) s)
                    (JsMap.values m) with
            | Some a => JsMap.delete (TopologyAnalysis.id a) m
            | None => m
            end) ->
    String.eqb (TopologyAnalysis.sessionId x) s = false.
Proof.
  intros Hk Hn x.
  destruct (find _ _) as [a|] eqn:E.
  - apply find_some in E as [Ha Hsa]. apply String.eqb_eq in Hsa.
    rewrite (values_delete_keyed TopologyAnalysis.id) by exact Hk.
    intros Hx. apply filter_In in Hx as [Hx Hne].
    apply String.eqb_neq. intros Hsx.
    assert (x = a)
      by (apply (nodup_map_inj TopologyAnalysis.sessionId _ _ _ Hn Hx Ha);
          congruence).
    subst x. rewrite String.eqb_refl in Hne. discriminate Hne.
  - intros Hx. exact (find_none _ _ E x Hx).
Qed.

Lemma consistent_saveTopologyAnalysis (st : MemStorage.t)
    (ins : InsertTopologyAnalysis.t) (id : string) (now : Date) :
  MemStorage.consistent st ->
  MemStorage.consistent (snd (MemStorage.saveTopologyAnalysis st ins id now)).
Proof.
  intros (Hs & Hm & Ha & Hn). unfold MemStorage.saveTopologyAnalysis.
  cbn [snd MemStorage.consistent MemStorage.sessions MemStorage.messages
         MemStorage.topologyAnalyses].
  split; [exact Hs|]. split; [exact Hm|].
  pose proof (no_analysis_left (InsertTopologyAnalysis.sessionId ins) _ Ha Hn)
    as Hleft.
  split.
  - apply keyed_set; [reflexivity|].
    destruct (find _ _); [now apply keyed_delete | exact Ha].
  - apply nodup_map_set.
    + destruct (find _ _); [now apply nodup_sessions_delete | exact Hn].
    + intros x Hx. cbn [TopologyAnalysis.sessionId].
      apply String.eqb_neq. now apply Hleft.
Qed.

(** X12.  The storage keeps its maps in order: starting from the empty
    store, after any of its methods every session, message and analysis
    is stored under its own identifier, no identifier occurs twice, and
    no session has more than one topology analysis. *)
Theorem storage_stays_consistent :
  MemStorage.consistent MemStorage.create
  /\ forall st,
      MemStorage.consistent st ->
      (forall ins id now,
          MemStorage.consistent
            (snd (MemStorage.createSession st ins id now)))
      /\ (forall id updates now,
             MemStorage.consistent
               (snd (MemStorage.updateSession st id updates now)))
      /\ (forall id,
             MemStorage.consistent (snd (MemStorage.deleteSession st id)))
      /\ (forall ins id now,
             MemStorage.consistent
               (snd (MemStorage.createMessage st ins id now)))
      /\ (forall id,
             MemStorage.consistent
               (snd (MemStorage.deleteMessagesBySession st id)))
      /\ (forall ins id now,
             MemStorage.consistent
               (snd (MemStorage.saveTopologyAnalysis st ins id now))).
Proof.
  split; [exact consistent_create|]. intros st H.
  split; [intros; now apply consistent_createSession|].
  split; [intros; now apply consistent_updateSession|].
  split; [intros; now apply consistent_deleteSession|].
  split; [intros; now apply consistent_createMessage|].
  split; [intros; now apply consistent_deleteMessagesBySession|].
  intros; now apply consistent_saveTopologyAnalysis.
Qed.

(** ** What the methods return *)

Lemma StronglySorted_impl {A : Type} (R R' : A -> A -> Prop) (l : list A) :
  (forall a b, R a b -> R' a b) -> StronglySorted R l -> StronglySorted R' l.
Proof.
  intros H. induction 1 as [|a l Hl IH Ha]; constructor; [exact IH|].
  eapply Forall_impl; [|exact Ha]. auto.
Qed.

(** X13.  [getMessagesBySession] returns exactly the stored messages of
    the session, each once, in the order of their creation times;
    messages created at the same time keep the order in which they were
    stored. *)
Theorem messages_by_session_sorted (st : MemStorage.t) (sessionId : string) :
  let stored :=
    filter (fun m => String.eqb (Message.sessionId m) sessionId)
      (JsMap.values (MemStorage.messages st)) in
  let listed := MemStorage.getMessagesBySession st sessionId in
  StronglySorted
    (fun a b => getTime (Message.createdAt a) <= getTime (Message.createdAt b))
    listed
  /\ Permutation listed stored
  /\ Forall (fun m => Message.sessionId m = sessionId) listed
  /\ forall t,
      filter (fun m => getTime (Message.createdAt m) =? t) listed
      = filter (fun m => getTime (Message.createdAt m) =? t) stored.
Proof.
  cbv zeta. unfold MemStorage.getMessagesBySession.
  set (stored := filter _ _).
  set (cmp := fun a b : Message.t =>
                getTime (Message.createdAt a) - getTime (Message.createdAt b)).
  assert (Hcmp : forall a b,
             (cmp a b <? 0)
             = (getTime (Message.createdAt a) <? getTime (Message.createdAt b))).
  { intros a b. unfold cmp.
    destruct (Z.ltb_spec (getTime (Message.createdAt a)
                          - getTime (Message.createdAt b)) 0),
      (Z.ltb_spec (getTime (Message.createdAt a))
         (getTime (Message.createdAt b))); auto; lia. }
  split; [exact (Array_sort_sorted _ cmp Hcmp stored)|].
  split; [apply Array_sort_perm|].
  split.
  - eapply Permutation_Forall; [symmetry; apply Array_sort_perm|].
    apply Forall_forall. intros m Hm. subst stored.
    apply filter_In in Hm as [_ Hm]. now apply String.eqb_eq.
  - intros t. exact (Array_sort_stable _ cmp Hcmp t stored).
Qed.

(** X14.  [getAllSessions] returns every stored session once, the most
    recently updated first. *)
Theorem all_sessions_latest_first (st : MemStorage.t) :
  StronglySorted
    (fun a b => getTime (Session.updatedAt b) <= getTime (Session.updatedAt a))
    (MemStorage.getAllSessions st)
  /\ Permutation (MemStorage.getAllSessions st)
       (JsMap.values (MemStorage.sessions st)).
Proof.
  unfold MemStorage.getAllSessions.
  set (cmp := fun a b : Session.t =>
                getTime (Session.updatedAt b) - getTime (Session.updatedAt a)).
  assert (Hcmp : forall a b,
             (cmp a b <? 0)
             = (- getTime (Session.updatedAt a)
                <? - getTime (Session.updatedAt b))).
  { intros a b. unfold cmp.
    destruct (Z.ltb_spec (getTime (Session.updatedAt b)
                          - getTime (Session.updatedAt a)) 0),
      (Z.ltb_spec (- getTime (Session.updatedAt a))
         (- getTime (Session.updatedAt b))); auto; lia. }
  split; [|apply Array_sort_perm].
  eapply StronglySorted_impl;
    [| exact (Array_sort_sorted _ cmp Hcmp _)].
  unfold byKey. intros a b H. lia.
Qed.

(** X15.  A created session can be fetched under its identifier and no
    other session is affected.  The defaults are applied with [||]: an
    order or a thread count of zero and an empty pattern are replaced
    like absent ones, so the stored order and thread count are never 0
    and the stored pattern is never empty. *)
Theorem createSession_stores (st : MemStorage.t) (ins : InsertSession.t)
    (id : string) (now : Date) :
  let session := fst (MemStorage.createSession st ins id now) in
  let st' := snd (MemStorage.createSession st ins id now) in
  MemStorage.getSession st' id = Some session
  /\ (forall other, other <> id ->
                    MemStorage.getSession st' other
                    = MemStorage.getSession st other)
  /\ Session.id session = id
  /\ Session.topologyOrder session <> 0
  /\ Session.threadCount session <> 0
  /\ Session.topologyPattern session <> EmptyString
  /\ Session.createdAt session = now
  /\ Session.updatedAt session = now.
Proof.
  cbv zeta. unfold MemStorage.getSession. cbn [fst snd MemStorage.createSession
    MemStorage.sessions Session.id Session.topologyOrder Session.threadCount
    Session.topologyPattern Session.createdAt Session.updatedAt].
  split; [apply get_set_same|].
  split; [intros other Hne; now apply get_set_other|].
  split; [reflexivity|].
  split; [destruct (InsertSession.topologyOrder ins) as [[| |]|];
          discriminate|].
  split; [destruct (InsertSession.threadCount ins) as [[| |]|];
          discriminate|].
  split; [destruct (InsertSession.topologyPattern ins) as [[|]|];
          discriminate|].
  split; reflexivity.
Qed.

Lemma cmp_createdAt (a b : Message.t) :
  (getTime (Message.createdAt a) - getTime (Message.createdAt b) <? 0)
  = (getTime (Message.createdAt a) <? getTime (Message.createdAt b)).
Proof.
  destruct (Z.ltb_spec (getTime (Message.createdAt a)
                        - getTime (Message.createdAt b)) 0),
    (Z.ltb_spec (getTime (Message.createdAt a))
       (getTime (Message.createdAt b))); auto; lia.
Qed.

(** X16.  A message created under an unused identifier joins the list of
    its session and of no other session.  If the clock has not gone
    back behind the messages already listed, it is listed last, after
    the earlier messages in their previous order. *)
Theorem createMessage_appends (st : MemStorage.t) (ins : InsertMessage.t)
    (id : string) (now : Date) :
  JsMap.has id (MemStorage.messages st) = false ->
  let message := fst (MemStorage.createMessage st ins id now) in
  let st' := snd (MemStorage.createMessage st ins id now) in
  let before :=
    MemStorage.getMessagesBySession st (InsertMessage.sessionId ins) in
  Permutation
    (MemStorage.getMessagesBySession st' (InsertMessage.sessionId ins))
    (message :: before)
  /\ (Forall (fun m => getTime (Message.createdAt m) <= getTime now) before ->
      MemStorage.getMessagesBySession st' (InsertMessage.sessionId ins)
      = (before ++ [message])%list)
  /\ (forall other, other <> InsertMessage.sessionId ins ->
                    MemStorage.getMessagesBySession st' other
                    = MemStorage.getMessagesBySession st other).
Proof.
  intros Hfresh. cbv zeta. unfold MemStorage.getMessagesBySession.
  cbn [fst snd MemStorage.createMessage MemStorage.messages].
  rewrite values_set_fresh by exact Hfresh.
  set (message := Message.mk _ _ _ _ _ _ _).
  set (cmp := fun a b : Message.t =>
                getTime (Message.createdAt a) - getTime (Message.createdAt b)).
  assert (Hlist :
    Array_sort cmp
      (filter (fun m => String.eqb (Message.sessionId m)
                          (InsertMessage.sessionId ins))
         (JsMap.values (MemStorage.messages st) ++ [message]))
    = insertBy cmp message
        (Array_sort cmp
           (filter (fun m => String.eqb (Message.sessionId m)
                               (InsertMessage.sessionId ins))
              (JsMap.values (MemStorage.messages st))))).
  { rewrite filter_app. cbn [filter]. subst message.
    cbn [Message.sessionId]. rewrite String.eqb_refl.
    apply Array_sort_snoc. }
  split; [rewrite Hlist; apply insertBy_perm|].
  split.
  - intros Hclock. rewrite Hlist.
    apply (insertBy_last (fun m => getTime (Message.createdAt m)) cmp
             cmp_createdAt).
    exact Hclock.
  - intros other Hne. rewrite filter_app. cbn [filter]. subst message.
    cbn [Message.sessionId].
    destruct (String.eqb_spec (InsertMessage.sessionId ins) other);
      [congruence|].
    now rewrite List.app_nil_r.
Qed.

Lemma createMessage_appends_witness :
  Permutation
    (MemStorage.getMessagesBySession
       (snd (MemStorage.createMessage demoStore
               (InsertMessage.mk "s1" assistant "Because." None None)
               "m2" (mkDate 40)))
       "s1")
    (fst (MemStorage.createMessage demoStore
            (InsertMessage.mk "s1" assistant "Because." None None)
            "m2" (mkDate 40))
       :: MemStorage.getMessagesBySession demoStore "s1").
Proof.
  apply (createMessage_appends demoStore
           (InsertMessage.mk "s1" assistant "Because." None None)
           "m2" (mkDate 40)).
  reflexivity.
Defined.

(** X17.  Deleting a session in a consistent store removes it together
    with all its messages and its topology analysis, reports whether the
    session existed, and leaves every other session, its messages and
    its analysis as they were. *)
Theorem deleteSession_cascades (st : MemStorage.t) (id : string) :
  MemStorage.consistent st ->
  let deleted := fst (MemStorage.deleteSession st id) in
  let st' := snd (MemStorage.deleteSession st id) in
  (deleted = true <-> MemStorage.getSession st id <> None)
  /\ MemStorage.getSession st' id = None
  /\ MemStorage.getMessagesBySession st' id = []
  /\ MemStorage.getTopologyAnalysis st' id = None
  /\ forall other,
      other <> id ->
      MemStorage.getSession st' other = MemStorage.getSession st other
      /\ MemStorage.getMessagesBySession st' other
         = MemStorage.getMessagesBySession st other
      /\ MemStorage.getTopologyAnalysis st' other
         = MemStorage.getTopologyAnalysis st other.
Proof.
  intros (Hs & Hm & Ha & Hn). cbv zeta.
  unfold MemStorage.getSession, MemStorage.getMessagesBySession,
    MemStorage.getTopologyAnalysis, MemStorage.deleteSession.
  cbn [fst snd MemStorage.sessions MemStorage.messages
         MemStorage.topologyAnalyses].
  destruct (values_fold_delete Message.id
              (filter (fun m => String.eqb (Message.sessionId m) id)
                 (JsMap.values (MemStorage.messages st)))
              (MemStorage.messages st) Hm) as [_ Hvalues].
  rewrite Hvalues. clear Hvalues.
  pose proof (keyed_ids_nodup Message.id _ Hm) as Hids.
  pose proof (no_analysis_left id _ Ha Hn) as Hleft.
  split.
  { unfold JsMap.has.
    destruct (JsMap.get id (MemStorage.sessions st));
      split; intros H; try reflexivity; try discriminate; now elim H. }
  split; [apply get_delete_same, Hs|].
  split.
  { rewrite filter_twice, filter_none; [reflexivity|].
    apply Forall_forall. intros x Hx.
    destruct (String.eqb_spec (Message.sessionId x) id) as [E|E];
      [|now rewrite andb_false_r].
    rewrite andb_true_r. apply not_true_is_false. intros Hall.
    rewrite forallb_forall in Hall.
    assert (Hin : In x (filter (fun m => String.eqb (Message.sessionId m) id)
                          (JsMap.values (MemStorage.messages st))))
      by (apply filter_In; split; [exact Hx | now apply String.eqb_eq]).
    specialize (Hall x Hin). rewrite String.eqb_refl in Hall.
    discriminate Hall. }
  split.
  { destruct (find _ (JsMap.values
                        match find _ _ with Some _ => _ | None => _ end))
      as [x|] eqn:E; [|reflexivity].
    apply find_some in E as [Hx Hsx]. rewrite (Hleft x Hx) in Hsx.
    discriminate Hsx. }
  intros other Hne.
  split; [now apply get_delete_other|].
  split.
  - f_equal. rewrite filter_twice. apply filter_ext_in. intros x Hx.
    destruct (String.eqb_spec (Message.sessionId x) other) as [E|E];
      [|now rewrite andb_false_r].
    rewrite andb_true_r. apply forallb_forall. intros a Hin.
    apply filter_In in Hin as [Hin Hsa]. apply String.eqb_eq in Hsa.
    apply negb_true_iff, String.eqb_neq. intros Eid.
    assert (x = a)
      by (apply (nodup_map_inj Message.id _ _ _ Hids Hx Hin Eid)).
    congruence.
  - destruct (find (fun a => String.eqb (TopologyAnalysis.sessionId a) id)
                (JsMap.values (MemStorage.topologyAnalyses st)))
      as [a|] eqn:E; [|reflexivity].
    apply find_some in E as [Hin Hsa]. apply String.eqb_eq in Hsa.
    rewrite (values_delete_keyed TopologyAnalysis.id) by exact Ha.
    apply find_filter. intros x Hx Hsx. apply String.eqb_eq in Hsx.
    apply negb_true_iff, String.eqb_neq. intros Eid.
    assert (x = a)
      by (apply (nodup_map_inj TopologyAnalysis.id _ _ _
                   (keyed_ids_nodup TopologyAnalysis.id _ Ha) Hx Hin Eid)).
    congruence.
Qed.

Ltac demo_consistent :=
  unfold MemStorage.consistent, MemStorage.keyed; cbn;
  repeat split; repeat constructor; cbn; intuition discriminate.

Lemma deleteSession_cascades_witness :
  MemStorage.getSession (snd (MemStorage.deleteSession demoStore "s1")) "s1"
  = None
  /\ MemStorage.getMessagesBySession
       (snd (MemStorage.deleteSession demoStore "s1")) "s1" = []
  /\ MemStorage.getTopologyAnalysis
       (snd (MemStorage.deleteSession demoStore "s1")) "s1" = None.
Proof.
  assert (H : MemStorage.consistent demoStore) by demo_consistent.
  pose proof (deleteSession_cascades demoStore "s1" H) as (_ & H1 & H2 & H3 & _).
  repeat split; assumption.
Defined.

Lemma get_delete_none {V : Type} (k k' : string) (m : JsMap.t V) :
  JsMap.get k' m = None -> JsMap.get k' (JsMap.delete k m) = None.
Proof.
  rewrite !get_none_keys. intros Hnot Hin. apply Hnot.
  unfold JsMap.keys in *. apply in_map_iff in Hin as (kv & E & Hin).
  apply in_delete in Hin. apply in_map_iff. now exists kv.
Qed.

Lemma find_app_left {A : Type} (p : A -> bool) (l : list A) (x : A) :
  p x = false -> find p (l ++ [x]) = find p l.
Proof.
  intros Hx. induction l as [|a l IH]; cbn; [now rewrite Hx|].
  destruct (p a); [reflexivity | exact IH].
Qed.

Lemma getTopologyAnalysis_after_save (st : MemStorage.t)
    (ins : InsertTopologyAnalysis.t) (id : string) (now : Date) :
  MemStorage.consistent st ->
  MemStorage.getTopologyAnalysis
    (snd (MemStorage.saveTopologyAnalysis st ins id now))
    (InsertTopologyAnalysis.sessionId ins)
  = Some (fst (MemStorage.saveTopologyAnalysis st ins id now)).
Proof.
  intros (Hs & Hm & Ha & Hn).
  unfold MemStorage.getTopologyAnalysis, MemStorage.saveTopologyAnalysis.
  cbn [fst snd MemStorage.topologyAnalyses].
  apply find_set_unique.
  - exact (no_analysis_left (InsertTopologyAnalysis.sessionId ins) _ Ha Hn).
  - cbn [TopologyAnalysis.sessionId]. apply String.eqb_refl.
Qed.

(** X18.  In a consistent store the analysis saved for a session is the
    one [getTopologyAnalysis] returns for it afterwards: a later save
    replaces the earlier one.  Saved under an unused identifier, it
    leaves the analyses of the other sessions as they were. *)
Theorem saveTopologyAnalysis_replaces (st : MemStorage.t)
    (ins : InsertTopologyAnalysis.t) (id : string) (now : Date) :
  MemStorage.consistent st ->
  let analysis := fst (MemStorage.saveTopologyAnalysis st ins id now) in
  let st' := snd (MemStorage.saveTopologyAnalysis st ins id now) in
  MemStorage.getTopologyAnalysis st' (InsertTopologyAnalysis.sessionId ins)
  = Some analysis
  /\ TopologyAnalysis.pattern analysis = InsertTopologyAnalysis.pattern ins
  /\ (JsMap.has id (MemStorage.topologyAnalyses st) = false ->
      forall other,
        other <> InsertTopologyAnalysis.sessionId ins ->
        MemStorage.getTopologyAnalysis st' other
        = MemStorage.getTopologyAnalysis st other).
Proof.
  intros Hc. cbv zeta.
  split; [now apply getTopologyAnalysis_after_save|].
  destruct Hc as (Hs & Hm & Ha & Hn).
  unfold MemStorage.getTopologyAnalysis, MemStorage.saveTopologyAnalysis.
  cbn [fst snd MemStorage.topologyAnalyses TopologyAnalysis.pattern].
  split; [reflexivity|].
  intros Hfresh other Hne.
  set (analysis := TopologyAnalysis.mk _ _ _ _ _ _ _ _).
  assert (Hother : String.eqb (TopologyAnalysis.sessionId analysis) other
                   = false)
    by (apply String.eqb_neq; cbn; congruence).
  destruct (find (fun a => String.eqb (TopologyAnalysis.sessionId a)
                             (InsertTopologyAnalysis.sessionId ins))
              (JsMap.values (MemStorage.topologyAnalyses st)))
    as [a|] eqn:E.
  - rewrite values_set_fresh.
    2:{ unfold JsMap.has in *.
        destruct (JsMap.get id (MemStorage.topologyAnalyses st)) eqn:G;
          [discriminate|].
        now rewrite get_delete_none. }
    rewrite find_app_left by exact Hother.
    apply find_some in E as [Hin Hsa]. apply String.eqb_eq in Hsa.
    rewrite (values_delete_keyed TopologyAnalysis.id) by exact Ha.
    apply find_filter. intros x Hx Hsx. apply String.eqb_eq in Hsx.
    apply negb_true_iff, String.eqb_neq. intros Eid.
    assert (x = a)
      by (apply (nodup_map_inj TopologyAnalysis.id _ _ _
                   (keyed_ids_nodup TopologyAnalysis.id _ Ha) Hx Hin Eid)).
    congruence.
  - rewrite values_set_fresh by exact Hfresh.
    now apply find_app_left.
Qed.

Lemma saveTopologyAnalysis_replaces_witness :
  MemStorage.getTopologyAnalysis
    (snd (MemStorage.saveTopologyAnalysis demoStore
            (InsertTopologyAnalysis.mk "s1" "s2={[()()],[(())]}" JNull JNull
               "dialogue" 1)
            "a2" (mkDate 50)))
    "s1"
  = Some (fst (MemStorage.saveTopologyAnalysis demoStore
                 (InsertTopologyAnalysis.mk "s1" "s2={[()()],[(())]}" JNull
                    JNull "dialogue" 1)
                 "a2" (mkDate 50))).
Proof.
  apply (saveTopologyAnalysis_replaces demoStore
           (InsertTopologyAnalysis.mk "s1" "s2={[()()],[(())]}" JNull JNull
              "dialogue" 1)
           "a2" (mkDate 50)).
  demo_consistent.
Defined.

(** X19.  [updateSession] never creates a session: for an unknown
    identifier it returns nothing and leaves the store as it is.  For a
    stored session it keeps the identifier, the creation time and the
    place among the sessions, stamps the update time, and returns what
    [getSession] returns afterwards; messages and analyses are not
    touched. *)
Theorem updateSession_keeps_identity (st : MemStorage.t) (id : string)
    (updates : SessionUpdates.t) (now : Date) :
  MemStorage.consistent st ->
  let result := fst (MemStorage.updateSession st id updates now) in
  let st' := snd (MemStorage.updateSession st id updates now) in
  (MemStorage.getSession st id = None -> result = None /\ st' = st)
  /\ (forall existing,
         MemStorage.getSession st id = Some existing ->
         exists updated,
           result = Some updated
           /\ MemStorage.getSession st' id = Some updated
           /\ Session.id updated = id
           /\ Session.createdAt updated = Session.createdAt existing
           /\ Session.updatedAt updated = now
           /\ JsMap.keys (MemStorage.sessions st')
              = JsMap.keys (MemStorage.sessions st))
  /\ (forall other, other <> id ->
                    MemStorage.getSession st' other
                    = MemStorage.getSession st other)
  /\ MemStorage.messages st' = MemStorage.messages st
  /\ MemStorage.topologyAnalyses st' = MemStorage.topologyAnalyses st.
Proof.
  intros (Hs & _). cbv zeta.
  unfold MemStorage.getSession, MemStorage.updateSession.
  destruct (JsMap.get id (MemStorage.sessions st)) as [e|] eqn:E;
    cbn [fst snd MemStorage.sessions MemStorage.messages
           MemStorage.topologyAnalyses].
  - split; [discriminate|].
    split.
    { intros existing H. injection H as <-. eexists.
      split; [reflexivity|]. split; [apply get_set_same|].
      cbn [Session.id Session.createdAt Session.updatedAt].
      split; [now apply (get_keyed Session.id _ _ _ Hs)|].
      split; [reflexivity|]. split; [reflexivity|].
      rewrite keys_set. unfold JsMap.has. now rewrite E. }
    split; [intros other Hne; now apply get_set_other|].
    split; reflexivity.
  - split; [auto|]. split; [discriminate|].
    split; [reflexivity|]. split; reflexivity.
Qed.

Lemma updateSession_keeps_identity_witness :
  MemStorage.messages
    (snd (MemStorage.updateSession demoStore "s1"
            (SessionUpdates.mk None (Some "s2={[()()],[(())]}") (Some 2)
               (Some 2) (Some 4) None)
            (mkDate 60)))
  = MemStorage.messages demoStore.
Proof.
  apply (updateSession_keeps_identity demoStore "s1"
           (SessionUpdates.mk None (Some "s2={[()()],[(())]}") (Some 2)
              (Some 2) (Some 4) None)
           (mkDate 60)).
  demo_consistent.
Defined.

(* ================================================================= *)
(** * The HTTP handlers *)

Lemma listed_length (st : MemStorage.t) (sessionId : string) :
  List.length (MemStorage.getMessagesBySession st sessionId)
  = List.length
      (filter (fun m => String.eqb (Message.sessionId m) sessionId)
         (JsMap.values (MemStorage.messages st))).
Proof.
  unfold MemStorage.getMessagesBySession.
  apply Permutation_length, Array_sort_perm.
Qed.

Lemma listed_after_set (st : MemStorage.t) (id : string) (m : Message.t) :
  In m
    (MemStorage.getMessagesBySession
       {| MemStorage.sessions := MemStorage.sessions st;
          MemStorage.messages := JsMap.set id m (MemStorage.messages st);
          MemStorage.topologyAnalyses := MemStorage.topologyAnalyses st |}
       (Message.sessionId m)).
Proof.
  unfold MemStorage.getMessagesBySession. cbn [MemStorage.messages].
  eapply Permutation_in; [symmetry; apply Array_sort_perm|].
  apply filter_In. split; [|apply String.eqb_refl].
  apply (get_in_values id). apply get_set_same.
Qed.

(** What [POST /api/sessions/:id/messages] accepts as content. *)
Lemma content_cases (content : option json) :
  (exists c0 s0, content = Some (JStr (String c0 s0)))
  \/ (forall c0 s0, content <> Some (JStr (String c0 s0))).
Proof.
  destruct content as [[| | |[|c0 s0]| |]|];
    try (right; intros; discriminate).
  left. now exists c0, s0.
Qed.

(** X20.  The status of [POST /api/sessions/:id/messages] is decided in
    this order: 400 when the content is not a non-empty string, 404 when
    the session is unknown, 500 when the completion request fails, 200
    otherwise; no other status occurs, and a request answered with 400
    or 404 leaves the store as it was. *)
Theorem postMessage_status (st : MemStorage.t) (sessionId : string)
    (content : option json) (env : Routes.PostEnv) :
  let response := fst (Routes.postMessage st sessionId content env) in
  let st' := snd (Routes.postMessage st sessionId content env) in
  let accepted := exists c0 s0, content = Some (JStr (String c0 s0)) in
  let known := MemStorage.getSession st sessionId <> None in
  let answered := Routes.completion env <> None in
  (Routes.statusCode response = 400 <-> ~ accepted)
  /\ (Routes.statusCode response = 404 <-> accepted /\ ~ known)
  /\ (Routes.statusCode response = 500
      <-> accepted /\ known /\ ~ answered)
  /\ (Routes.statusCode response = 200
      <-> accepted /\ known /\ answered)
  /\ (Routes.statusCode response = 400
      \/ Routes.statusCode response = 404 -> st' = st).
Proof.
  cbv zeta.
  destruct (content_cases content) as [(c0 & s0 & ->)|Hno].
  - assert (Hacc : exists c1 s1,
               Some (JStr (String c0 s0)) = Some (JStr (String c1 s1)))
      by now exists c0, s0.
    revert Hacc.
    generalize (exists c1 s1,
                   Some (JStr (String c0 s0)) = Some (JStr (String c1 s1))).
    intros accepted Hacc.
    unfold Routes.postMessage, Routes.postMessageBegin.
    destruct (MemStorage.getSession st sessionId) as [session|] eqn:Hs.
    + assert (Hk : Some session <> None) by discriminate.
      revert Hk. generalize (Some session <> None). intros known Hk.
      destruct (MemStorage.createMessage st _ _ _) as [userMessage st1].
      unfold Routes.postMessageResume, generateChatResponse.
      cbn [Pending.sessionId Pending.session Pending.userMessage
             Pending.conversationHistory].
      destruct (Routes.completion env) as [reply|] eqn:Hreply.
      * assert (Ha : Some reply <> None) by discriminate.
        revert Ha. generalize (Some reply <> None). intros answered Ha.
        destruct (MemStorage.createMessage st1 _ _ _) as [aiMessage st2].
        destruct (calculateTopology_total
                    (MemStorage.getMessagesBySession st2 sessionId))
          as [topology ->].
        destruct (MemStorage.updateSession st2 _ _ _) as [r st3].
        destruct (MemStorage.saveTopologyAnalysis st3 _ _ _) as [a st4].
        cbn [fst snd Routes.ok Routes.statusCode].
        intuition discriminate.
      * assert (Ha : ~ (@None (option string) <> None))
          by (intros H; now elim H).
        revert Ha. generalize (@None (option string) <> None).
        intros answered Ha.
        cbn [fst snd Routes.fail Routes.statusCode].
        intuition discriminate.
    + assert (Hk : ~ (@None Session.t <> None)) by (intros H; now elim H).
      revert Hk. generalize (@None Session.t <> None). intros known Hk.
      cbn [fst snd Routes.fail Routes.statusCode].
      intuition discriminate.
  - assert (E : Routes.postMessage st sessionId content env
                = (Routes.fail 400 "Message content is required", st)).
    { destruct content as [[| | |[|c0 s0]| |]|]; try reflexivity.
      now elim (Hno c0 s0). }
    rewrite E. cbn [fst snd Routes.fail Routes.statusCode].
    assert (Hnot : ~ exists c0 s0, content = Some (JStr (String c0 s0))).
    { intros (c0 & s0 & H). now elim (Hno c0 s0). }
    revert Hnot.
    generalize (exists c0 s0, content = Some (JStr (String c0 s0))).
    intros accepted Hnot.
    intuition discriminate.
Qed.

(** What the handler holds, and the store it has left, when it starts to
    wait for the completion request. *)
Lemma postMessageBegin_suspended (st : MemStorage.t) (sessionId : string)
    (content : option json) (env : Routes.PostEnv) (pending : Pending.t)
    (st1 : MemStorage.t) :
  Routes.postMessageBegin st sessionId content env = (inr pending, st1) ->
  exists c0 s0 session0,
    content = Some (JStr (String c0 s0))
    /\ MemStorage.getSession st sessionId = Some session0
    /\ pending
       = Pending.mk sessionId session0
           (Message.mk (Routes.userMessageId env) sessionId user
              (String c0 s0) (Some "user_input") JNull
              (Routes.userMessageTime env))
           (map (fun m => (Message.role m, Message.content m))
              (MemStorage.getMessagesBySession st1 sessionId))
    /\ st1
       = MemStorage.mk (MemStorage.sessions st)
           (JsMap.set (Routes.userMessageId env)
              (Message.mk (Routes.userMessageId env) sessionId user
                 (String c0 s0) (Some "user_input") JNull
                 (Routes.userMessageTime env))
              (MemStorage.messages st))
           (MemStorage.topologyAnalyses st).
Proof.
  unfold Routes.postMessageBegin.
  destruct (content_cases content) as [(c0 & s0 & ->)|Hno].
  - destruct (MemStorage.getSession st sessionId) as [session0|] eqn:Hs;
      [|discriminate].
    cbn [MemStorage.createMessage InsertMessage.sessionId InsertMessage.role
           InsertMessage.content InsertMessage.topologyImpact
           InsertMessage.metadata].
    intros [= <- <-]. exists c0, s0, session0.
    split; [reflexivity|]. split; [reflexivity|]. split; reflexivity.
  - intros H. exfalso.
    destruct content as [[| | |[|c0 s0]| |]|]; try discriminate H.
    now elim (Hno c0 s0).
Qed.

(** The answer and the store after the completion request was answered,
    on whatever consistent store the handler resumes. *)
Lemma postMessageResume_answered (pending : Pending.t)
    (stMid : MemStorage.t) (env : Routes.PostEnv) (reply : option string) :
  MemStorage.consistent stMid ->
  Routes.completion env = Some reply ->
  let sessionId := Pending.sessionId pending in
  exists aiMessage topology analysis st',
    Routes.postMessageResume pending stMid env
    = (Routes.ok (JObj [("userMessage", toJSON (Pending.userMessage pending));
                        ("aiMessage", toJSON aiMessage);
                        ("topology", toJSON topology)]),
       st')
    /\ MemStorage.consistent st'
    /\ MemStorage.messages st'
       = JsMap.set (Routes.aiMessageId env) aiMessage
           (MemStorage.messages stMid)
    /\ Message.id aiMessage = Routes.aiMessageId env
    /\ Message.sessionId aiMessage = sessionId
    /\ Message.role aiMessage = assistant
    /\ Message.content aiMessage <> EmptyString
    /\ calculateTopology (MemStorage.getMessagesBySession st' sessionId)
       = Some topology
    /\ MemStorage.getTopologyAnalysis st' sessionId = Some analysis
    /\ analysis
       = TopologyAnalysis.mk (Routes.analysisId env) sessionId
           (TopologyPattern.pattern topology)
           (toJSON (TopologyPattern.primeFactors topology))
           (toJSON (TopologyPattern.structure topology))
           (TopologyPattern.complexity topology)
           (TopologyPattern.nestingDepth topology)
           (Routes.analysisTime env)
    /\ match MemStorage.getSession stMid sessionId with
       | Some row =>
           MemStorage.getSession st' sessionId
           = Some (Session.mk (Session.id row) (Session.title row)
                     (TopologyPattern.pattern topology)
                     (TopologyPattern.order topology)
                     (TopologyPattern.threads topology)
                     (Z.of_nat
                        (List.length
                           (MemStorage.getMessagesBySession st' sessionId)))
                     (Session.isActive row) (Session.createdAt row)
                     (Routes.updateTime env))
       | None => MemStorage.getSession st' sessionId = None
       end.
Proof.
  intros Hc Hreply. cbv zeta.
  unfold Routes.postMessageResume, generateChatResponse. rewrite Hreply.
  set (sessionId := Pending.sessionId pending).
  set (insAi := InsertMessage.mk sessionId assistant _ _ _).
  pose proof (consistent_createMessage stMid insAi (Routes.aiMessageId env)
                (Routes.aiMessageTime env) Hc) as Hc2.
  destruct (MemStorage.createMessage stMid insAi _ _)
    as [aiMessage st2] eqn:E2.
  injection E2 as <- <-.
  set (st2 := MemStorage.mk _ (JsMap.set (Routes.aiMessageId env) _ _) _)
    in *.
  destruct (calculateTopology_total
              (MemStorage.getMessagesBySession st2 sessionId))
    as [topology Htopology].
  rewrite Htopology.
  set (updates := SessionUpdates.mk None _ _ _ _ None).
  pose proof (consistent_updateSession st2 sessionId updates
                (Routes.updateTime env) Hc2) as Hc3.
  unfold MemStorage.getSession.
  change (MemStorage.sessions stMid) with (MemStorage.sessions st2).
  unfold MemStorage.updateSession in Hc3 |- *.
  destruct (JsMap.get sessionId (MemStorage.sessions st2)) as [row|] eqn:Hget;
    cbn [snd] in Hc3.
  - set (session := Session.mk _ _ _ _ _ _ _ _ _) in *.
    set (st3 := MemStorage.mk (JsMap.set sessionId session _) _ _) in *.
    set (insAnalysis := InsertTopologyAnalysis.mk sessionId _ _ _ _ _).
    pose proof (consistent_saveTopologyAnalysis st3 insAnalysis
                  (Routes.analysisId env) (Routes.analysisTime env) Hc3)
      as Hc4.
    pose proof (getTopologyAnalysis_after_save st3 insAnalysis
                  (Routes.analysisId env) (Routes.analysisTime env) Hc3)
      as Hfind.
    destruct (MemStorage.saveTopologyAnalysis st3 insAnalysis _ _)
      as [analysis st4] eqn:E4.
    injection E4 as <- <-. cbn [fst snd] in *.
    eexists _, topology, _, _.
    split; [reflexivity|]. split; [exact Hc4|].
    split; [reflexivity|]. split; [reflexivity|]. split; [reflexivity|].
    split; [reflexivity|].
    split; [cbn [Message.content InsertMessage.content insAi
                   ChatResponse.content];
            destruct reply as [[|]|]; discriminate|].
    split; [exact Htopology|]. split; [exact Hfind|].
    split; [reflexivity|].
    apply get_set_same.
  - set (insAnalysis := InsertTopologyAnalysis.mk sessionId _ _ _ _ _).
    pose proof (consistent_saveTopologyAnalysis st2 insAnalysis
                  (Routes.analysisId env) (Routes.analysisTime env) Hc3)
      as Hc4.
    pose proof (getTopologyAnalysis_after_save st2 insAnalysis
                  (Routes.analysisId env) (Routes.analysisTime env) Hc3)
      as Hfind.
    destruct (MemStorage.saveTopologyAnalysis st2 insAnalysis _ _)
      as [analysis st4] eqn:E4.
    injection E4 as <- <-. cbn [fst snd] in *.
    eexists _, topology, _, _.
    split; [reflexivity|]. split; [exact Hc4|].
    split; [reflexivity|]. split; [reflexivity|]. split; [reflexivity|].
    split; [reflexivity|].
    split; [cbn [Message.content InsertMessage.content insAi
                   ChatResponse.content];
            destruct reply as [[|]|]; discriminate|].
    split; [exact Htopology|]. split; [exact Hfind|].
    split; [reflexivity|].
    exact Hget.
Qed.

(** X21.  A posted message whose completion request is answered, on
    whatever consistent store the requests served during that request
    have left: the answer is 200, the assistant's message is stored and
    listed for the session, the store stays consistent, and the analysis
    stored for the session carries the pattern, complexity and nesting
    depth that [calculateTopology] gives for the messages then stored
    for the session.  If the session is still stored when the handler
    resumes, its row is put in step with these messages: pattern, order,
    thread count, their number as message count, and the time of the
    update, with title and creation time kept.  If it has been deleted
    meanwhile, no row is written, although the answer is 200 and the
    message and the analysis are stored for it.  The store the handler
    itself left holds the session. *)
Theorem postMessage_synchronises (st : MemStorage.t) (sessionId : string)
    (content : option json) (env : Routes.PostEnv) (pending : Pending.t)
    (st1 stMid : MemStorage.t) (reply : option string) :
  Routes.postMessageBegin st sessionId content env = (inr pending, st1) ->
  MemStorage.consistent stMid ->
  Routes.completion env = Some reply ->
  let response := fst (Routes.postMessageResume pending stMid env) in
  let st' := snd (Routes.postMessageResume pending stMid env) in
  let listed := MemStorage.getMessagesBySession st' sessionId in
  Routes.statusCode response = 200
  /\ MemStorage.consistent st'
  /\ (exists aiMessage,
        In aiMessage listed
        /\ Message.id aiMessage = Routes.aiMessageId env
        /\ Message.role aiMessage = assistant)
  /\ (exists topology analysis,
        calculateTopology listed = Some topology
        /\ MemStorage.getTopologyAnalysis st' sessionId = Some analysis
        /\ TopologyAnalysis.pattern analysis = TopologyPattern.pattern topology
        /\ TopologyAnalysis.complexity analysis
           = TopologyPattern.complexity topology
        /\ TopologyAnalysis.nestingDepth analysis
           = TopologyPattern.nestingDepth topology
        /\ match MemStorage.getSession stMid sessionId with
           | Some row =>
               exists session,
                 MemStorage.getSession st' sessionId = Some session
                 /\ Session.topologyPattern session
                    = TopologyPattern.pattern topology
                 /\ Session.topologyOrder session
                    = TopologyPattern.order topology
                 /\ Session.threadCount session
                    = TopologyPattern.threads topology
                 /\ Session.messageCount session
                    = Z.of_nat (List.length listed)
                 /\ Session.title session = Session.title row
                 /\ Session.createdAt session = Session.createdAt row
                 /\ Session.updatedAt session = Routes.updateTime env
           | None => MemStorage.getSession st' sessionId = None
           end)
  /\ (JsMap.has (Routes.aiMessageId env) (MemStorage.messages stMid) = false ->
      List.length listed
      = S (List.length (MemStorage.getMessagesBySession stMid sessionId)))
  /\ MemStorage.getSession st1 sessionId = Some (Pending.session pending).
Proof.
  intros Hbegin Hc Hreply. cbv zeta.
  destruct (postMessageBegin_suspended st sessionId content env pending st1
              Hbegin)
    as (c0 & s0 & session0 & _ & Hsession & Hpending & Hst1).
  assert (Hid : Pending.sessionId pending = sessionId)
    by now rewrite Hpending.
  destruct (postMessageResume_answered pending stMid env reply Hc Hreply)
    as (aiMessage & topology & analysis & st' & Hpost & Hc' & Hmessages
        & Haid & Hasid & Harole & _ & Htopology & Hfind & Hanalysis & Hrow).
  rewrite Hid in Hasid, Htopology, Hfind, Hanalysis, Hrow.
  rewrite Hpost. cbn [fst snd].
  split; [reflexivity|]. split; [exact Hc'|].
  split.
  { exists aiMessage. split; [|split; [exact Haid | exact Harole]].
    unfold MemStorage.getMessagesBySession. rewrite Hmessages.
    eapply Permutation_in; [symmetry; apply Array_sort_perm|].
    apply filter_In. split.
    - apply (get_in_values (Routes.aiMessageId env)). apply get_set_same.
    - rewrite Hasid. apply String.eqb_refl. }
  split.
  { exists topology, analysis.
    split; [exact Htopology|]. split; [exact Hfind|].
    split; [now rewrite Hanalysis|]. split; [now rewrite Hanalysis|].
    split; [now rewrite Hanalysis|].
    destruct (MemStorage.getSession stMid sessionId) as [row|];
      [|exact Hrow].
    eexists. split; [exact Hrow|].
    repeat split; reflexivity. }
  split.
  { intros Hfresh. rewrite !listed_length, Hmessages.
    rewrite values_set_fresh by exact Hfresh.
    rewrite filter_app, length_app. cbn [filter].
    rewrite Hasid, String.eqb_refl. cbn [List.length]. lia. }
  rewrite Hst1, Hpending. exact Hsession.
Qed.

Lemma postMessage_synchronises_witness :
  MemStorage.consistent
    (snd (Routes.postMessageResume demoPending demoSuspended demoEnv))
  /\ MemStorage.getSession demoSuspended "s1"
     = Some (Pending.session demoPending).
Proof.
  pose proof (postMessage_synchronises demoStore "s1" (Some (JStr "How so?"))
                demoEnv demoPending demoSuspended demoSuspended
                (Some "Because it is."))
    as H.
  cbv zeta in H.
  destruct H as (_ & Hconsistent & _ & _ & _ & Hheld).
  - reflexivity.
  - unfold demoSuspended. apply consistent_createMessage. demo_consistent.
  - reflexivity.
  - split; [exact Hconsistent | exact Hheld].
Defined.

(** X22.  When the completion request fails, the answer is 500 with the
    message of the reply service and the handler writes nothing more:
    the store is left exactly as the requests served meanwhile have left
    it, and the user's message is not taken back.  That message was
    stored before the completion was requested: in the store the handler
    left at that moment it is listed for the session, while the sessions
    and the analyses are as they were, so a row whose message count was
    right before the request (and a message identifier that was unused)
    is one short in that store. *)
Theorem postMessage_reply_failure (st : MemStorage.t) (sessionId : string)
    (content : option json) (env : Routes.PostEnv) (pending : Pending.t)
    (st1 stMid : MemStorage.t) :
  Routes.postMessageBegin st sessionId content env = (inr pending, st1) ->
  Routes.completion env = None ->
  Routes.postMessageResume pending stMid env
  = (Routes.fail 500
       "Failed to generate AI response. Please check your API key and try again.",
     stMid)
  /\ In (Pending.userMessage pending)
        (MemStorage.getMessagesBySession st1 sessionId)
  /\ Message.role (Pending.userMessage pending) = user
  /\ content = Some (JStr (Message.content (Pending.userMessage pending)))
  /\ MemStorage.getSession st1 sessionId = Some (Pending.session pending)
  /\ MemStorage.sessions st1 = MemStorage.sessions st
  /\ MemStorage.topologyAnalyses st1 = MemStorage.topologyAnalyses st
  /\ (JsMap.has (Routes.userMessageId env) (MemStorage.messages st) = false ->
      Session.messageCount (Pending.session pending)
      = Z.of_nat (List.length (MemStorage.getMessagesBySession st sessionId)) ->
      Session.messageCount (Pending.session pending)
      = Z.of_nat (List.length (MemStorage.getMessagesBySession st1 sessionId))
        - 1).
Proof.
  intros Hbegin Hreply.
  destruct (postMessageBegin_suspended st sessionId content env pending st1
              Hbegin)
    as (c0 & s0 & session0 & Hcontent & Hsession & Hpending & Hst1).
  split.
  { unfold Routes.postMessageResume, generateChatResponse.
    now rewrite Hreply. }
  rewrite Hpending, Hst1, Hcontent.
  cbn [Pending.userMessage Pending.session Message.role Message.content
         MemStorage.sessions MemStorage.topologyAnalyses].
  split; [apply (listed_after_set st (Routes.userMessageId env)
                   (Message.mk (Routes.userMessageId env) sessionId user
                      (String c0 s0) (Some "user_input") JNull
                      (Routes.userMessageTime env)))|].
  split; [reflexivity|]. split; [reflexivity|].
  split; [exact Hsession|].
  split; [reflexivity|]. split; [reflexivity|].
  intros Hfresh ->.
  rewrite !listed_length. cbn [MemStorage.messages].
  rewrite values_set_fresh by exact Hfresh.
  rewrite filter_app, length_app. cbn [filter Message.sessionId].
  rewrite String.eqb_refl. cbn [List.length]. lia.
Qed.

Lemma postMessage_reply_failure_witness :
  Routes.statusCode
    (fst (Routes.postMessageResume demoPending
            (snd (MemStorage.deleteSession demoSuspended "s1"))
            (Routes.mkPostEnv "m2" (mkDate 40) None "m3" (mkDate 50)
               (mkDate 60) "a2" (mkDate 70))))
  = 500
  /\ In (Pending.userMessage demoPending)
        (MemStorage.getMessagesBySession demoSuspended "s1").
Proof.
  pose proof (postMessage_reply_failure demoStore "s1"
                (Some (JStr "How so?"))
                (Routes.mkPostEnv "m2" (mkDate 40) None "m3" (mkDate 50)
                   (mkDate 60) "a2" (mkDate 70))
                demoPending demoSuspended
                (snd (MemStorage.deleteSession demoSuspended "s1"))
                eq_refl eq_refl)
    as (Hresponse & Hlisted & _).
  split; [now rewrite Hresponse | exact Hlisted].
Defined.

(** What [GET /api/sessions/:id/export] sends for a stored session. *)
Lemma getExport_found (st : MemStorage.t) (id : string) (w : World)
    (session : Session.t) :
  MemStorage.getSession st id = Some session ->
  exists topology text,
    calculateTopology (MemStorage.getMessagesBySession st id) = Some topology
    /\ Routes.getExport st id w
       = Routes.mkResponse 200
           [("Content-Type", "application/json");
            ("Content-Disposition",
             "attachment; filename=" ++ String JSON.dquote
               ("session_" ++ id ++ ".json"
                  ++ String JSON.dquote EmptyString))]
           (Routes.Text text)
    /\ JSON.parse text
       = Some (sessionData id session (MemStorage.getMessagesBySession st id)
                 topology (toISOString (clock w))).
Proof.
  intros Hsession.
  destruct (calculateTopology_total (MemStorage.getMessagesBySession st id))
    as [topology Htopology].
  exists topology,
    (exportSessionToJson id session (MemStorage.getMessagesBySession st id)
       topology w).
  split; [exact Htopology|].
  split; [|apply parse_export].
  unfold Routes.getExport. now rewrite Hsession, Htopology.
Qed.

(** X23.  A session created through [POST /api/sessions] and not yet
    written to is described in two ways: its stored row says pattern
    [s1={[()]}], order 1 and one thread, while the document exported for
    it says pattern [s0={}], order 0 and no thread, since the export
    classifies the (empty) list of its messages anew. *)
Theorem new_session_row_and_export_differ (st : MemStorage.t)
    (title : option json) (zodMessage id : string) (now : Date) (w : World) :
  MemStorage.getMessagesBySession st id = [] ->
  Routes.statusCode (fst (Routes.postSession st title zodMessage id now))
  = 200 ->
  let st' := snd (Routes.postSession st title zodMessage id now) in
  exists session text doc topo,
    MemStorage.getSession st' id = Some session
    /\ Session.topologyPattern session = "s1={[()]}"
    /\ Session.topologyOrder session = 1
    /\ Session.threadCount session = 1
    /\ Routes.statusCode (Routes.getExport st' id w) = 200
    /\ Routes.body (Routes.getExport st' id w) = Routes.Text text
    /\ JSON.parse text = Some doc
    /\ JSON.get "topology" doc = Some topo
    /\ JSON.get "pattern" topo = Some (JStr "s0={}")
    /\ JSON.get "order" topo = Some (JNum 0)
    /\ JSON.get "threads" topo = Some (JNum 0).
Proof.
  intros Hnone Hstatus. cbv zeta.
  assert (Hcreated : exists text,
    Routes.postSession st title zodMessage id now
    = (Routes.ok
         (toJSON (fst (MemStorage.createSession st
                         (InsertSession.mk text (Some "s1={[()]}") (Some 1)
                            (Some 1) (Some 0) (Some "true")) id now))),
       snd (MemStorage.createSession st
              (InsertSession.mk text (Some "s1={[()]}") (Some 1)
                 (Some 1) (Some 0) (Some "true")) id now))).
  { unfold Routes.postSession in *.
    destruct title as [v|]; [|eexists; reflexivity].
    destruct v as [|b|n|s|l|l]; cbn [truthy] in *;
      try (eexists; reflexivity); try discriminate.
    - destruct b; [discriminate | eexists; reflexivity].
    - destruct (n =? 0); [eexists; reflexivity | discriminate].
    - destruct (String.eqb s EmptyString); eexists; reflexivity. }
  destruct Hcreated as [text0 ->]. cbn [snd].
  set (st' := snd (MemStorage.createSession st _ id now)).
  assert (Hget : MemStorage.getSession st' id
                 = Some (fst (MemStorage.createSession st
                                (InsertSession.mk text0 (Some "s1={[()]}")
                                   (Some 1) (Some 1) (Some 0) (Some "true"))
                                id now)))
    by apply get_set_same.
  destruct (getExport_found st' id w _ Hget)
    as (topology & text & Htopology & Hexport & Hparse).
  assert (Hlisted : MemStorage.getMessagesBySession st' id = [])
    by exact Hnone.
  rewrite Hlisted in Htopology, Hparse.
  injection Htopology as <-.
  eexists _, text, _, _.
  split; [exact Hget|].
  split; [reflexivity|]. split; [reflexivity|]. split; [reflexivity|].
  rewrite Hexport.
  split; [reflexivity|]. split; [reflexivity|].
  split; [exact Hparse|].
  repeat split; reflexivity.
Qed.

Lemma new_session_row_and_export_differ_witness :
  exists session text doc topo,
    MemStorage.getSession
      (snd (Routes.postSession MemStorage.create None "Required" "s9"
              (mkDate 5)))
      "s9" = Some session
    /\ Session.topologyPattern session = "s1={[()]}"
    /\ Session.topologyOrder session = 1
    /\ Session.threadCount session = 1
    /\ Routes.statusCode
         (Routes.getExport
            (snd (Routes.postSession MemStorage.create None "Required" "s9"
                    (mkDate 5)))
            "s9" (mkWorld (mkDate 7))) = 200
    /\ Routes.body
         (Routes.getExport
            (snd (Routes.postSession MemStorage.create None "Required" "s9"
                    (mkDate 5)))
            "s9" (mkWorld (mkDate 7))) = Routes.Text text
    /\ JSON.parse text = Some doc
    /\ JSON.get "topology" doc = Some topo
    /\ JSON.get "pattern" topo = Some (JStr "s0={}")
    /\ JSON.get "order" topo = Some (JNum 0)
    /\ JSON.get "threads" topo = Some (JNum 0).
Proof.
  apply (new_session_row_and_export_differ MemStorage.create None "Required"
           "s9" (mkDate 5) (mkWorld (mkDate 7))); reflexivity.
Defined.

(** X24.  [GET /api/sessions/:id/export] answers 404 for an unknown
    session and 200 for every stored one, never 500: the classifier
    returns for whatever messages are stored.  The body sent with 200
    parses as JSON to a document that names the session, lists one entry
    per stored message of the session and carries the classification of
    exactly these messages; the file name offered for the download is
    [session_<id>.json]. *)
Theorem getExport_answers (st : MemStorage.t) (id : string) (w : World) :
  let response := Routes.getExport st id w in
  let listed := MemStorage.getMessagesBySession st id in
  (MemStorage.getSession st id = None
   /\ response = Routes.fail 404 "Session not found")
  \/ (exists session topology text doc topo items,
        MemStorage.getSession st id = Some session
        /\ calculateTopology listed = Some topology
        /\ Routes.statusCode response = 200
        /\ Routes.body response = Routes.Text text
        /\ In ("Content-Disposition",
               "attachment; filename=" ++ String JSON.dquote
                 ("session_" ++ id ++ ".json"
                    ++ String JSON.dquote EmptyString))
              (Routes.headers response)
        /\ JSON.parse text = Some doc
        /\ JSON.get "session_id" doc = Some (JStr id)
        /\ JSON.get "title" doc = Some (JStr (Session.title session))
        /\ JSON.get "topology" doc = Some topo
        /\ JSON.get "pattern" topo
           = Some (JStr (TopologyPattern.pattern topology))
        /\ JSON.get "complexity" topo
           = Some (JStr (TopologyPattern.complexity topology))
        /\ JSON.get "messages" doc = Some (JArr items)
        /\ map (JSON.get "id") items
           = map (fun m => Some (JStr (Message.id m))) listed).
Proof.
  cbv zeta.
  destruct (MemStorage.getSession st id) as [session|] eqn:Hsession.
  - right.
    destruct (getExport_found st id w session Hsession)
      as (topology & text & Htopology & Hexport & Hparse).
    exists session, topology, text.
    eexists _, _, _.
    split; [reflexivity|]. split; [exact Htopology|].
    rewrite Hexport.
    split; [reflexivity|]. split; [reflexivity|].
    split; [right; left; reflexivity|].
    split; [exact Hparse|].
    split; [reflexivity|]. split; [reflexivity|]. split; [reflexivity|].
    split; [reflexivity|]. split; [reflexivity|]. split; [reflexivity|].
    rewrite map_map. apply map_ext. intros m. reflexivity.
  - left. split; [reflexivity|].
    unfold Routes.getExport. now rewrite Hsession.
Qed.

(** X25.  The export of the store a posted and answered message has
    left.  If the session was still stored when the handler resumed,
    the exported document and the session row agree: the document's
    pattern, order and thread count are those of the row, its
    [total_messages] is the row's message count and its [updated_at] is
    the time of the row's update.  If the session was deleted while the
    handler waited, the post is answered with 200 all the same and the
    export answers 404. *)
Theorem export_agrees_with_row_after_post (st : MemStorage.t)
    (sessionId : string) (content : option json) (env : Routes.PostEnv)
    (pending : Pending.t) (st1 stMid : MemStorage.t)
    (reply : option string) (w : World) :
  Routes.postMessageBegin st sessionId content env = (inr pending, st1) ->
  MemStorage.consistent stMid ->
  Routes.completion env = Some reply ->
  let response := fst (Routes.postMessageResume pending stMid env) in
  let st' := snd (Routes.postMessageResume pending stMid env) in
  Routes.statusCode response = 200
  /\ match MemStorage.getSession stMid sessionId with
     | Some _ =>
         exists session text doc topo meta,
           MemStorage.getSession st' sessionId = Some session
           /\ Routes.getExport st' sessionId w
              = Routes.mkResponse 200
                  (Routes.headers (Routes.getExport st' sessionId w))
                  (Routes.Text text)
           /\ JSON.parse text = Some doc
           /\ JSON.get "topology" doc = Some topo
           /\ JSON.get "pattern" topo
              = Some (JStr (Session.topologyPattern session))
           /\ JSON.get "order" topo
              = Some (JNum (Session.topologyOrder session))
           /\ JSON.get "threads" topo
              = Some (JNum (Session.threadCount session))
           /\ JSON.get "metadata" doc = Some meta
           /\ JSON.get "total_messages" meta
              = Some (JNum (Session.messageCount session))
           /\ JSON.get "updated_at" meta
              = Some (JStr (toISOString (Routes.updateTime env)))
     | None =>
         Routes.getExport st' sessionId w
         = Routes.fail 404 "Session not found"
     end.
Proof.
  intros Hbegin Hc Hreply. cbv zeta.
  destruct (postMessageBegin_suspended st sessionId content env pending st1
              Hbegin)
    as (c0 & s0 & session0 & _ & _ & Hpending & _).
  assert (Hid : Pending.sessionId pending = sessionId)
    by now rewrite Hpending.
  destruct (postMessageResume_answered pending stMid env reply Hc Hreply)
    as (aiMessage & topology & analysis & st' & Hpost & _ & _ & _ & _ & _ & _
        & Htopology & _ & _ & Hrow).
  rewrite Hid in Htopology, Hrow.
  rewrite Hpost. cbn [fst snd].
  split; [reflexivity|].
  destruct (MemStorage.getSession stMid sessionId) as [row|].
  - destruct (getExport_found st' sessionId w _ Hrow)
      as (topology' & text & Htopology' & Hexport & Hparse).
    rewrite Htopology in Htopology'. injection Htopology' as <-.
    eexists _, text, _, _, _.
    split; [exact Hrow|].
    split; [rewrite Hexport; reflexivity|].
    split; [exact Hparse|].
    split; [reflexivity|]. split; [reflexivity|]. split; [reflexivity|].
    split; [reflexivity|]. split; [reflexivity|]. split; reflexivity.
  - unfold Routes.getExport. now rewrite Hrow.
Qed.

Lemma export_agrees_with_row_after_post_witness :
  Routes.statusCode
    (fst (Routes.postMessageResume demoPending
            (snd (MemStorage.deleteSession demoSuspended "s1")) demoEnv))
  = 200
  /\ Routes.getExport
       (snd (Routes.postMessageResume demoPending
               (snd (MemStorage.deleteSession demoSuspended "s1")) demoEnv))
       "s1" (mkWorld (mkDate 80))
     = Routes.fail 404 "Session not found".
Proof.
  pose proof (export_agrees_with_row_after_post demoStore "s1"
                (Some (JStr "How so?")) demoEnv demoPending demoSuspended
                (snd (MemStorage.deleteSession demoSuspended "s1"))
                (Some "Because it is.") (mkWorld (mkDate 80)))
    as H.
  cbv zeta in H.
  destruct H as (Hstatus & Hexport).
  - reflexivity.
  - apply consistent_deleteSession. unfold demoSuspended.
    apply consistent_createMessage. demo_consistent.
  - reflexivity.
  - split; [exact Hstatus | exact Hexport].
Defined.

(** X26.  [POST /api/sessions] answers 200 or 400, and 400 exactly when
    the title sent is truthy but not a string; the store is then left as
    it was.  A missing or falsy title (the empty string, [null], [0],
    [false]) is replaced by [New Chat Session], so the title of a created
    session is never empty.  The created session is the one sent back,
    it can be fetched under its identifier, starts with no messages
    counted, active, created and updated at the same time, and no other
    session is affected. *)
Theorem postSession_answers (st : MemStorage.t) (title : option json)
    (zodMessage id : string) (now : Date) :
  let response := fst (Routes.postSession st title zodMessage id now) in
  let st' := snd (Routes.postSession st title zodMessage id now) in
  let refused :=
    exists v, title = Some v /\ truthy v = true /\ forall s, v <> JStr s in
  (refused /\ response = Routes.fail 400 zodMessage /\ st' = st)
  \/ (~ refused
      /\ exists session,
           response = Routes.ok (toJSON session)
           /\ MemStorage.getSession st' id = Some session
           /\ Session.title session <> EmptyString
           /\ (title = Some (JStr (Session.title session))
               \/ Session.title session = "New Chat Session"
                  /\ forall v, title = Some v -> truthy v = false)
           /\ Session.messageCount session = 0
           /\ Session.isActive session = "true"
           /\ Session.createdAt session = now
           /\ Session.updatedAt session = now
           /\ MemStorage.messages st' = MemStorage.messages st
           /\ MemStorage.topologyAnalyses st' = MemStorage.topologyAnalyses st
           /\ forall other,
               other <> id ->
               MemStorage.getSession st' other
               = MemStorage.getSession st other).
Proof.
  cbv zeta.
  assert (Hcreate : forall text fromTitle,
    text <> EmptyString ->
    (title = Some (JStr text)
     \/ text = "New Chat Session"
        /\ forall v, title = Some v -> truthy v = false) ->
    Routes.postSession st title zodMessage id now
    = (let '(session, st') :=
         MemStorage.createSession st
           (InsertSession.mk text (Some "s1={[()]}") (Some 1) (Some 1)
              (Some 0) (Some "true")) id now in
       (Routes.ok (toJSON session), st')) ->
    fromTitle = title ->
    (~ exists v, fromTitle = Some v /\ truthy v = true
                 /\ forall s, v <> JStr s) ->
    exists session,
      fst (Routes.postSession st title zodMessage id now)
      = Routes.ok (toJSON session)
      /\ MemStorage.getSession
           (snd (Routes.postSession st title zodMessage id now)) id
         = Some session
      /\ Session.title session <> EmptyString
      /\ (title = Some (JStr (Session.title session))
          \/ Session.title session = "New Chat Session"
             /\ forall v, title = Some v -> truthy v = false)
      /\ Session.messageCount session = 0
      /\ Session.isActive session = "true"
      /\ Session.createdAt session = now
      /\ Session.updatedAt session = now
      /\ MemStorage.messages
           (snd (Routes.postSession st title zodMessage id now))
         = MemStorage.messages st
      /\ MemStorage.topologyAnalyses
           (snd (Routes.postSession st title zodMessage id now))
         = MemStorage.topologyAnalyses st
      /\ forall other,
          other <> id ->
          MemStorage.getSession
            (snd (Routes.postSession st title zodMessage id now)) other
          = MemStorage.getSession st other).
  { intros text fromTitle Htext Htitle -> _ _.
    cbn [MemStorage.createSession fst snd InsertSession.title
           InsertSession.topologyPattern InsertSession.topologyOrder
           InsertSession.threadCount InsertSession.messageCount
           InsertSession.isActive or_string or_number].
    eexists. split; [reflexivity|].
    split; [apply get_set_same|].
    split; [exact Htext|]. split; [exact Htitle|].
    repeat (split; [reflexivity|]).
    intros other Hne. now apply get_set_other. }
  destruct title as [v|].
  2:{ right. split; [intros (v & E & _); discriminate|].
      apply (Hcreate "New Chat Session" None); try reflexivity.
      - discriminate.
      - right. split; [reflexivity | intros v E; discriminate].
      - intros (v & E & _); discriminate. }
  destruct (truthy v) eqn:Htruthy.
  - destruct v as [|b|n|s|l|l];
      try (cbn in Htruthy; discriminate Htruthy);
      try (left; split;
           [eexists; split; [reflexivity|]; split; [exact Htruthy|];
            intros s' Habs; discriminate Habs|];
           unfold Routes.postSession; rewrite Htruthy; split; reflexivity).
    right. split; [intros (v & E & _ & Hno); injection E as E;
                   now elim (Hno s)|].
    apply (Hcreate s (Some (JStr s))); try reflexivity.
    + intros ->. discriminate.
    + now left.
    + unfold Routes.postSession. now rewrite Htruthy.
    + intros (v & E & _ & Hno). injection E as E. now elim (Hno s).
  - right.
    split; [intros (v' & E & Ht & _); injection E as <-; congruence|].
    apply (Hcreate "New Chat Session" (Some v)); try reflexivity.
    + discriminate.
    + right. split; [reflexivity|]. intros v' E. injection E as <-.
      exact Htruthy.
    + unfold Routes.postSession. now rewrite Htruthy.
    + intros (v' & E & Ht & _). injection E as <-. congruence.
Qed.

(** ** The request logger *)

Lemma prefix_cons (a b : ascii) (n s : string) :
  String.prefix (String a n) (String b s) = Ascii.eqb a b && String.prefix n s.
Proof.
  cbn [String.prefix]. destruct (ascii_dec a b) as [->|Hne].
  - now rewrite Ascii.eqb_refl.
  - apply Ascii.eqb_neq in Hne. now rewrite Hne.
Qed.

Lemma includes_cons (c : ascii) (s n : string) :
  JS.includes (String c s) n
  = String.prefix n (String c s) || JS.includes s n.
Proof. reflexivity. Qed.

Lemma includes_slash (c : ascii) (s : string) :
  JS.includes (String c s) "/" = Ascii.eqb "/" c || JS.includes s "/".
Proof.
  rewrite includes_cons, prefix_cons.
  destruct s; cbn [String.prefix]; now rewrite andb_true_r.
Qed.

Lemma stripPrefix_app (p s rest : string) :
  stripPrefix p s = Some rest <-> s = p ++ rest.
Proof.
  revert s. induction p as [|a p IH]; intros s; cbn.
  - split; [now intros [= ->] | now intros ->].
  - destruct s as [|b s]; [split; discriminate|].
    destruct (Ascii.eqb_spec a b) as [->|Hne].
    + rewrite IH. split; [now intros -> | now intros [= ->]].
    + split; [discriminate | intros [= E _]; now elim Hne].
Qed.

Lemma stripPrefix_prefix (p s : string) :
  String.prefix p s = true <-> exists rest, stripPrefix p s = Some rest.
Proof.
  revert s. induction p as [|a p IH]; intros s.
  - destruct s; cbn; split; eauto.
  - destruct s as [|b s]; [cbn; split; [discriminate | now intros [? ?]]|].
    rewrite prefix_cons. cbn [stripPrefix].
    destruct (Ascii.eqb a b); [apply IH|].
    cbn. split; [discriminate | now intros [? ?]].
Qed.

Lemma prefix_within (n a b : string) :
  (String.length n <= String.length a)%nat ->
  String.prefix n (a ++ b) = String.prefix n a.
Proof.
  revert a. induction n as [|c n IH]; intros a Hlen.
  - destruct a, b; reflexivity.
  - destruct a as [|d a]; [cbn in Hlen; lia|].
    cbn [append]. rewrite !prefix_cons, IH; [reflexivity|].
    cbn in Hlen. lia.
Qed.

Lemma untilSlash_prefix (s : string) : String.prefix (untilSlash s) s = true.
Proof.
  induction s as [|c s IH]; [reflexivity|]. cbn [untilSlash].
  destruct (Ascii.eqb c "/"); [reflexivity|].
  now rewrite prefix_cons, Ascii.eqb_refl.
Qed.

Lemma untilSlash_no_slash (s : string) :
  JS.includes (untilSlash s) "/" = false.
Proof.
  induction s as [|c s IH]; [reflexivity|]. cbn [untilSlash].
  destruct (Ascii.eqb c "/") eqn:E; [reflexivity|].
  rewrite includes_slash, IH, Ascii.eqb_sym, E. reflexivity.
Qed.

Lemma untilSlash_app (id rest : string) :
  JS.includes id "/" = false ->
  untilSlash (id ++ rest) = id ++ untilSlash rest.
Proof.
  induction id as [|c id IH]; intros Hno; [reflexivity|].
  rewrite includes_slash in Hno. apply orb_false_iff in Hno as [Hc Hid].
  cbn [append untilSlash]. rewrite Ascii.eqb_sym, Hc. now rewrite IH.
Qed.

Lemma prefix_includes (n s : string) :
  String.prefix n s = true -> JS.includes s n = true.
Proof. intros H. destruct s; cbn [JS.includes]; now rewrite H. Qed.

(** The match of the pattern at the start of a text. *)
Lemma sessionsPatternAt_some (s id : string) :
  sessionsPatternAt s = Some id ->
  id <> EmptyString
  /\ JS.includes id "/" = false
  /\ String.prefix ("/sessions/" ++ id) s = true.
Proof.
  unfold sessionsPatternAt.
  destruct (stripPrefix "/sessions/" s) as [rest|] eqn:E; [|discriminate].
  apply stripPrefix_app in E. subst s.
  pose proof (untilSlash_no_slash rest) as Hno.
  pose proof (untilSlash_prefix rest) as Hpre.
  destruct (untilSlash rest) as [|c found]; [discriminate|].
  intros [= <-].
  split; [discriminate|]. split; [exact Hno|].
  now rewrite prefix_append.
Qed.

Lemma sessionsPatternAt_none (s : string) (c : ascii) :
  sessionsPatternAt s = None ->
  String.prefix ("/sessions/" ++ String c EmptyString) s = true ->
  c = "/"%char.
Proof.
  unfold sessionsPatternAt. intros Hnone Hpre.
  apply stripPrefix_prefix in Hpre as [rest Hrest].
  apply stripPrefix_app in Hrest. change ("/sessions/" ++ String c EmptyString ++ rest) with ("/sessions/" ++ String c rest) in Hrest.
  assert (E : stripPrefix "/sessions/" s = Some (String c rest))
    by (apply stripPrefix_app; rewrite Hrest; reflexivity).
  rewrite E in Hnone. cbn [untilSlash] in Hnone.
  destruct (Ascii.eqb_spec c "/") as [->|_]; [reflexivity | discriminate].
Qed.

Lemma extractSessionId_found (url id : string) :
  extractSessionId url = Some id ->
  id <> EmptyString
  /\ JS.includes id "/" = false
  /\ JS.includes url ("/sessions/" ++ id) = true.
Proof.
  induction url as [|c url IH]; cbn [extractSessionId].
  - destruct (sessionsPatternAt EmptyString) eqn:E; [|discriminate].
    intros [= ->]. apply sessionsPatternAt_some in E as (H1 & H2 & H3).
    split; [exact H1|]. split; [exact H2|]. now apply prefix_includes.
  - destruct (sessionsPatternAt (String c url)) eqn:E.
    + intros [= ->]. apply sessionsPatternAt_some in E as (H1 & H2 & H3).
      split; [exact H1|]. split; [exact H2|]. now apply prefix_includes.
    + intros H. destruct (IH H) as (H1 & H2 & H3).
      split; [exact H1|]. split; [exact H2|].
      rewrite includes_cons, H3. apply orb_true_r.
Qed.

Lemma extractSessionId_none (url : string) (c : ascii) :
  extractSessionId url = None ->
  JS.includes url ("/sessions/" ++ String c EmptyString) = true ->
  c = "/"%char.
Proof.
  induction url as [|d url IH]; cbn [extractSessionId].
  - intros _ H. discriminate H.
  - destruct (sessionsPatternAt (String d url)) eqn:E; [discriminate|].
    intros Hnone. rewrite includes_cons. intros H.
    apply orb_true_iff in H as [H|H].
    + now apply (sessionsPatternAt_none (String d url)).
    + now apply IH.
Qed.

Lemma extractSessionId_cons (c : ascii) (s : string) :
  extractSessionId (String c s)
  = match sessionsPatternAt (String c s) with
    | Some id => Some id
    | None => extractSessionId s
    end.
Proof. reflexivity. Qed.

Lemma extractSessionId_recovers (p id rest : string) :
  JS.includes (p ++ "/sessions") "/sessions/" = false ->
  id <> EmptyString ->
  JS.includes id "/" = false ->
  rest = EmptyString \/ (exists r, rest = String "/" r) ->
  extractSessionId (p ++ "/sessions/" ++ id ++ rest) = Some id.
Proof.
  intros Hp Hid Hno Hrest.
  assert (Hhere : sessionsPatternAt ("/sessions/" ++ id ++ rest) = Some id).
  { unfold sessionsPatternAt.
    assert (E : stripPrefix "/sessions/" ("/sessions/" ++ id ++ rest)
                = Some (id ++ rest)) by now apply stripPrefix_app.
    rewrite E, untilSlash_app by exact Hno.
    assert (Hstop : untilSlash rest = EmptyString)
      by (destruct Hrest as [->|[r ->]]; reflexivity).
    rewrite Hstop, append_nil_r.
    destruct id; [now elim Hid | reflexivity]. }
  induction p as [|c p IH].
  - cbn [append] in *. destruct id as [|d id]; [now elim Hid|].
    cbn [extractSessionId append]. cbn [append] in Hhere. now rewrite Hhere.
  - cbn [append] in Hp. rewrite includes_cons in Hp.
    apply orb_false_iff in Hp as [Hpre Hp].
    change (String c p ++ "/sessions/" ++ id ++ rest)
      with (String c (p ++ "/sessions/" ++ id ++ rest)).
    rewrite extractSessionId_cons.
    assert (Hnot : sessionsPatternAt
                     (String c (p ++ "/sessions/" ++ id ++ rest)) = None).
    { unfold sessionsPatternAt.
      destruct (stripPrefix "/sessions/"
                  (String c (p ++ "/sessions/" ++ id ++ rest)))
        as [after|] eqn:E; [|reflexivity].
      assert (Hyes : String.prefix "/sessions/"
                       (String c (p ++ "/sessions/" ++ id ++ rest)) = true)
        by (apply stripPrefix_prefix; now exists after).
      change (String c (p ++ "/sessions/" ++ id ++ rest))
        with (String c p ++ "/sessions/" ++ id ++ rest) in Hyes.
      replace (String c p ++ "/sessions/" ++ id ++ rest)
        with ((String c p ++ "/sessions") ++ "/" ++ id ++ rest) in Hyes
        by (rewrite !append_assoc; reflexivity).
      rewrite prefix_within in Hyes.
      - cbn [append] in Hyes. congruence.
      - rewrite length_append. cbn [String.length]. lia. }
    rewrite Hnot. now apply IH.
Qed.

(** X27.  [extractSessionId] returns the text between the first
    [/sessions/] that is followed by something else than a slash and the
    next slash (or the end): what it returns is never empty, holds no
    slash and does follow [/sessions/] in the address, and it returns
    nothing only when every [/sessions/] of the address is followed by a
    slash or by nothing.  So the identifier of a session route is
    recovered whatever follows it after a slash, while a query string,
    which follows without one, is returned as part of the identifier. *)
Theorem extractSessionId_spec (url : string) :
  match extractSessionId url with
  | Some id =>
      id <> EmptyString
      /\ JS.includes id "/" = false
      /\ JS.includes url ("/sessions/" ++ id) = true
  | None =>
      forall c,
        JS.includes url ("/sessions/" ++ String c EmptyString) = true ->
        c = "/"%char
  end
  /\ (forall p id rest,
        JS.includes (p ++ "/sessions") "/sessions/" = false ->
        id <> EmptyString ->
        JS.includes id "/" = false ->
        rest = EmptyString \/ (exists r, rest = String "/" r) ->
        extractSessionId (p ++ "/sessions/" ++ id ++ rest) = Some id)
  /\ (forall id query,
        id <> EmptyString ->
        JS.includes id "/" = false ->
        JS.includes query "/" = false ->
        extractSessionId ("/api/sessions/" ++ id ++ "?" ++ query)
        = Some (id ++ "?" ++ query)).
Proof.
  split.
  { destruct (extractSessionId url) as [id|] eqn:E.
    - now apply extractSessionId_found.
    - intros c. now apply extractSessionId_none. }
  split; [exact extractSessionId_recovers|].
  intros id query Hid Hno Hq.
  replace ("/api/sessions/" ++ id ++ "?" ++ query)
    with ("/api" ++ "/sessions/" ++ (id ++ "?" ++ query) ++ EmptyString)
    by (rewrite append_nil_r; reflexivity).
  apply extractSessionId_recovers.
  - reflexivity.
  - destruct id; [now elim Hid | discriminate].
  - clear Hid. induction id as [|c id IH].
    + cbn [append]. now rewrite includes_slash, Hq.
    + rewrite includes_slash in Hno.
      apply orb_false_iff in Hno as [Hc Hno].
      change (String c id ++ "?" ++ query)
        with (String c (id ++ "?" ++ query)).
      now rewrite includes_slash, Hc, IH.
  - now left.
Qed.

Lemma uuidChar_other (c d : ascii) :
  uuidChar c = true -> uuidChar d = false -> Ascii.eqb d c = false.
Proof.
  intros Hc Hd. destruct (Ascii.eqb_spec d c) as [->|_];
    [congruence | reflexivity].
Qed.

Lemma includes_skip_uuid (id rest : string) (d : ascii) (n : string) :
  uuidLike id = true ->
  uuidChar d = false ->
  JS.includes (id ++ rest) (String d n) = JS.includes rest (String d n).
Proof.
  intros Hid Hd. induction id as [|c id IH]; [reflexivity|].
  cbn [uuidLike] in Hid. apply andb_true_iff in Hid as [Hc Hid].
  cbn [append]. rewrite includes_cons, prefix_cons.
  rewrite (uuidChar_other c d Hc Hd). cbn [andb orb]. now apply IH.
Qed.

Lemma uuidLike_no_slash (id : string) :
  uuidLike id = true -> JS.includes id "/" = false.
Proof.
  intros Hid. rewrite <- (append_nil_r id).
  now rewrite includes_skip_uuid.
Qed.

(** Where a marker that starts with a slash can occur in the address of
    a session route. *)
Lemma includes_session_route (id suffix : string) (x : ascii) (n : string) :
  uuidLike id = true ->
  id <> EmptyString ->
  uuidChar x = false ->
  Ascii.eqb x "a" = false ->
  Ascii.eqb x "s" = false ->
  JS.includes ("/api/sessions/" ++ id ++ suffix) (String "/" (String x n))
  = JS.includes suffix (String "/" (String x n)).
Proof.
  intros Hid Hne Hx Ha Hs.
  destruct id as [|c id]; [now elim Hne|].
  cbn [uuidLike] in Hid. apply andb_true_iff in Hid as [Hc Hid].
  pose proof (uuidChar_other c x Hc Hx) as Hxc.
  pose proof (uuidChar_other c "/" Hc eq_refl) as Hslash.
  cbn [append].
  rewrite !includes_cons, !prefix_cons, Ha, Hs, Hxc, Hslash.
  cbn [Ascii.eqb Bool.eqb andb orb].
  now apply includes_skip_uuid.
Qed.

Lemma extractSessionId_route (id suffix : string) :
  uuidLike id = true ->
  id <> EmptyString ->
  suffix = EmptyString \/ (exists r, suffix = String "/" r) ->
  extractSessionId ("/api/sessions/" ++ id ++ suffix) = Some id.
Proof.
  intros Hid Hne Hsuffix.
  apply (extractSessionId_recovers "/api" id suffix);
    [reflexivity | exact Hne | now apply uuidLike_no_slash | exact Hsuffix].
Qed.

(** X28.  What the logger mirrors under [chat/] for the routes of a
    session whose identifier is made of hexadecimal digits and dashes,
    when the answer's status is below 400: the session, its messages
    and its topology go to the files of that session; the answer of the
    export route is taken for the session itself and written to its
    [session.json]; a deletion takes no branch that touches a file of
    the session.  An answer with status 400 or more is not mirrored at
    all. *)
Theorem logToChatStructure_routes (id method : string) (statusCode : Z) :
  uuidLike id = true ->
  id <> EmptyString ->
  statusCode < 400 ->
  let route := fun suffix => "/api/sessions/" ++ id ++ suffix in
  logToChatStructure (route EmptyString) "GET" statusCode
  = Some (SessionFile id)
  /\ logToChatStructure (route "/messages") "GET" statusCode
     = Some (MessagesFiles id)
  /\ logToChatStructure (route "/messages") "POST" statusCode
     = Some (NewMessageFiles id)
  /\ logToChatStructure (route "/topology") "GET" statusCode
     = Some (TopologyFile id)
  /\ logToChatStructure (route "/export") "GET" statusCode
     = Some (SessionFile id)
  /\ logToChatStructure (route EmptyString) "DELETE" statusCode
     = Some NoFiles
  /\ forall url code, 400 <= code -> logToChatStructure url method code = None.
Proof.
  intros Hid Hne Hstatus. cbv zeta.
  assert (Hcode : (statusCode >=? 400) = false)
    by (rewrite Z.geb_leb; now apply Z.leb_gt).
  assert (Hsessions : forall suffix,
            JS.includes ("/api/sessions/" ++ id ++ suffix) "/sessions" = true).
  { intros suffix. cbn [append].
    rewrite !includes_cons, !prefix_cons.
    cbn [Ascii.eqb Bool.eqb andb orb String.prefix]. reflexivity. }
  assert (Hlist : forall suffix,
            String.eqb ("/api/sessions/" ++ id ++ suffix) "/api/sessions"
            = false) by reflexivity.
  assert (Hmessages : forall suffix,
            JS.includes ("/api/sessions/" ++ id ++ suffix) "/messages"
            = JS.includes suffix "/messages")
    by (intros suffix; now apply includes_session_route).
  assert (Htopology : forall suffix,
            JS.includes ("/api/sessions/" ++ id ++ suffix) "/topology"
            = JS.includes suffix "/topology")
    by (intros suffix; now apply includes_session_route).
  assert (Hfound : forall suffix,
            suffix = EmptyString \/ (exists r, suffix = String "/" r) ->
            extractSessionId ("/api/sessions/" ++ id ++ suffix) = Some id)
    by (intros suffix; now apply extractSessionId_route).
  unfold logToChatStructure. rewrite Hcode.
  rewrite !Hsessions, !Hmessages, !Htopology, !Hlist.
  rewrite (Hfound EmptyString) by now left.
  rewrite (Hfound "/messages") by (right; now eexists).
  rewrite (Hfound "/topology") by (right; now eexists).
  rewrite (Hfound "/export") by (right; now eexists).
  repeat (split; [reflexivity|]).
  intros url code Hcode'.
  assert (E : (code >=? 400) = true) by (rewrite Z.geb_leb; now apply Z.leb_le).
  now rewrite E.
Qed.

Lemma logToChatStructure_routes_witness :
  logToChatStructure "/api/sessions/1f-0a/export" "GET" 200
  = Some (SessionFile "1f-0a").
Proof.
  apply (logToChatStructure_routes "1f-0a" "GET" 200); [reflexivity | discriminate | lia].
Defined.

(** ** Display helpers *)

Lemma floor_quotient (a b : Z) :
  JS.Math_floor (inject_Z a / inject_Z b)%Q = a / b.
Proof. unfold JS.Math_floor. symmetry. apply Zdiv_Qdiv. Qed.

Lemma round_quotient (a b : Z) :
  0 < b -> Math_round (inject_Z a / inject_Z b)%Q = (2 * a + b) / (2 * b).
Proof.
  intros Hb. unfold Math_round. rewrite Zdiv_Qdiv.
  apply Qfloor_comp.
  rewrite inject_Z_plus, !inject_Z_mult.
  field. intros H. unfold Qeq in H. cbn in H. lia.
Qed.

(** X29.  [formatTimeAgo] names the whole minutes, hours or days that
    have passed between the date and the clock, rounded down, in the
    largest unit that has passed at least once: below one minute (and
    for a date in the future) it says [Now]; the number of minutes shown
    lies between 1 and 59, that of hours between 1 and 23, and that of
    days is at least 1. *)
Theorem formatTimeAgo_spec (date : Date) (w : World) :
  let elapsed := getTime (clock w) - getTime date in
  let shown := formatTimeAgo date w in
  (elapsed < 60000 /\ shown = "Now")
  \/ (exists n,
        1 <= n < 60
        /\ n * 60000 <= elapsed < (n + 1) * 60000
        /\ shown = JS.Number_toString n ++ "m ago")
  \/ (exists n,
        1 <= n < 24
        /\ n * 3600000 <= elapsed < (n + 1) * 3600000
        /\ shown = JS.Number_toString n ++ "h ago")
  \/ (exists n,
        1 <= n
        /\ n * 86400000 <= elapsed < (n + 1) * 86400000
        /\ shown = JS.Number_toString n ++ "d ago").
Proof.
  cbv zeta. unfold formatTimeAgo, bind, new_Date, ret.
  change 60000%Q with (inject_Z 60000).
  change 60%Q with (inject_Z 60).
  change 1440%Q with (inject_Z 1440).
  rewrite !floor_quotient.
  set (elapsed := getTime (clock w) - getTime date).
  destruct (Z.ltb_spec (elapsed / 60000) 1) as [H1|H1].
  { left. split; [|reflexivity].
    revert H1. Z.to_euclidean_division_equations. lia. }
  right.
  destruct (Z.ltb_spec (elapsed / 60000) 60) as [H2|H2].
  { left. exists (elapsed / 60000).
    split; [lia|]. split; [|reflexivity].
    clear. Z.to_euclidean_division_equations. lia. }
  right.
  destruct (Z.ltb_spec (elapsed / 60000) 1440) as [H3|H3].
  { left. exists (elapsed / 60000 / 60).
    split; [|split; [|reflexivity]].
    - revert H2 H3. Z.to_euclidean_division_equations. lia.
    - clear. Z.to_euclidean_division_equations. lia. }
  right. exists (elapsed / 60000 / 1440).
  split; [|split; [|reflexivity]].
  - revert H3. Z.to_euclidean_division_equations. lia.
  - clear. Z.to_euclidean_division_equations. lia.
Qed.

(** X30.  [formatSize] shows a size in bytes below 1024, in KB below
    1024 * 1024 and in MB from there on, rounded to the nearest unit, a
    half rounded up; the number of KB or MB shown is never 0.  Since the
    unit is chosen before rounding, the last 512 bytes below one
    megabyte are shown as [1024 KB]. *)
Theorem formatSize_spec (bytes : Z) :
  (bytes < 1024 /\ formatSize bytes = JS.Number_toString bytes ++ " B")
  \/ (exists n,
        1024 <= bytes < 1048576
        /\ 1 <= n <= 1024
        /\ 1024 * n - 512 <= bytes < 1024 * n + 512
        /\ (n = 1024 <-> 1048064 <= bytes)
        /\ formatSize bytes = JS.Number_toString n ++ " KB")
  \/ (exists n,
        1048576 <= bytes
        /\ 1 <= n
        /\ 1048576 * n - 524288 <= bytes < 1048576 * n + 524288
        /\ formatSize bytes = JS.Number_toString n ++ " MB").
Proof.
  unfold formatSize.
  change 1024%Q with (inject_Z 1024).
  change (1024 * 1024)%Q with (inject_Z 1024 * inject_Z 1024)%Q.
  rewrite <- inject_Z_mult.
  rewrite !round_quotient by lia.
  destruct (Z.ltb_spec bytes 1024) as [H1|H1]; [left; now split|].
  right.
  destruct (Z.ltb_spec bytes (1024 * 1024)) as [H2|H2].
  - left. exists ((2 * bytes + 1024) / (2 * 1024)).
    split; [lia|].
    split; [revert H1 H2; Z.to_euclidean_division_equations; lia|].
    split; [clear; Z.to_euclidean_division_equations; lia|].
    split; [|reflexivity].
    revert H1 H2. Z.to_euclidean_division_equations. lia.
  - right. exists ((2 * bytes + 1024 * 1024) / (2 * (1024 * 1024))).
    split; [lia|].
    split; [revert H2; Z.to_euclidean_division_equations; lia|].
    split; [|reflexivity].
    clear. Z.to_euclidean_division_equations. lia.
Qed.
